(** * Personal library manager: the [Book] and [Library] classes

    A shallow embedding of the data-management layer of
    [personal_library_manager.py] (classes [Book] and [Library]) and the
    properties of its specification that concern it.

    Conventions of the embedding.
    - A [Book] is a record typed by the annotations of [Book.__init__]:
      text attributes are strings, [year], [pages] and [rating] are
      optional integers, [tags] is a list of strings.
    - Python values that reach the classes from outside (keyword arguments,
      decoded JSON) are [pyval]s.  Where the source would store such a value
      in an attribute whose annotation it does not meet, the embedding
      answers [Untyped]: the source goes on, the typed record cannot.
    - A method that mutates [self] is a function from the object to an
      outcome and the object as the call leaves it, also when it raises.
    - The clock ([datetime.datetime.now()]) is an argument: the proleptic
      Gregorian ordinal of the current day.  Only the day is ever used
      (formatting with [%Y-%m-%d], adding whole days).
    - A string is the UTF-8 encoding of a text.  [str.lower] is computed on
      ASCII text and taken from its argument [unicode_lower] elsewhere.
    - [getattr] and [hasattr] know the sixteen data attributes of a book and
      the names that are no attribute; for the names of methods and the
      names that start with an underscore they answer [Untyped].
    - The keywords of a [**kwargs] call come as the list of their pairs, in
      the order of the call; a keyword that bears the name of a parameter
      raises [TypeError] when the arguments are bound.
    - A float is an IEEE 754 binary64 number, and [int / int] and [round]
      are computed on it as Python computes them.  A file is known by the
      string of its path. *)

From Stdlib Require Import ZArith List String Ascii Bool Lia DecimalString.
From Stdlib Require Import Sorted Permutation SpecFloat.
Import ListNotations.
Open Scope string_scope.
Open Scope Z_scope.

(** ** Python values, exceptions, outcomes *)

#[local] Set Warnings "-register-all".

Inductive pyval : Type :=
| VNone
| VInt (z : Z)
| VStr (s : string)
| VList (l : list pyval)
| VDict (d : list (string * pyval)).

(** The exceptions the two classes raise or meet, with their message
    ([str(e)] for all but [KeyError], whose [str] is the [repr] of the key). *)
Inductive exn : Type :=
| ValueError (msg : string)
| KeyError (key : string)
| TypeError (msg : string)
| AttributeError (msg : string)
| OverflowError (msg : string)
| OSError (msg : string)
| JSONDecodeError (msg : string).

Inductive result (A : Type) : Type :=
| Ok (a : A)
| Raise (e : exn)
| Untyped.
Arguments Ok {A} a.
Arguments Raise {A} e.
Arguments Untyped {A}.

Definition bind {A B : Type} (r : result A) (k : A -> result B) : result B :=
  match r with
  | Ok a => k a
  | Raise e => Raise e
  | Untyped => Untyped
  end.

Declare Scope py_scope.
Delimit Scope py_scope with py.
Notation "x <- c1 ;; c2" := (bind c1 (fun x => c2))
  (at level 61, c1 at next level, right associativity) : py_scope.
Open Scope py_scope.

Definition is_exception {A : Type} (r : result A) : bool :=
  match r with Raise _ => true | _ => false end.

(** ** Strings as the source uses them *)

Definition lower_ascii (c : ascii) : ascii :=
  let n := N_of_ascii c in
  if ((65 <=? n) && (n <=? 90))%N then ascii_of_N (n + 32) else c.

(** the letters A to Z of a string put in lower case *)
Fixpoint ascii_lower (s : string) : string :=
  match s with
  | EmptyString => EmptyString
  | String c s' => String (lower_ascii c) (ascii_lower s')
  end.

(** every byte of the string is an ASCII character *)
Fixpoint is_ascii (s : string) : bool :=
  match s with
  | EmptyString => true
  | String c s' => (N_of_ascii c <? 128)%N && is_ascii s'
  end.

(** [str.lower].  On ASCII text it puts the letters A to Z in lower case
    and changes nothing else.  On any other text (a string is the UTF-8
    encoding of the text) it follows the case tables of Unicode, which are
    not part of this development: [unicode_lower] stands for [str.lower]
    there. *)
Definition lower (unicode_lower : string -> string) (s : string) : string :=
  if is_ascii s then ascii_lower s else unicode_lower s.

(** [sub in s] on strings *)
Fixpoint contains (sub s : string) : bool :=
  if prefix sub s then true
  else match s with
       | EmptyString => false
       | String _ s' => contains sub s'
       end.

(** [str(z)] for an integer *)
Definition str_of_Z (z : Z) : string := NilZero.string_of_int (Z.to_int z).

(** the characters of a string, as iteration over it yields them *)
Fixpoint chars (s : string) : list string :=
  match s with
  | EmptyString => []
  | String c s' => String c EmptyString :: chars s'
  end.

(** ** Dictionaries (insertion ordered, as Python's) *)

Fixpoint dict_lookup {V : Type} (k : string) (d : list (string * V)) : option V :=
  match d with
  | [] => None
  | (k', v) :: d' => if String.eqb k k' then Some v else dict_lookup k d'
  end.

(** [a == b] on Python values: lists by position, dictionaries by key *)
Fixpoint pyval_eqb (a b : pyval) {struct a} : bool :=
  match a, b with
  | VNone, VNone => true
  | VInt x, VInt y => Z.eqb x y
  | VStr x, VStr y => String.eqb x y
  | VList l, VList m =>
      (fix go (l : list pyval) (m : list pyval) {struct l} : bool :=
         match l, m with
         | [], [] => true
         | x :: l', y :: m' => pyval_eqb x y && go l' m'
         | _, _ => false
         end) l m
  | VDict d, VDict e =>
      Nat.eqb (List.length d) (List.length e) &&
      (fix go (d : list (string * pyval)) {struct d} : bool :=
         match d with
         | [] => true
         | (k, v) :: d' =>
             match dict_lookup k e with
             | Some v' => pyval_eqb v v'
             | None => false
             end && go d'
         end) d
  | _, _ => false
  end.

(** the name Python gives the type of a value in its messages *)
Definition type_name (v : pyval) : string :=
  match v with
  | VNone => "NoneType"
  | VInt _ => "int"
  | VStr _ => "str"
  | VList _ => "list"
  | VDict _ => "dict"
  end.

(** [data[key]] with a string key *)
Definition subscript (data : pyval) (key : string) : result pyval :=
  match data with
  | VDict d =>
      match dict_lookup key d with
      | Some v => Ok v
      | None => Raise (KeyError key)
      end
  | VList _ => Raise (TypeError "list indices must be integers or slices, not str")
  | VStr _ => Raise (TypeError "string indices must be integers, not 'str'")
  | v => Raise (TypeError ("'" ++ type_name v ++ "' object is not subscriptable"))
  end.

(** [data.get(key, default)] *)
Definition get (data : pyval) (key : string) (default : pyval) : result pyval :=
  match data with
  | VDict d =>
      match dict_lookup key d with
      | Some v => Ok v
      | None => Ok default
      end
  | v => Raise (AttributeError ("'" ++ type_name v ++ "' object has no attribute 'get'"))
  end.

(** the items a [for] loop draws from a value *)
Definition iterate (v : pyval) : result (list pyval) :=
  match v with
  | VList l => Ok l
  | VDict d => Ok (map (fun kv => VStr (fst kv)) d)
  | VStr s => Ok (map VStr (chars s))
  | v => Raise (TypeError ("'" ++ type_name v ++ "' object is not iterable"))
  end.

(** Casts from a Python value to the annotated type of an attribute. *)
Definition as_str (v : pyval) : result string :=
  match v with VStr s => Ok s | _ => Untyped end.

Definition as_opt_int (v : pyval) : result (option Z) :=
  match v with VNone => Ok None | VInt z => Ok (Some z) | _ => Untyped end.

Definition as_opt_str (v : pyval) : result (option string) :=
  match v with VNone => Ok None | VStr s => Ok (Some s) | _ => Untyped end.

Fixpoint as_strs (l : list pyval) : result (list string) :=
  match l with
  | [] => Ok []
  | VStr s :: l' => r <- as_strs l' ;; Ok (s :: r)
  | _ => Untyped
  end.

Definition as_str_list (v : pyval) : result (list string) :=
  match v with VList l => as_strs l | _ => Untyped end.

Definition as_opt_str_list (v : pyval) : result (option (list string)) :=
  match v with
  | VNone => Ok None
  | VList l => r <- as_strs l ;; Ok (Some r)
  | _ => Untyped
  end.

(** ** The calendar of [datetime] *)

Module Datetime.

Definition MINORDINAL : Z := 1.
Definition MAXORDINAL : Z := 3652059.   (* 9999-12-31 *)

Definition in_range (n : Z) : Prop := MINORDINAL <= n <= MAXORDINAL.

Definition in_rangeb (n : Z) : bool := (MINORDINAL <=? n) && (n <=? MAXORDINAL).

Definition days_in_month (m : Z) : Z :=
  match m with
  | 1 => 31 | 2 => 28 | 3 => 31 | 4 => 30 | 5 => 31 | 6 => 30
  | 7 => 31 | 8 => 31 | 9 => 30 | 10 => 31 | 11 => 30 | 12 => 31
  | _ => 0
  end.

Definition days_before_month (m : Z) : Z :=
  match m with
  | 1 => 0 | 2 => 31 | 3 => 59 | 4 => 90 | 5 => 120 | 6 => 151
  | 7 => 181 | 8 => 212 | 9 => 243 | 10 => 273 | 11 => 304 | 12 => 334
  | _ => 0
  end.

Definition b2z (b : bool) : Z := if b then 1 else 0.

(** ordinal to (year, month, day), as the library's [_ord2ymd] *)
Definition ord2ymd (ordinal : Z) : Z * Z * Z :=
  let n := ordinal - 1 in
  let n400 := n / 146097 in
  let n := n mod 146097 in
  let n100 := n / 36524 in
  let n := n mod 36524 in
  let n4 := n / 1461 in
  let n := n mod 1461 in
  let n1 := n / 365 in
  let n := n mod 365 in
  let year := n400 * 400 + 1 + n100 * 100 + n4 * 4 + n1 in
  if (n1 =? 4) || (n100 =? 4) then (year - 1, 12, 31)
  else
    let leapyear := (n1 =? 3) && (negb (n4 =? 24) || (n100 =? 3)) in
    let month := Z.shiftr (n + 50) 5 in
    let preceding := days_before_month month + b2z ((2 <? month) && leapyear) in
    if n <? preceding then
      let month' := month - 1 in
      let preceding' :=
        preceding - (days_in_month month' + b2z ((month' =? 2) && leapyear)) in
      (year, month', n - preceding' + 1)
    else (year, month, n - preceding + 1).

(** decimal rendering, padded with zeros on the left to [width] *)
Fixpoint zeros (k : nat) : string :=
  match k with O => "" | S k' => "0" ++ zeros k' end.

Definition zfill (width : nat) (z : Z) : string :=
  let s := str_of_Z z in
  zeros (width - String.length s) ++ s.

(** [d.strftime("%Y-%m-%d")]; the year is written with four digits *)
Definition strftime (ordinal : Z) : string :=
  let '(y, m, d) := ord2ymd ordinal in
  zfill 4 y ++ "-" ++ zfill 2 m ++ "-" ++ zfill 2 d.

(** [today + datetime.timedelta(days=days)] *)
Definition add_days (today days : Z) : result Z :=
  if 999999999 <? Z.abs days then
    Raise (OverflowError ("days=" ++ str_of_Z days ++ "; must have magnitude <= 999999999"))
  else if in_rangeb (today + days) then Ok (today + days)
  else Raise (OverflowError "date value out of range").

End Datetime.

(** ** class [Book] *)

Module Book.

Record t : Type := mk {
  title : string;
  author : string;
  isbn : string;
  genre : string;
  year : option Z;
  publisher : string;
  pages : option Z;
  description : string;
  location : string;
  status : string;          (* Available, Borrowed, Lost, etc. *)
  rating : option Z;        (* 1-5 stars *)
  date_added : string;
  borrowed_by : string;
  borrowed_date : string;
  due_date : string;
  tags : list string
}.

(** Attribute assignment, one function per attribute. *)
Definition set_title (b : t) (v : string) : t :=
  mk v (author b) (isbn b) (genre b) (year b) (publisher b) (pages b) (description b)
     (location b) (status b) (rating b) (date_added b) (borrowed_by b) (borrowed_date b)
     (due_date b) (tags b).
Definition set_author (b : t) (v : string) : t :=
  mk (title b) v (isbn b) (genre b) (year b) (publisher b) (pages b) (description b)
     (location b) (status b) (rating b) (date_added b) (borrowed_by b) (borrowed_date b)
     (due_date b) (tags b).
Definition set_isbn (b : t) (v : string) : t :=
  mk (title b) (author b) v (genre b) (year b) (publisher b) (pages b) (description b)
     (location b) (status b) (rating b) (date_added b) (borrowed_by b) (borrowed_date b)
     (due_date b) (tags b).
Definition set_genre (b : t) (v : string) : t :=
  mk (title b) (author b) (isbn b) v (year b) (publisher b) (pages b) (description b)
     (location b) (status b) (rating b) (date_added b) (borrowed_by b) (borrowed_date b)
     (due_date b) (tags b).
Definition set_year (b : t) (v : option Z) : t :=
  mk (title b) (author b) (isbn b) (genre b) v (publisher b) (pages b) (description b)
     (location b) (status b) (rating b) (date_added b) (borrowed_by b) (borrowed_date b)
     (due_date b) (tags b).
Definition set_publisher (b : t) (v : string) : t :=
  mk (title b) (author b) (isbn b) (genre b) (year b) v (pages b) (description b)
     (location b) (status b) (rating b) (date_added b) (borrowed_by b) (borrowed_date b)
     (due_date b) (tags b).
Definition set_pages (b : t) (v : option Z) : t :=
  mk (title b) (author b) (isbn b) (genre b) (year b) (publisher b) v (description b)
     (location b) (status b) (rating b) (date_added b) (borrowed_by b) (borrowed_date b)
     (due_date b) (tags b).
Definition set_description (b : t) (v : string) : t :=
  mk (title b) (author b) (isbn b) (genre b) (year b) (publisher b) (pages b) v
     (location b) (status b) (rating b) (date_added b) (borrowed_by b) (borrowed_date b)
     (due_date b) (tags b).
Definition set_location (b : t) (v : string) : t :=
  mk (title b) (author b) (isbn b) (genre b) (year b) (publisher b) (pages b) (description b)
     v (status b) (rating b) (date_added b) (borrowed_by b) (borrowed_date b)
     (due_date b) (tags b).
Definition set_status (b : t) (v : string) : t :=
  mk (title b) (author b) (isbn b) (genre b) (year b) (publisher b) (pages b) (description b)
     (location b) v (rating b) (date_added b) (borrowed_by b) (borrowed_date b)
     (due_date b) (tags b).
Definition set_rating (b : t) (v : option Z) : t :=
  mk (title b) (author b) (isbn b) (genre b) (year b) (publisher b) (pages b) (description b)
     (location b) (status b) v (date_added b) (borrowed_by b) (borrowed_date b)
     (due_date b) (tags b).
Definition set_date_added (b : t) (v : string) : t :=
  mk (title b) (author b) (isbn b) (genre b) (year b) (publisher b) (pages b) (description b)
     (location b) (status b) (rating b) v (borrowed_by b) (borrowed_date b)
     (due_date b) (tags b).
Definition set_borrowed_by (b : t) (v : string) : t :=
  mk (title b) (author b) (isbn b) (genre b) (year b) (publisher b) (pages b) (description b)
     (location b) (status b) (rating b) (date_added b) v (borrowed_date b)
     (due_date b) (tags b).
Definition set_borrowed_date (b : t) (v : string) : t :=
  mk (title b) (author b) (isbn b) (genre b) (year b) (publisher b) (pages b) (description b)
     (location b) (status b) (rating b) (date_added b) (borrowed_by b) v
     (due_date b) (tags b).
Definition set_due_date (b : t) (v : string) : t :=
  mk (title b) (author b) (isbn b) (genre b) (year b) (publisher b) (pages b) (description b)
     (location b) (status b) (rating b) (date_added b) (borrowed_by b) (borrowed_date b)
     v (tags b).
Definition set_tags (b : t) (v : list string) : t :=
  mk (title b) (author b) (isbn b) (genre b) (year b) (publisher b) (pages b) (description b)
     (location b) (status b) (rating b) (date_added b) (borrowed_by b) (borrowed_date b)
     (due_date b) v.

(** [Book.__init__].  [date_added] and [tags] are [None] by default; the
    body has no [raise]. *)
Definition init (today : Z)
    (title author isbn genre : string) (year : option Z) (publisher : string)
    (pages : option Z) (description location status : string) (rating : option Z)
    (date_added : option string) (tags : option (list string)) : result t :=
  let date_added :=
    match date_added with
    | None => Datetime.strftime today
    | Some d => d
    end in
  let tags := match tags with Some l => l | None => [] end in
  Ok (mk title author isbn genre year publisher pages description location status
         rating date_added "" "" "" tags).

(** [Book(title, author)]: every other argument at its default *)
Definition new (today : Z) (title author : string) : result t :=
  init today title author "" "" None "" None "" "Shelf" "Available" None None None.

Definition of_opt_int (o : option Z) : pyval :=
  match o with Some z => VInt z | None => VNone end.

(** [Book.to_dict] *)
Definition to_dict (self : t) : pyval :=
  VDict
    [ ("title", VStr (title self));
      ("author", VStr (author self));
      ("isbn", VStr (isbn self));
      ("genre", VStr (genre self));
      ("year", of_opt_int (year self));
      ("publisher", VStr (publisher self));
      ("pages", of_opt_int (pages self));
      ("description", VStr (description self));
      ("location", VStr (location self));
      ("status", VStr (status self));
      ("rating", of_opt_int (rating self));
      ("date_added", VStr (date_added self));
      ("borrowed_by", VStr (borrowed_by self));
      ("borrowed_date", VStr (borrowed_date self));
      ("due_date", VStr (due_date self));
      ("tags", VList (map VStr (tags self))) ].

(** [Book.from_dict].  The arguments of the constructor call are evaluated
    first, in the order written (so a missing [title] or [author] raises
    before anything is stored), then they are stored at the annotated
    types. *)
Definition from_dict (today : Z) (data : pyval) : result t :=
  v_title <- subscript data "title" ;;
  v_author <- subscript data "author" ;;
  v_isbn <- get data "isbn" (VStr "") ;;
  v_genre <- get data "genre" (VStr "") ;;
  v_year <- get data "year" VNone ;;
  v_publisher <- get data "publisher" (VStr "") ;;
  v_pages <- get data "pages" VNone ;;
  v_description <- get data "description" (VStr "") ;;
  v_location <- get data "location" (VStr "Shelf") ;;
  v_status <- get data "status" (VStr "Available") ;;
  v_rating <- get data "rating" VNone ;;
  v_date_added <- get data "date_added" VNone ;;
  v_tags <- get data "tags" (VList []) ;;
  a_title <- as_str v_title ;;
  a_author <- as_str v_author ;;
  a_isbn <- as_str v_isbn ;;
  a_genre <- as_str v_genre ;;
  a_year <- as_opt_int v_year ;;
  a_publisher <- as_str v_publisher ;;
  a_pages <- as_opt_int v_pages ;;
  a_description <- as_str v_description ;;
  a_location <- as_str v_location ;;
  a_status <- as_str v_status ;;
  a_rating <- as_opt_int v_rating ;;
  a_date_added <- as_opt_str v_date_added ;;
  a_tags <- as_opt_str_list v_tags ;;
  book <- init today a_title a_author a_isbn a_genre a_year a_publisher a_pages
            a_description a_location a_status a_rating a_date_added a_tags ;;
  (* Set borrowing info *)
  v_by <- get data "borrowed_by" (VStr "") ;;
  a_by <- as_str v_by ;;
  let book := set_borrowed_by book a_by in
  v_date <- get data "borrowed_date" (VStr "") ;;
  a_date <- as_str v_date ;;
  let book := set_borrowed_date book a_date in
  v_due <- get data "due_date" (VStr "") ;;
  a_due <- as_str v_due ;;
  let book := set_due_date book a_due in
  Ok book.

(** [Book.lend].  The object is written field by field, so a failure of
    the date arithmetic leaves the first three assignments in place. *)
Definition lend (today : Z) (borrower : string) (days : Z) (self : t) : result unit * t :=
  if negb (String.eqb (status self) "Available") then
    (Raise (ValueError ("Book is not available. Current status: " ++ status self)), self)
  else
    let self := set_status self "Borrowed" in
    let self := set_borrowed_by self borrower in
    let self := set_borrowed_date self (Datetime.strftime today) in
    match Datetime.add_days today days with
    | Ok due_date => (Ok tt, set_due_date self (Datetime.strftime due_date))
    | Raise e => (Raise e, self)
    | Untyped => (Untyped, self)
    end.



(** [Book.return_book] *)
Definition return_book (self : t) : result unit * t :=
  if negb (String.eqb (status self) "Borrowed") then
    (Raise (ValueError ("Book is not borrowed. Current status: " ++ status self)), self)
  else
    let self := set_status self "Available" in
    let self := set_borrowed_by self "" in
    let self := set_borrowed_date self "" in
    let self := set_due_date self "" in
    (Ok tt, self).

Definition mem (x : string) (l : list string) : bool := existsb (String.eqb x) l.

(** [list.remove]: the first occurrence *)
Fixpoint remove_first (x : string) (l : list string) : list string :=
  match l with
  | [] => []
  | y :: l' => if String.eqb x y then l' else y :: remove_first x l'
  end.

(** [Book.add_tag] *)
Definition add_tag (tag : string) (self : t) : t :=
  if negb (mem tag (tags self)) then set_tags self (tags self ++ [tag]) else self.

(** [Book.remove_tag] *)
Definition remove_tag (tag : string) (self : t) : t :=
  if mem tag (tags self) then set_tags self (remove_first tag (tags self)) else self.

(** the methods of the class *)
Definition method_names : list string :=
  ["to_dict"; "from_dict"; "lend"; "return_book"; "add_tag"; "remove_tag"].

(** A name that may be an attribute of a book without being one of its
    sixteen data attributes: the name of a method, or a name that starts
    with an underscore, as the names that the class and [object] define
    all do ([__init__], [__dict__], [__doc__], [__class__]...).  What
    Python answers for such a name is outside the embedding. *)
Definition unmodelled (key : string) : bool := mem key method_names || prefix "_" key.

Definition no_attribute (key : string) : exn :=
  AttributeError ("'Book' object has no attribute '" ++ key ++ "'").

(** [getattr(book, key)] *)
Definition getattr (b : t) (key : string) : result pyval :=
  if String.eqb key "title" then Ok (VStr (title b))
  else if String.eqb key "author" then Ok (VStr (author b))
  else if String.eqb key "isbn" then Ok (VStr (isbn b))
  else if String.eqb key "genre" then Ok (VStr (genre b))
  else if String.eqb key "year" then Ok (of_opt_int (year b))
  else if String.eqb key "publisher" then Ok (VStr (publisher b))
  else if String.eqb key "pages" then Ok (of_opt_int (pages b))
  else if String.eqb key "description" then Ok (VStr (description b))
  else if String.eqb key "location" then Ok (VStr (location b))
  else if String.eqb key "status" then Ok (VStr (status b))
  else if String.eqb key "rating" then Ok (of_opt_int (rating b))
  else if String.eqb key "date_added" then Ok (VStr (date_added b))
  else if String.eqb key "borrowed_by" then Ok (VStr (borrowed_by b))
  else if String.eqb key "borrowed_date" then Ok (VStr (borrowed_date b))
  else if String.eqb key "due_date" then Ok (VStr (due_date b))
  else if String.eqb key "tags" then Ok (VList (map VStr (tags b)))
  else if unmodelled key then Untyped
  else Raise (no_attribute key).

(** [hasattr(book, key)]: [getattr] with its [AttributeError] caught *)
Definition hasattr (b : t) (key : string) : result bool :=
  match getattr b key with
  | Ok _ => Ok true
  | Raise _ => Ok false
  | Untyped => Untyped
  end.

(** [setattr(book, key, value)] for the sixteen data attributes *)
Definition setattr (b : t) (key : string) (value : pyval) : result t :=
  if String.eqb key "title" then v <- as_str value ;; Ok (set_title b v)
  else if String.eqb key "author" then v <- as_str value ;; Ok (set_author b v)
  else if String.eqb key "isbn" then v <- as_str value ;; Ok (set_isbn b v)
  else if String.eqb key "genre" then v <- as_str value ;; Ok (set_genre b v)
  else if String.eqb key "year" then v <- as_opt_int value ;; Ok (set_year b v)
  else if String.eqb key "publisher" then v <- as_str value ;; Ok (set_publisher b v)
  else if String.eqb key "pages" then v <- as_opt_int value ;; Ok (set_pages b v)
  else if String.eqb key "description" then v <- as_str value ;; Ok (set_description b v)
  else if String.eqb key "location" then v <- as_str value ;; Ok (set_location b v)
  else if String.eqb key "status" then v <- as_str value ;; Ok (set_status b v)
  else if String.eqb key "rating" then v <- as_opt_int value ;; Ok (set_rating b v)
  else if String.eqb key "date_added" then v <- as_str value ;; Ok (set_date_added b v)
  else if String.eqb key "borrowed_by" then v <- as_str value ;; Ok (set_borrowed_by b v)
  else if String.eqb key "borrowed_date" then v <- as_str value ;; Ok (set_borrowed_date b v)
  else if String.eqb key "due_date" then v <- as_str value ;; Ok (set_due_date b v)
  else if String.eqb key "tags" then v <- as_str_list value ;; Ok (set_tags b v)
  else Untyped.

End Book.

(** ** The floats of Python *)

Module Float.

(** A [float] is an IEEE 754 binary64 number: 53 bits of precision,
    exponents below 1024. *)
Definition t : Type := spec_float.
Definition prec : Z := 53.
Definition emax : Z := 1024.

(** the float nearest to [n / d], ties going to the even mantissa, with the
    sign [s]; [n] is not negative and [d] is positive *)
Definition nearest (s : bool) (n d : Z) : t :=
  match n, d with
  | Zpos n', Zpos d' => SFdiv prec emax (S754_finite s n' 0) (S754_finite false d' 0)
  | Z0, Zpos _ => S754_zero s
  | _, _ => S754_nan
  end.

(** [a / b] on integers, which Python rounds once, from the exact quotient.
    Where Python raises ([ZeroDivisionError] for [b = 0], [OverflowError]
    for a quotient beyond the largest float) the value here is not a
    number or is infinite. *)
Definition truediv (a b : Z) : t :=
  nearest (xorb (a <? 0) (b <? 0)) (Z.abs a) (Z.abs b).

(** the integer nearest to [n / d], the even one of two that are equally
    near; [d] is positive *)
Definition half_even (n d : Z) : Z :=
  let q := n / d in
  match 2 * (n mod d) ?= d with
  | Lt => q
  | Gt => q + 1
  | Eq => if Z.even q then q else q + 1
  end.

(** [round(x, ndigits)] on a float: the exact value of [x] is rounded to
    the nearest multiple of [10 ** -ndigits], a tie going to the even
    multiple, and that decimal is read back as the nearest float.  Zeros,
    infinities and not-a-number round to themselves. *)
Definition round (x : t) (ndigits : Z) : t :=
  match x with
  | S754_finite s m e =>
      (* the value of [x] is [num / den] *)
      let num := Zpos m * 2 ^ Z.max e 0 in
      let den := 2 ^ Z.max (- e) 0 in
      if 0 <=? ndigits
      then nearest s (half_even (num * 10 ^ ndigits) den) (10 ^ ndigits)
      else nearest s (half_even num (den * 10 ^ (- ndigits)) * 10 ^ (- ndigits)) 1
  | _ => x
  end.

(** the float that the decimal [n / 100] denotes, as the literal [4.33]
    denotes the float nearest to 433 / 100 *)
Definition hundredths (n : Z) : t := truediv n 100.

End Float.

(** ** The world outside: files and the page *)

(** What a path names.  [json.load] is taken at its result: a file holds
    either text the decoder rejects or the value it decodes to. *)
Inductive node : Type :=
| Unreadable (e : exn)      (* exists, but [open(path, 'r')] raises [e] *)
| Garbled (msg : string)    (* [json.load] raises [JSONDecodeError(msg)] *)
| Document (data : pyval).  (* [json.load] returns [data] *)

Record world : Type := mk_world {
  files : string -> option node;        (* [None]: [os.path.exists] is false *)
  unwritable : string -> option exn;    (* [open(path, 'w')] raises this *)
  st_errors : list string               (* what [st.error] has shown, oldest first *)
}.

Definition st_error (w : world) (msg : string) : world :=
  mk_world (files w) (unwritable w) (st_errors w ++ [msg]).

Definition write_file (w : world) (path : string) (data : pyval) : world :=
  mk_world (fun p => if String.eqb p path then Some (Document data) else files w p)
           (unwritable w) (st_errors w).

(** [str(e)] *)
Definition str_exn (e : exn) : string :=
  match e with
  | KeyError key => "'" ++ key ++ "'"
  | ValueError msg | TypeError msg | AttributeError msg
  | OverflowError msg | OSError msg | JSONDecodeError msg => msg
  end.

(** ** class [Library] *)

Module Library.

Record t : Type := mk {
  name : string;
  books : list Book.t;
  file_path : string
}.

Definition set_name (l : t) (v : string) : t := mk v (books l) (file_path l).
Definition set_books (l : t) (v : list Book.t) : t := mk (name l) v (file_path l).
Definition set_file_path (l : t) (v : string) : t := mk (name l) (books l) v.

Definition default_name : string := "My Personal Library".

(** [Library.__init__] *)
Definition init (name : string) : t := mk name [] "library_data.json".

(** [len(self.books)] *)
Definition len (self : t) : Z := Z.of_nat (List.length (books self)).

(** the test of [add_book]'s loop *)
Definition same_title_author (unicode_lower : string -> string)
    (existing_book book : Book.t) : bool :=
  String.eqb (lower unicode_lower (Book.title existing_book))
             (lower unicode_lower (Book.title book)) &&
  String.eqb (lower unicode_lower (Book.author existing_book))
             (lower unicode_lower (Book.author book)).

(** the loop of [add_book]: [true] when it reaches the [raise] *)
Fixpoint already_exists (unicode_lower : string -> string)
    (existing : list Book.t) (book : Book.t) : bool :=
  match existing with
  | [] => false
  | existing_book :: rest =>
      if same_title_author unicode_lower existing_book book then true
      else already_exists unicode_lower rest book
  end.

Definition already_exists_msg (book : Book.t) : string :=
  "Book '" ++ Book.title book ++ "' by " ++ Book.author book ++
  " already exists in the library.".

(** [Library.add_book] *)
Definition add_book (unicode_lower : string -> string) (book : Book.t) (self : t)
  : result unit * t :=
  if already_exists unicode_lower (books self) book then
    (Raise (ValueError (already_exists_msg book)), self)
  else (Ok tt, set_books self (books self ++ [book])).

Definition valid_id (self : t) (book_id : Z) : bool :=
  (0 <=? book_id) && (book_id <? len self).

Definition invalid_id (book_id : Z) : exn :=
  ValueError ("Invalid book ID: " ++ str_of_Z book_id).

(** [list.pop(i)] for an index in range *)
Fixpoint pop {A : Type} (i : nat) (l : list A) : list A :=
  match l, i with
  | [], _ => []
  | _ :: l', O => l'
  | x :: l', S i' => x :: pop i' l'
  end.

(** [Library.remove_book] *)
Definition remove_book (book_id : Z) (self : t) : result Book.t * t :=
  if valid_id self book_id then
    match nth_error (books self) (Z.to_nat book_id) with
    | Some removed_book =>
        (Ok removed_book, set_books self (pop (Z.to_nat book_id) (books self)))
    | None => (Raise (invalid_id book_id), self)
    end
  else (Raise (invalid_id book_id), self).

(** [Library.get_book] *)
Definition get_book (book_id : Z) (self : t) : result Book.t :=
  if valid_id self book_id then
    match nth_error (books self) (Z.to_nat book_id) with
    | Some book => Ok book
    | None => Raise (invalid_id book_id)
    end
  else Raise (invalid_id book_id).

(** A keyword that bears the name of a parameter the call has already
    bound is refused when the arguments are bound, before the body runs. *)
Definition multiple_values (method arg : string) : exn :=
  TypeError ("Library." ++ method ++ "() got multiple values for argument '" ++ arg ++ "'").

(** the first keyword that bears the name of one of the parameters *)
Fixpoint bound_twice (params : list string) (kwargs : list (string * pyval))
  : option string :=
  match kwargs with
  | [] => None
  | (key, _) :: rest =>
      if Book.mem key params then Some key else bound_twice params rest
  end.

(** the loop of [update_book] over the keyword arguments *)
Fixpoint update_attrs (book : Book.t) (kwargs : list (string * pyval)) : result Book.t :=
  match kwargs with
  | [] => Ok book
  | (key, value) :: rest =>
      h <- Book.hasattr book key ;;
      if h then book' <- Book.setattr book key value ;; update_attrs book' rest
      else update_attrs book rest
  end.

(** the list with its [i]-th cell holding [x] *)
Fixpoint store {A : Type} (i : nat) (x : A) (l : list A) : list A :=
  match l, i with
  | [], _ => []
  | _ :: l', O => x :: l'
  | y :: l', S i' => y :: store i' x l'
  end.

(** [Library.update_book(book_id, **kwargs)]: the book is changed in place,
    so the list holds the changed book at the same index. *)
Definition update_book (book_id : Z) (kwargs : list (string * pyval)) (self : t)
  : result unit * t :=
  match bound_twice ["self"; "book_id"] kwargs with
  | Some key => (Raise (multiple_values "update_book" key), self)
  | None =>
  if valid_id self book_id then
    match nth_error (books self) (Z.to_nat book_id) with
    | Some book =>
        match update_attrs book kwargs with
        | Ok book' => (Ok tt, set_books self (store (Z.to_nat book_id) book' (books self)))
        | Raise e => (Raise e, self)
        | Untyped => (Untyped, self)
        end
    | None => (Raise (invalid_id book_id), self)
    end
  else (Raise (invalid_id book_id), self)
  end.

Definition default_fields : list string :=
  ["title"; "author"; "isbn"; "genre"; "publisher"; "description"; "tags"].

(** [c and hasattr(book, name)]: the second operand is evaluated only when
    the first holds *)
Definition and_hasattr (c : bool) (book : Book.t) (name : string) : result bool :=
  if c then Book.hasattr book name else Ok false.

(** the inner loop of [search_books]: [true] when it reaches an [append];
    [query] is already in lower case *)
Fixpoint search_fields (unicode_lower : string -> string) (query : string)
    (fields : list string) (book : Book.t) : result bool :=
  match fields with
  | [] => Ok false
  | field :: rest =>
      is_tags <- and_hasattr (String.eqb field "tags") book "tags" ;;
      if is_tags then
        (* Search in tags list *)
        if existsb (fun tag => contains query (lower unicode_lower tag)) (Book.tags book)
        then Ok true
        else search_fields unicode_lower query rest book
      else
        h <- Book.hasattr book field ;;
        if h then
          value <- Book.getattr book field ;;
          match value with
          | VStr s =>
              if contains query (lower unicode_lower s) then Ok true
              else search_fields unicode_lower query rest book
          | VInt z =>
              if contains query (lower unicode_lower (str_of_Z z)) then Ok true
              else search_fields unicode_lower query rest book
          | VNone => search_fields unicode_lower query rest book
          | VList _ | VDict _ =>
              (* only [tags] holds a list, and it is taken by the first branch *)
              search_fields unicode_lower query rest book
          end
        else search_fields unicode_lower query rest book
  end.

(** the outer loop, [i] being the index [enumerate] gives the head *)
Fixpoint search_from (unicode_lower : string -> string) (i : Z) (query : string)
    (fields : list string) (bks : list Book.t) : result (list Z) :=
  match bks with
  | [] => Ok []
  | book :: rest =>
      m <- search_fields unicode_lower query fields book ;;
      results <- search_from unicode_lower (i + 1) query fields rest ;;
      Ok (if m then i :: results else results)
  end.

(** [Library.search_books] *)
Definition search_books (unicode_lower : string -> string) (query : string)
    (fields : option (list string)) (self : t) : result (list Z) :=
  let fields := match fields with Some f => f | None => default_fields end in
  let query := lower unicode_lower query in
  search_from unicode_lower 0 query fields (books self).

Definition not_supported (op : string) (value : pyval) : exn :=
  TypeError ("'" ++ op ++ "' not supported between instances of 'int' and '" ++
             type_name value ++ "'").

(** [n < value] and [n > value] for an integer attribute [n] *)
Definition int_lt (n : Z) (value : pyval) : result bool :=
  match value with
  | VInt v => Ok (n <? v)
  | _ => Raise (not_supported "<" value)
  end.

Definition int_gt (n : Z) (value : pyval) : result bool :=
  match value with
  | VInt v => Ok (n >? v)
  | _ => Raise (not_supported ">" value)
  end.

(** [c and o is not None], naming the value of [o] when it holds *)
Definition and_not_none (c : bool) (o : option Z) : option Z :=
  if c then o else None.

(** the inner loop of [filter_books]: the value of [match] when it ends *)
Fixpoint filter_match (book : Book.t) (kwargs : list (string * pyval)) : result bool :=
  match kwargs with
  | [] => Ok true
  | (key, value) :: rest =>
      c1 <- and_hasattr (String.eqb key "year_from") book "year" ;;
      match and_not_none c1 (Book.year book) with
      | Some y => lt <- int_lt y value ;; if lt then Ok false else filter_match book rest
      | None =>
      c2 <- and_hasattr (String.eqb key "year_to") book "year" ;;
      match and_not_none c2 (Book.year book) with
      | Some y => gt <- int_gt y value ;; if gt then Ok false else filter_match book rest
      | None =>
      c3 <- and_hasattr (String.eqb key "rating_from") book "rating" ;;
      match and_not_none c3 (Book.rating book) with
      | Some r => lt <- int_lt r value ;; if lt then Ok false else filter_match book rest
      | None =>
      c4 <- and_hasattr (String.eqb key "rating_to") book "rating" ;;
      match and_not_none c4 (Book.rating book) with
      | Some r => gt <- int_gt r value ;; if gt then Ok false else filter_match book rest
      | None =>
      h <- Book.hasattr book key ;;
      if h then
        book_value <- Book.getattr book key ;;
        if negb (pyval_eqb book_value value) then Ok false
        else filter_match book rest
      else Ok false
      end end end end
  end.

(** the outer loop *)
Fixpoint filter_from (i : Z) (kwargs : list (string * pyval)) (bks : list Book.t)
  : result (list Z) :=
  match bks with
  | [] => Ok []
  | book :: rest =>
      m <- filter_match book kwargs ;;
      results <- filter_from (i + 1) kwargs rest ;;
      Ok (if m then i :: results else results)
  end.

(** [Library.filter_books], whose arguments are all keywords *)
Definition filter_books (kwargs : list (string * pyval)) (self : t) : result (list Z) :=
  match bound_twice ["self"] kwargs with
  | Some key => Raise (multiple_values "filter_books" key)
  | None => filter_from 0 kwargs (books self)
  end.

(** what [save_to_file] hands to [json.dump] *)
Definition document (self : t) : pyval :=
  VDict [ ("name", VStr (name self));
          ("books", VList (map Book.to_dict (books self))) ].

(** [Library.save_to_file].  Once [open] has returned, [json.dump] is taken
    to write the whole document: the limit of the interpreter on the
    digits of an integer it prints and a device that fails during the
    write are not part of the world. *)
Definition save_to_file (path : option string) (self : t) (w : world)
  : result unit * t * world :=
  let self := match path with Some p => set_file_path self p | None => self end in
  let data := document self in
  match unwritable w (file_path self) with
  | Some e => (Raise e, self, w)
  | None => (Ok tt, self, write_file w (file_path self) data)
  end.

(** [[Book.from_dict(book_data) for book_data in items]] *)
Fixpoint from_dicts (today : Z) (items : list pyval) : result (list Book.t) :=
  match items with
  | [] => Ok []
  | book_data :: rest =>
      book <- Book.from_dict today book_data ;;
      others <- from_dicts today rest ;;
      Ok (book :: others)
  end.

(** [json.load] on an open file *)
Definition json_load (n : node) : result pyval :=
  match n with
  | Unreadable e => Raise e
  | Garbled msg => Raise (JSONDecodeError msg)
  | Document data => Ok data
  end.

(** the body of the [try] of [load_from_file]: how it ends, and the
    library as it leaves it *)
Definition load_body (today : Z) (n : node) (self : t) : result unit * t :=
  match json_load n with
  | Ok data =>
      match v <- get data "name" (VStr default_name) ;; as_str v with
      | Ok a_name =>
          let self := set_name self a_name in
          match v <- get data "books" (VList []) ;;
                items <- iterate v ;;
                from_dicts today items with
          | Ok bks => (Ok tt, set_books self bks)
          | Raise e => (Raise e, self)
          | Untyped => (Untyped, self)
          end
      | Raise e => (Raise e, self)
      | Untyped => (Untyped, self)
      end
  | Raise e => (Raise e, self)
  | Untyped => (Untyped, self)
  end.

Definition not_json_msg (path : string) : string :=
  "Error: " ++ path ++ " is not a valid JSON file.".

Definition load_error_msg (e : exn) : string :=
  "Error loading library: " ++ str_exn e.

(** [Library.load_from_file] *)
Definition load_from_file (today : Z) (path : option string) (self : t) (w : world)
  : result unit * t * world :=
  let self := match path with Some p => set_file_path self p | None => self end in
  match files w (file_path self) with
  | None => (Ok tt, self, w)
  | Some n =>
      match load_body today n self with
      | (Ok _, self') => (Ok tt, self', w)
      | (Raise (JSONDecodeError _), self') =>
          (Ok tt, self', st_error w (not_json_msg (file_path self')))
      | (Raise e, self') => (Ok tt, self', st_error w (load_error_msg e))
      | (Untyped, self') => (Untyped, self', w)
      end
  end.

(** *** Statistics *)

(** [d[k] = d.get(k, 0) + 1] on an insertion-ordered dictionary *)
Fixpoint incr {K : Type} (eqb : K -> K -> bool) (k : K) (d : list (K * Z))
  : list (K * Z) :=
  match d with
  | [] => [(k, 0 + 1)]
  | (k', n) :: d' =>
      if eqb k' k then (k', n + 1) :: d' else (k', n) :: incr eqb k d'
  end.

(** [x] put into a list in descending order of count, before the entries
    that count the same *)
Fixpoint insert_desc {K : Type} (x : K * Z) (l : list (K * Z)) : list (K * Z) :=
  match l with
  | [] => [x]
  | y :: l' => if snd x <? snd y then y :: insert_desc x l' else x :: y :: l'
  end.

(** [sorted(d.items(), key=lambda x: x[1], reverse=True)]: descending and
    stable *)
Definition sorted_desc {K : Type} (d : list (K * Z)) : list (K * Z) :=
  fold_right insert_desc [] d.

(** the keys of the [ratings] dictionary: an integer or ["unrated"] *)
Inductive rating_key : Type :=
| Stars (r : Z)
| Unrated.

Definition rating_key_eqb (a b : rating_key) : bool :=
  match a, b with
  | Stars x, Stars y => x =? y
  | Unrated, Unrated => true
  | _, _ => false
  end.

(** the value of [o] when [if o:] takes the branch, for an optional integer *)
Definition truthy (o : option Z) : option Z :=
  match o with
  | Some z => if z =? 0 then None else Some z
  | None => None
  end.

(** [sum(1 for book in books if book.status == s)] *)
Definition count_status (s : string) (bks : list Book.t) : Z :=
  fold_left (fun n book => if String.eqb (Book.status book) s then n + 1 else n) bks 0.

Section Statistics.

(** The statistics are written over the type of the floats and the two
    operations on them that the source uses; [Float] provides them. *)
Variable float : Type.
Variable truediv : Z -> Z -> float.     (* [a / b] on integers *)
Variable round : float -> Z -> float.   (* [round(x, ndigits)] *)

Inductive number : Type :=
| NInt (z : Z)
| NFloat (f : float).

Record stats : Type := mk_stats {
  total_books : Z;
  available_books : Z;
  borrowed_books : Z;
  genres : list (string * Z);
  authors : list (string * Z);
  years : list (Z * Z);
  ratings : list (rating_key * Z);
  tags : list (string * Z);
  avg_rating : number;
  oldest_book : option (string * Z);
  newest_book : option (string * Z)
}.

Definition empty_ratings : list (rating_key * Z) :=
  [ (Stars 1, 0); (Stars 2, 0); (Stars 3, 0); (Stars 4, 0); (Stars 5, 0); (Unrated, 0) ].

(** what the loop of [get_statistics] carries: the dictionary and the two
    local counters *)
Record acc : Type := mk_acc {
  st : stats;
  total_rating : Z;
  rated_books : Z
}.

(** one turn of the loop *)
Definition count_book (a : acc) (book : Book.t) : acc :=
  let s := st a in
  (* Count genres *)
  let genres' :=
    if negb (String.eqb (Book.genre book) "")
    then incr String.eqb (Book.genre book) (genres s) else genres s in
  (* Count authors *)
  let authors' := incr String.eqb (Book.author book) (authors s) in
  (* Count years; track oldest and newest books *)
  let '(years', oldest', newest') :=
    match truthy (Book.year book) with
    | Some y =>
        let oldest' :=
          match oldest_book s with
          | None => Some (Book.title book, y)
          | Some (_, oy) => if y <? oy then Some (Book.title book, y) else oldest_book s
          end in
        let newest' :=
          match newest_book s with
          | None => Some (Book.title book, y)
          | Some (_, ny) => if y >? ny then Some (Book.title book, y) else newest_book s
          end in
        (incr Z.eqb y (years s), oldest', newest')
    | None => (years s, oldest_book s, newest_book s)
    end in
  (* Count ratings *)
  let '(ratings', total', rated') :=
    match truthy (Book.rating book) with
    | Some r =>
        (incr rating_key_eqb (Stars r) (ratings s), total_rating a + r, rated_books a + 1)
    | None => (incr rating_key_eqb Unrated (ratings s), total_rating a, rated_books a)
    end in
  (* Count tags *)
  let tags' := fold_left (fun d tag => incr String.eqb tag d) (Book.tags book) (tags s) in
  mk_acc
    (mk_stats (total_books s) (available_books s) (borrowed_books s)
              genres' authors' years' ratings' tags' (avg_rating s) oldest' newest')
    total' rated'.

(** [Library.get_statistics] *)
Definition get_statistics (self : t) : stats :=
  match books self with
  | [] =>
      mk_stats 0 0 0 [] [] [] empty_ratings [] (NInt 0) None None
  | _ =>
      let stats0 :=
        mk_stats (len self)
                 (count_status "Available" (books self))
                 (count_status "Borrowed" (books self))
                 [] [] [] empty_ratings [] (NInt 0) None None in
      let a := fold_left count_book (books self) (mk_acc stats0 0 0) in
      let s := st a in
      (* Calculate average rating *)
      let avg :=
        if rated_books a >? 0
        then NFloat (round (truediv (total_rating a) (rated_books a)) 2)
        else avg_rating s in
      (* Sort dictionaries by value (descending) *)
      mk_stats (total_books s) (available_books s) (borrowed_books s)
               (sorted_desc (genres s)) (sorted_desc (authors s))
               (sorted_desc (years s)) (ratings s) (sorted_desc (tags s))
               avg (oldest_book s) (newest_book s)
  end.

End Statistics.

End Library.

Arguments Library.NInt {float} z.
Arguments Library.NFloat {float} f.
Arguments Library.total_books {float} s.
Arguments Library.available_books {float} s.
Arguments Library.borrowed_books {float} s.
Arguments Library.genres {float} s.
Arguments Library.authors {float} s.
Arguments Library.years {float} s.
Arguments Library.ratings {float} s.
Arguments Library.tags {float} s.
Arguments Library.avg_rating {float} s.
Arguments Library.oldest_book {float} s.
Arguments Library.newest_book {float} s.
Arguments Library.st {float} a.
Arguments Library.total_rating {float} a.
Arguments Library.rated_books {float} a.

(** * The vocabulary of the properties, and the examples *)

(** the attributes that lending never writes *)
Definition same_catalogue_entry (b b' : Book.t) : Prop :=
  Book.title b' = Book.title b /\ Book.author b' = Book.author b /\
  Book.isbn b' = Book.isbn b /\ Book.genre b' = Book.genre b /\
  Book.year b' = Book.year b /\ Book.publisher b' = Book.publisher b /\
  Book.pages b' = Book.pages b /\ Book.description b' = Book.description b /\
  Book.location b' = Book.location b /\ Book.rating b' = Book.rating b /\
  Book.date_added b' = Book.date_added b /\ Book.tags b' = Book.tags b.

(** a book on the shelf and the same book lent out, for the examples *)
Definition dune : Book.t :=
  Book.mk "Dune" "Herbert" "" "Science Fiction" (Some 1965) "" None "" "Shelf"
          "Available" (Some 4) "2024-01-01" "" "" "" ["classic"].

Definition dune_lent : Book.t :=
  Book.mk "Dune" "Herbert" "" "Science Fiction" (Some 1965) "" None "" "Shelf"
          "Borrowed" (Some 4) "2024-01-01" "Ada" "2024-01-15" "2024-01-29" ["classic"].

(** an existing book and a new one have the same (title, author) pair up to
    the case of the letters *)
Definition collides (unicode_lower : string -> string) (existing book : Book.t) : Prop :=
  lower unicode_lower (Book.title existing) = lower unicode_lower (Book.title book) /\
  lower unicode_lower (Book.author existing) = lower unicode_lower (Book.author book).

(** [str.lower] beyond ASCII for the examples, whose texts are all ASCII *)
Definition no_unicode (s : string) : string := s.

Definition dune_shouted : Book.t :=
  Book.mk "dune" "HERBERT" "" "" None "" None "" "Shelf" "Available" None
          "2024-01-02" "" "" "" [].

Definition emma : Book.t :=
  Book.mk "Emma" "Austen" "" "Novel" None "" None "" "Shelf" "Available" None
          "2024-01-03" "" "" "" [].

Definition one_book : Library.t := Library.mk "Home" [dune] "library_data.json".

(** the identifiers, counted from [i], of the books that satisfy [p], in
    ascending order *)
Fixpoint ids_where (p : Book.t -> bool) (i : Z) (bks : list Book.t) : list Z :=
  match bks with
  | [] => []
  | b :: rest => if p b then i :: ids_where p (i + 1) rest else ids_where p (i + 1) rest
  end.

(** the keyword arguments of a call that supplies a lower bound, an upper
    bound or both *)
Definition bounds (from_key to_key : string) (lo hi : option Z) : list (string * pyval) :=
  (match lo with Some l => [(from_key, VInt l)] | None => [] end ++
   match hi with Some h => [(to_key, VInt h)] | None => [] end)%list.

(** [lo <= n <= hi] for the bounds that are supplied; no [n], no match *)
Definition within (lo hi : option Z) (n : option Z) : bool :=
  match n with
  | Some n =>
      match lo with Some l => l <=? n | None => true end &&
      match hi with Some h => n <=? h | None => true end
  | None => false
  end.

Definition supplied (lo hi : option Z) : Prop := lo <> None \/ hi <> None.

(** the book has no value for the attribute that the keyword bounds *)
Definition bound_on_absent (b : Book.t) (key : string) : Prop :=
  ((key = "year_from" \/ key = "year_to") /\ Book.year b = None) \/
  ((key = "rating_from" \/ key = "rating_to") /\ Book.rating b = None).

Definition two_books : Library.t := Library.mk "Home" [dune; emma] "library_data.json".

(** [serialize(deserialize(d))] *)
Definition reserialize (today : Z) (d : pyval) : result pyval :=
  b <- Book.from_dict today d ;; Ok (Book.to_dict b).

(** the library a persistence call leaves, and how the call ends *)
Definition library_after (r : result unit * Library.t * world) : Library.t := snd (fst r).
Definition outcome (r : result unit * Library.t * world) : result unit := fst (fst r).
Definition world_after (r : result unit * Library.t * world) : world := snd r.

(** a world with one file, which is not JSON, and a world with one file
    whose second book has no title *)
Definition garbled_world : world :=
  mk_world (fun p => if String.eqb p "books.json"
                     then Some (Garbled "Expecting value: line 1 column 1 (char 0)")
                     else None)
           (fun _ => None) [].

Definition truncated_document : pyval :=
  VDict [ ("name", VStr "Office");
          ("books", VList [ Book.to_dict emma; VDict [("author", VStr "Herbert")] ]) ].

Definition truncated_world : world :=
  mk_world (fun p => if String.eqb p "books.json" then Some (Document truncated_document)
                     else None)
           (fun _ => None) [].

Definition lending_invariant (b : Book.t) : Prop :=
  (Book.status b = "Borrowed" <->
   Book.borrowed_by b <> "" /\ Book.borrowed_date b <> "" /\ Book.due_date b <> "") /\
  (Book.status b = "Available" <->
   Book.borrowed_by b = "" /\ Book.borrowed_date b = "" /\ Book.due_date b = "").

(** the four attributes the invariant reads *)
Definition lending_state (b : Book.t) : string * string * string * string :=
  (Book.status b, Book.borrowed_by b, Book.borrowed_date b, Book.due_date b).

Definition lending_attr (key : string) : Prop :=
  key = "status" \/ key = "borrowed_by" \/ key = "borrowed_date" \/ key = "due_date".

(** What a caller can do to a book, one call at a time: lend it to
    somebody, on a day of the calendar and until a day of the calendar;
    take it back; update it with keywords other than the four of lending,
    none of which is the name of a method or starts with an underscore
    (a keyword such as [__dict__] replaces all the attributes at once).
    The book after the call counts whether the call returned or raised. *)
Inductive step (b : Book.t) : Book.t -> Prop :=
| step_lend (today : Z) (borrower : string) (days : Z) (r : result unit) (b' : Book.t) :
    borrower <> "" ->
    Datetime.in_range today -> Datetime.in_range (today + days) ->
    Book.lend today borrower days b = (r, b') -> step b b'
| step_return (r : result unit) (b' : Book.t) :
    Book.return_book b = (r, b') -> step b b'
| step_update (kwargs : list (string * pyval)) (b' : Book.t) :
    (forall key value, In (key, value) kwargs ->
       ~ lending_attr key /\ Book.unmodelled key = false) ->
    Library.update_attrs b kwargs = Ok b' -> step b b'.

Inductive steps (b : Book.t) : Book.t -> Prop :=
| steps_none : steps b b
| steps_more (b1 b2 : Book.t) : step b b1 -> steps b1 b2 -> steps b b2.

(** the books of the examples that break the invariant *)
Definition lost_book : result Book.t :=
  Book.init 738900 "Emma" "Austen" "" "" None "" None "" "Shelf" "Lost" None None None.

Definition borrowed_document : pyval :=
  VDict [ ("title", VStr "Emma"); ("author", VStr "Austen"); ("status", VStr "Borrowed") ].

Definition dune_retitled : Book.t :=
  Book.mk "Dune Messiah" "Herbert" "" "Science Fiction" (Some 1965) "" None "" "Shelf"
          "Borrowed" (Some 4) "2024-01-01" "Ada" "2024-01-15" "2024-01-29" ["classic"].

(** three more books: one whose year and rating are 0, and two that are
    dated and rated *)
Definition beowulf : Book.t :=
  Book.mk "Beowulf" "" "" "" (Some 0) "" None "" "Shelf" "Available" (Some 0)
          "2024-01-04" "" "" "" ["classic"; "epic"].

Definition ulysses : Book.t :=
  Book.mk "Ulysses" "Joyce" "" "Novel" (Some 1922) "" None "" "Shelf" "Available" (Some 5)
          "2024-01-05" "" "" "" [].

Definition hamlet : Book.t :=
  Book.mk "Hamlet" "Shakespeare" "" "Play" (Some 1603) "" None "" "Shelf" "Borrowed" (Some 4)
          "2024-01-06" "Ada" "2024-01-15" "2024-01-29" ["classic"].

Definition five_books : Library.t :=
  Library.mk "Home" [dune; emma; beowulf; ulysses; hamlet] "library_data.json".

(** a world in which the path of the root directory cannot be opened for
    writing *)
Definition root_world : world :=
  mk_world (fun _ => None)
           (fun p => if String.eqb p "/"
                     then Some (OSError "[Errno 21] Is a directory: '/'")
                     else None) [].

(** none of the keywords bears the name of a parameter of the method *)
Definition keywords_apart (params : list string) (kwargs : list (string * pyval)) : Prop :=
  forall key value, In (key, value) kwargs -> ~ In key params.

(** the number a book counts with, if any: one that is set and is not 0 *)
Definition counted (o : option Z) : option Z :=
  match o with
  | Some 0 => None
  | Some z => Some z
  | None => None
  end.




(** no two books of the list have the same (title, author) pair up to the
    case of the letters *)
Fixpoint pairwise_distinct (unicode_lower : string -> string) (l : list Book.t) : Prop :=
  match l with
  | [] => True
  | x :: rest =>
      (forall y, In y rest -> ~ collides unicode_lower x y) /\
      pairwise_distinct unicode_lower rest
  end.

(** the key names one of the sixteen data attributes *)
(** the fields a search looks in *)
Definition searched (fields : option (list string)) : list string :=
  match fields with Some f => f | None => Library.default_fields end.

(** no field is the name of a method or starts with an underscore *)
Definition plain_names (fields : list string) : bool :=
  forallb (fun field => negb (Book.unmodelled field)) fields.

(** a number as the text a search looks in; nothing when it is not set *)
Definition shown (o : option Z) : list string :=
  match o with Some z => [str_of_Z z] | None => [] end.

(** the texts a book holds under a field name: its tags one by one, the
    value of a text attribute, the decimal of a number that is set, and
    nothing under any other name *)
Definition searched_texts (field : string) (b : Book.t) : list string :=
  if String.eqb field "tags" then Book.tags b
  else if String.eqb field "title" then [Book.title b]
  else if String.eqb field "author" then [Book.author b]
  else if String.eqb field "isbn" then [Book.isbn b]
  else if String.eqb field "genre" then [Book.genre b]
  else if String.eqb field "publisher" then [Book.publisher b]
  else if String.eqb field "description" then [Book.description b]
  else if String.eqb field "location" then [Book.location b]
  else if String.eqb field "status" then [Book.status b]
  else if String.eqb field "date_added" then [Book.date_added b]
  else if String.eqb field "borrowed_by" then [Book.borrowed_by b]
  else if String.eqb field "borrowed_date" then [Book.borrowed_date b]
  else if String.eqb field "due_date" then [Book.due_date b]
  else if String.eqb field "year" then shown (Book.year b)
  else if String.eqb field "pages" then shown (Book.pages b)
  else if String.eqb field "rating" then shown (Book.rating b)
  else [].

(** the book matches the query: one of the texts under one of the fields,
    in lower case, contains the query in lower case *)
Definition found_in (u : string -> string) (query : string) (fields : list string)
    (b : Book.t) : Prop :=
  exists field text,
    In field fields /\ In text (searched_texts field b) /\
    contains (lower u query) (lower u text) = true.

Definition data_attributes : list string :=
  ["title"; "author"; "isbn"; "genre"; "year"; "publisher"; "pages"; "description";
   "location"; "status"; "rating"; "date_added"; "borrowed_by"; "borrowed_date";
   "due_date"; "tags"].

Definition is_attribute (key : string) : bool := Book.mem key data_attributes.

(** the key is the name of no attribute: it is not one of the sixteen, not
    the name of a method, and does not start with an underscore *)
Definition absent_name (key : string) : bool :=
  negb (is_attribute key) && negb (Book.unmodelled key).

(** [getattr(book, key) == value] for a keyword [(key, value)]; [false]
    when the key names no attribute *)
Definition attr_equals (b : Book.t) (kv : string * pyval) : bool :=
  match Book.getattr b (fst kv) with
  | Ok book_value => pyval_eqb book_value (snd kv)
  | _ => false
  end.

(** the key is one of the four that [filter_books] reads as a bound *)
Definition bound_key (key : string) : bool :=
  String.eqb key "year_from" || String.eqb key "year_to" ||
  String.eqb key "rating_from" || String.eqb key "rating_to".

(** [true] exactly when the loop of [filter_books] ends with [match] set *)
Definition passes (kwargs : list (string * pyval)) (b : Book.t) : bool :=
  match Library.filter_match b kwargs with
  | Ok true => true
  | _ => false
  end.

(** [d.get(k, 0)] on a dictionary of counts *)
Fixpoint count_of {K : Type} (eqb : K -> K -> bool) (k : K) (d : list (K * Z)) : Z :=
  match d with
  | [] => 0
  | (k', n) :: d' => if eqb k' k then n else count_of eqb k d'
  end.

(** how many times [k] occurs in [ks] *)
Definition occurrences {K : Type} (eqb : K -> K -> bool) (k : K) (ks : list K) : Z :=
  Z.of_nat (List.length (filter (fun x => eqb x k) ks)).

(** the sum of the counts of a dictionary *)
Definition total_count {K : Type} (d : list (K * Z)) : Z :=
  fold_right (fun kv n => snd kv + n) 0 d.

(** the elements of [ks] in the order of their first occurrence *)
Fixpoint first_seen {K : Type} (eqb : K -> K -> bool) (ks : list K) : list K :=
  match ks with
  | [] => []
  | k :: rest => k :: filter (fun x => negb (eqb x k)) (first_seen eqb rest)
  end.

(** the entries of a dictionary of counts come in descending order of count *)
Definition descending {K : Type} (d : list (K * Z)) : Prop :=
  StronglySorted (fun x y => snd y <= snd x) d.

(** what each histogram of [get_statistics] counts, book after book *)
Definition genres_seen (bks : list Book.t) : list string :=
  filter (fun g => negb (String.eqb g "")) (map Book.genre bks).

Definition authors_seen (bks : list Book.t) : list string := map Book.author bks.

Definition years_seen (bks : list Book.t) : list Z :=
  flat_map (fun b => match counted (Book.year b) with
                     | Some y => [y]
                     | None => []
                     end) bks.

Definition tags_seen (bks : list Book.t) : list string := flat_map Book.tags bks.

Definition ratings_seen (bks : list Book.t) : list Library.rating_key :=
  map (fun b => match counted (Book.rating b) with
                | Some r => Library.Stars r
                | None => Library.Unrated
                end) bks.

(** the (title, year) pair the loop of [get_statistics] keeps after one more
    book, [better] being its strict comparison of years *)
Definition pick (better : Z -> Z -> bool) (o : option (string * Z)) (b : Book.t)
  : option (string * Z) :=
  match counted (Book.year b) with
  | Some y =>
      match o with
      | None => Some (Book.title b, y)
      | Some (_, oy) => if better y oy then Some (Book.title b, y) else o
      end
  | None => o
  end.

(** [o] is the title and the year of the first of the books whose year no
    other year betters; it is [None] when no book has a year *)
Definition first_best (better : Z -> Z -> bool) (bks : list Book.t)
    (o : option (string * Z)) : Prop :=
  match o with
  | None => forall b, In b bks -> counted (Book.year b) = None
  | Some (t, y) =>
      exists l1 b l2,
        bks = (l1 ++ b :: l2)%list /\
        Book.title b = t /\ counted (Book.year b) = Some y /\
        (forall b' y', In b' l1 -> counted (Book.year b') = Some y' ->
                       better y y' = true) /\
        (forall b' y', In b' l2 -> counted (Book.year b') = Some y' ->
                       better y' y = false)
  end.

Definition empty_object_world : world :=
  mk_world (fun p => if String.eqb p "books.json" then Some (Document (VDict [])) else None)
           (fun _ => None) [].

Definition list_world : world :=
  mk_world (fun p => if String.eqb p "books.json"
                     then Some (Document (VList [Book.to_dict emma])) else None)
           (fun _ => None) [].

(** * Properties *)

(** ** The calendar *)

Example strftime_epoch : Datetime.strftime 719163 = "1970-01-01".
Proof. reflexivity. Qed.

Example strftime_leap_day : Datetime.strftime (738886 + 59) = "2024-02-29".
Proof. reflexivity. Qed.

Example strftime_last_day : Datetime.strftime Datetime.MAXORDINAL = "9999-12-31".
Proof. reflexivity. Qed.

Lemma in_rangeb_true (n : Z) : Datetime.in_range n -> Datetime.in_rangeb n = true.
Proof.
  unfold Datetime.in_range, Datetime.in_rangeb. intros [Hlo Hhi].
  apply andb_true_intro. split; apply Z.leb_le; assumption.
Qed.

(** Adding days to a date succeeds whenever the sum is a date. *)
Lemma add_days_in_range (today days : Z) :
  Datetime.in_range today -> Datetime.in_range (today + days) ->
  Datetime.add_days today days = Ok (today + days).
Proof.
  intros Ht Hs. unfold Datetime.add_days.
  assert (Hsmall : (999999999 <? Z.abs days) = false).
  { apply Z.ltb_ge. unfold Datetime.in_range, Datetime.MINORDINAL, Datetime.MAXORDINAL in *. lia. }
  rewrite Hsmall, (in_rangeb_true _ Hs). reflexivity.
Qed.

Lemma append_nonempty_r (s u : string) : u <> "" -> s ++ u <> "".
Proof. destruct s; simpl; [auto | discriminate]. Qed.

(** A formatted date is never the empty string. *)
Lemma strftime_nonempty (n : Z) : Datetime.strftime n <> "".
Proof.
  unfold Datetime.strftime. destruct (Datetime.ord2ymd n) as [[y m] d].
  apply append_nonempty_r. discriminate.
Qed.

(** ** Lending *)

Lemma eqb_neq_false (s u : string) : s <> u -> String.eqb s u = false.
Proof. intro H. apply String.eqb_neq. exact H. Qed.

Lemma lend_available (today : Z) (borrower : string) (days : Z) (b : Book.t) :
  Book.status b = "Available" ->
  Datetime.in_range today -> Datetime.in_range (today + days) ->
  exists b',
    Book.lend today borrower days b = (Ok tt, b') /\
    Book.status b' = "Borrowed" /\
    Book.borrowed_by b' = borrower /\
    Book.borrowed_date b' = Datetime.strftime today /\
    Book.due_date b' = Datetime.strftime (today + days) /\
    same_catalogue_entry b b'.
Proof.
  intros Hst Ht Hs. unfold Book.lend. rewrite Hst. simpl.
  rewrite (add_days_in_range _ _ Ht Hs).
  eexists. split; [reflexivity|]. simpl. unfold same_catalogue_entry. simpl.
  repeat split.
Qed.

Lemma lend_unavailable (today : Z) (borrower : string) (days : Z) (b : Book.t) :
  Book.status b <> "Available" ->
  Book.lend today borrower days b =
    (Raise (ValueError ("Book is not available. Current status: " ++ Book.status b)), b).
Proof.
  intro Hst. unfold Book.lend. rewrite (eqb_neq_false _ _ Hst). reflexivity.
Qed.

Lemma return_borrowed (b : Book.t) :
  Book.status b = "Borrowed" ->
  exists b',
    Book.return_book b = (Ok tt, b') /\
    Book.status b' = "Available" /\
    Book.borrowed_by b' = "" /\ Book.borrowed_date b' = "" /\ Book.due_date b' = "" /\
    same_catalogue_entry b b'.
Proof.
  intro Hst. unfold Book.return_book. rewrite Hst. simpl.
  eexists. split; [reflexivity|]. unfold same_catalogue_entry. simpl. repeat split.
Qed.

Lemma return_not_borrowed (b : Book.t) :
  Book.status b <> "Borrowed" ->
  Book.return_book b =
    (Raise (ValueError ("Book is not borrowed. Current status: " ++ Book.status b)), b).
Proof.
  intro Hst. unfold Book.return_book. rewrite (eqb_neq_false _ _ Hst). reflexivity.
Qed.




(** ** Construction *)

(** C3, as the specification words it, fails: a [Book] with an empty title
    and an empty author is constructed, no exception is raised. *)
Lemma construct_empty_title_author :
  exists b, Book.new 738900 "" "" = Ok b /\ Book.title b = "" /\ Book.author b = "" /\
  is_exception (Book.new 738900 "" "") = false.
Proof. eexists. split; [reflexivity|]. simpl. auto. Qed.

(** C3.  Construction never fails and does not look at its arguments: for
    every title and author, empty or not, and every value of the other
    arguments, [Book(...)] returns a book that holds the title and the
    author as given, with the three borrowing fields empty, [date_added]
    the given date or, without one, today's, and [tags] the given list or,
    without one, the empty list.  (The form of the page checks that title
    and author are filled in before it constructs.) *)
Theorem construction_always_succeeds
    (today : Z) (title author isbn genre : string) (year : option Z)
    (publisher : string) (pages : option Z) (description location status : string)
    (rating : option Z) (date_added : option string) (tags : option (list string)) :
  exists b,
    Book.init today title author isbn genre year publisher pages description
              location status rating date_added tags = Ok b /\
    Book.title b = title /\ Book.author b = author /\
    Book.status b = status /\
    Book.borrowed_by b = "" /\ Book.borrowed_date b = "" /\ Book.due_date b = "" /\
    Book.date_added b =
      match date_added with Some d => d | None => Datetime.strftime today end /\
    Book.tags b = match tags with Some l => l | None => [] end.
Proof.
  eexists. split; [reflexivity|]. simpl. repeat split.
Qed.

(** ** Adding a book *)

Lemma same_title_author_spec (u : string -> string) (e b : Book.t) :
  Library.same_title_author u e b = true <-> collides u e b.
Proof.
  unfold Library.same_title_author, collides.
  rewrite andb_true_iff, !String.eqb_eq. tauto.
Qed.

Lemma already_exists_spec (u : string -> string) (l : list Book.t) (b : Book.t) :
  Library.already_exists u l b = true <-> exists e, In e l /\ collides u e b.
Proof.
  induction l as [|x l IH]; simpl.
  - split; [discriminate | intros (e & [] & _)].
  - destruct (Library.same_title_author u x b) eqn:Hx.
    + split; [|reflexivity]. intros _. exists x. split; [now left|].
      apply same_title_author_spec. exact Hx.
    + rewrite IH. split.
      * intros (e & Hin & Hc). exists e. split; [now right | exact Hc].
      * intros (e & [He | Hin] & Hc).
        -- subst e. apply same_title_author_spec in Hc. congruence.
        -- exists e. split; assumption.
Qed.

(** C4.  [add_book(b)] raises the [ValueError] that stands for a duplicate
    exactly when some book of the collection has the same (title, author)
    pair as [b] up to the case of the letters, and then the library, its
    list of books included, is as it was; when no book of the collection
    has, [add_book(b)] returns normally and the list of books is the old
    list with [b] after its last element, the name and the file path being
    unchanged. *)
Theorem add_book_duplicate_or_append (u : string -> string) (b : Book.t) (lib : Library.t) :
  ((exists e, In e (Library.books lib) /\ collides u e b) ->
   exists msg, Library.add_book u b lib = (Raise (ValueError msg), lib)) /\
  (~ (exists e, In e (Library.books lib) /\ collides u e b) ->
   exists lib',
     Library.add_book u b lib = (Ok tt, lib') /\
     Library.books lib' = (Library.books lib ++ [b])%list /\
     Library.name lib' = Library.name lib /\
     Library.file_path lib' = Library.file_path lib).
Proof.
  unfold Library.add_book. split; intro H.
  - apply already_exists_spec in H. rewrite H. eexists. reflexivity.
  - destruct (Library.already_exists u (Library.books lib) b) eqn:E.
    + exfalso. apply H. apply already_exists_spec. exact E.
    + eexists. split; [reflexivity|]. simpl. auto.
Qed.

Lemma add_book_duplicate_or_append_witness :
  (exists msg, Library.add_book no_unicode dune_shouted one_book = (Raise (ValueError msg), one_book)) /\
  (exists lib', Library.add_book no_unicode emma one_book = (Ok tt, lib') /\
                Library.books lib' = [dune; emma]).
Proof.
  split.
  - apply (add_book_duplicate_or_append no_unicode dune_shouted one_book).
    exists dune. split; [now left | split; reflexivity].
  - destruct (add_book_duplicate_or_append no_unicode emma one_book) as [_ H].
    destruct H as (lib' & E & Hb & _).
    + intros (e & [He | []] & Hc & _). subst e. discriminate Hc.
    + exists lib'. split; [exact E | exact Hb].
Defined.

(** ** Searching *)

Lemma prefix_empty (s : string) : prefix "" s = true.
Proof. destruct s; reflexivity. Qed.

Lemma contains_empty (s : string) : contains "" s = true.
Proof. destruct s; reflexivity. Qed.

(** With the default fields every book matches the empty query: the test
    on [title], the first of them, already holds. *)
Lemma search_fields_empty_query (u : string -> string) (b : Book.t) :
  Library.search_fields u "" Library.default_fields b = Ok true.
Proof.
  unfold Library.default_fields. simpl. rewrite contains_empty. reflexivity.
Qed.

Lemma search_from_empty_query (u : string -> string) (bks : list Book.t) (k : nat) :
  Library.search_from u (Z.of_nat k) "" Library.default_fields bks =
  Ok (map Z.of_nat (seq k (List.length bks))).
Proof.
  revert k. induction bks as [|b bks IH]; intro k.
  - reflexivity.
  - cbn [Library.search_from List.length seq map].
    rewrite search_fields_empty_query.
    replace (Z.of_nat k + 1) with (Z.of_nat (S k)) by lia. rewrite IH. reflexivity.
Qed.

(** C5, as the specification words it, fails: on a library of one book the
    empty query returns the identifier of that book, not the empty list. *)
Lemma search_empty_query_finds_book :
  Library.search_books no_unicode "" None one_book = Ok [0] /\
  Library.search_books no_unicode "" None one_book <> Ok [].
Proof. split; [reflexivity | discriminate]. Qed.

(** C5.  With the default fields, the empty query matches every book:
    [search_books("")] returns the identifiers of all the books, in
    ascending order; it raises nothing.  On a library without books the
    result is the empty list, whatever the query and the fields. *)
Theorem search_empty_query_returns_all (u : string -> string) :
  (forall lib : Library.t,
     Library.search_books u "" None lib =
     Ok (map Z.of_nat (seq 0 (List.length (Library.books lib))))) /\
  (forall (query : string) (fields : option (list string)) (name path : string),
     Library.search_books u query fields (Library.mk name [] path) = Ok []).
Proof.
  split.
  - intro lib. unfold Library.search_books. simpl.
    apply (search_from_empty_query u (Library.books lib) 0).
  - reflexivity.
Qed.

(** ** Filtering *)

Lemma filter_from_pointwise (p : Book.t -> bool) (kwargs : list (string * pyval))
    (bks : list Book.t) (i : Z) :
  (forall b, Library.filter_match b kwargs = Ok (p b)) ->
  Library.filter_from i kwargs bks = Ok (ids_where p i bks).
Proof.
  intro Hp. revert i. induction bks as [|b bks IH]; intro i; simpl.
  - reflexivity.
  - rewrite Hp, IH. simpl. reflexivity.
Qed.

Lemma leb_of_ltb (a b : Z) : negb (b <? a) = (a <=? b).
Proof. symmetry. apply Z.leb_antisym. Qed.

Lemma leb_of_gtb (a b : Z) : negb (a >? b) = (a <=? b).
Proof. rewrite Z.gtb_ltb. apply leb_of_ltb. Qed.

Lemma filter_match_year_bounds (lo hi : option Z) (b : Book.t) :
  supplied lo hi ->
  Library.filter_match b (bounds "year_from" "year_to" lo hi) =
  Ok (within lo hi (Book.year b)).
Proof.
  intros Hs. unfold within, bounds.
  destruct lo as [l|], hi as [h|], (Book.year b) as [y|] eqn:Hy;
    cbn; rewrite ?Hy; cbn;
    rewrite ?Z.gtb_ltb;
    repeat match goal with
           | |- context [?a <? ?b] => destruct (Z.ltb_spec a b)
           | |- context [?a <=? ?b] => destruct (Z.leb_spec a b)
           end;
    cbn; try reflexivity; try lia.
  all: destruct Hs as [H | H]; congruence.
Qed.

Lemma filter_match_rating_bounds (lo hi : option Z) (b : Book.t) :
  supplied lo hi ->
  Library.filter_match b (bounds "rating_from" "rating_to" lo hi) =
  Ok (within lo hi (Book.rating b)).
Proof.
  intros Hs. unfold within, bounds.
  destruct lo as [l|], hi as [h|], (Book.rating b) as [y|] eqn:Hy,
           (Book.year b) as [yr|] eqn:Hyr;
    cbn; rewrite ?Hy, ?Hyr; cbn;
    rewrite ?Z.gtb_ltb;
    repeat match goal with
           | |- context [?a <? ?b] => destruct (Z.ltb_spec a b)
           | |- context [?a <=? ?b] => destruct (Z.leb_spec a b)
           end;
    cbn; try reflexivity; try lia.
  all: destruct Hs as [H | H]; congruence.
Qed.

Lemma and_hasattr_year (c : bool) (b : Book.t) : Library.and_hasattr c b "year" = Ok c.
Proof. destruct c; reflexivity. Qed.

Lemma and_hasattr_rating (c : bool) (b : Book.t) :
  Library.and_hasattr c b "rating" = Ok c.
Proof. destruct c; reflexivity. Qed.

Lemma and_hasattr_tags (c : bool) (b : Book.t) : Library.and_hasattr c b "tags" = Ok c.
Proof. destruct c; reflexivity. Qed.

(** One turn of the loop over the keywords, with the tests on [year] and
    [rating], which every book has, resolved. *)
Lemma filter_match_cons (b : Book.t) (key : string) (value : pyval)
    (rest : list (string * pyval)) :
  Library.filter_match b ((key, value) :: rest) =
  match Library.and_not_none (String.eqb key "year_from") (Book.year b) with
  | Some y =>
      bind (Library.int_lt y value)
           (fun lt => if lt then Ok false else Library.filter_match b rest)
  | None =>
  match Library.and_not_none (String.eqb key "year_to") (Book.year b) with
  | Some y =>
      bind (Library.int_gt y value)
           (fun gt => if gt then Ok false else Library.filter_match b rest)
  | None =>
  match Library.and_not_none (String.eqb key "rating_from") (Book.rating b) with
  | Some r =>
      bind (Library.int_lt r value)
           (fun lt => if lt then Ok false else Library.filter_match b rest)
  | None =>
  match Library.and_not_none (String.eqb key "rating_to") (Book.rating b) with
  | Some r =>
      bind (Library.int_gt r value)
           (fun gt => if gt then Ok false else Library.filter_match b rest)
  | None =>
      bind (Book.hasattr b key)
           (fun h => if h
                     then bind (Book.getattr b key)
                            (fun book_value =>
                               if negb (pyval_eqb book_value value) then Ok false
                               else Library.filter_match b rest)
                     else Ok false)
  end end end end.
Proof.
  cbn [Library.filter_match].
  rewrite !and_hasattr_year, !and_hasattr_rating. reflexivity.
Qed.

(** A book passes a filter only if it passes the filter without its first
    keyword. *)
Lemma filter_match_tail (b : Book.t) (key : string) (value : pyval)
    (rest : list (string * pyval)) :
  Library.filter_match b ((key, value) :: rest) = Ok true ->
  Library.filter_match b rest = Ok true.
Proof.
  rewrite filter_match_cons.
  repeat match goal with
         | |- context [match Library.and_not_none ?c ?o with _ => _ end] =>
             destruct (Library.and_not_none c o)
         end;
    try (destruct value; cbn; try discriminate;
         match goal with
         | |- context [if ?c then _ else _] => destruct c
         end; (discriminate || auto)).
  destruct (Book.hasattr b key) as [[|] | e |]; cbn; try discriminate.
  destruct (Book.getattr b key) as [bv | e |]; cbn; try discriminate.
  destruct (negb _); [discriminate | auto].
Qed.

Lemma filter_match_bound_on_absent (b : Book.t) (key : string) (value : pyval)
    (rest : list (string * pyval)) :
  bound_on_absent b key ->
  Library.filter_match b ((key, value) :: rest) = Ok false.
Proof.
  intros [[[-> | ->] Hn] | [[-> | ->] Hn]];
    rewrite filter_match_cons, Hn; reflexivity.
Qed.

Lemma filter_match_excludes_absent (b : Book.t) (kwargs : list (string * pyval))
    (key : string) (value : pyval) :
  In (key, value) kwargs -> bound_on_absent b key ->
  Library.filter_match b kwargs <> Ok true.
Proof.
  intros Hin Habs. induction kwargs as [|[k v] rest IH].
  - destruct Hin.
  - destruct Hin as [Heq | Hin].
    + inversion Heq; subst. rewrite (filter_match_bound_on_absent _ _ _ _ Habs).
      discriminate.
    + intro Ht. apply (IH Hin). exact (filter_match_tail _ _ _ _ Ht).
Qed.

(** C6, as the specification words it, fails: a lower bound on the year
    alone excludes the book that has no year. *)
Lemma filter_year_from_excludes_yearless :
  Book.year emma = None /\
  Library.get_book 1 two_books = Ok emma /\
  Library.filter_books [("year_from", VInt 1900)] two_books = Ok [0] /\
  Library.filter_books [("rating_to", VInt 5)] two_books = Ok [0].
Proof. repeat split. Qed.

(** C6.  The bounds are inclusive and a book without the attribute is
    excluded.  A call that supplies [year_from], [year_to] or both, and
    nothing else, returns the identifiers, ascending, of exactly the books
    that have a year with [year_from <= year <= year_to] (each bound
    counting only if supplied); the same holds of [rating_from],
    [rating_to] and the rating.  In any call a book with no year is left
    out as soon as [year_from] or [year_to] is among the keywords, and a
    book with no rating as soon as [rating_from] or [rating_to] is. *)
Lemma filter_books_bound (kwargs : list (string * pyval)) (lib : Library.t) :
  Library.bound_twice ["self"] kwargs = None ->
  Library.filter_books kwargs lib = Library.filter_from 0 kwargs (Library.books lib).
Proof. intro H. unfold Library.filter_books. rewrite H. reflexivity. Qed.

(** When [filter_books] returns, it returns what its loop over the books
    gives. *)
Lemma filter_books_returns (kwargs : list (string * pyval)) (lib : Library.t)
    (ids : list Z) :
  Library.filter_books kwargs lib = Ok ids ->
  Library.filter_from 0 kwargs (Library.books lib) = Ok ids.
Proof.
  unfold Library.filter_books.
  destruct (Library.bound_twice ["self"] kwargs); [discriminate | trivial].
Qed.

Theorem filter_bounds_inclusive_absent_excluded :
  (forall (lib : Library.t) (lo hi : option Z),
     supplied lo hi ->
     Library.filter_books (bounds "year_from" "year_to" lo hi) lib =
       Ok (ids_where (fun b => within lo hi (Book.year b)) 0 (Library.books lib)) /\
     Library.filter_books (bounds "rating_from" "rating_to" lo hi) lib =
       Ok (ids_where (fun b => within lo hi (Book.rating b)) 0 (Library.books lib))) /\
  (forall (b : Book.t) (kwargs : list (string * pyval)) (key : string) (value : pyval),
     In (key, value) kwargs -> bound_on_absent b key ->
     Library.filter_match b kwargs <> Ok true).
Proof.
  split.
  - intros lib lo hi Hs. split; rewrite filter_books_bound.
    2, 4: destruct lo, hi; reflexivity.
    + apply (filter_from_pointwise (fun b => within lo hi (Book.year b))).
      intro b. apply filter_match_year_bounds. exact Hs.
    + apply (filter_from_pointwise (fun b => within lo hi (Book.rating b))).
      intro b. apply filter_match_rating_bounds. exact Hs.
  - apply filter_match_excludes_absent.
Qed.

Lemma filter_bounds_inclusive_absent_excluded_witness :
  Library.filter_books [("year_from", VInt 1965); ("year_to", VInt 1965)] two_books
    = Ok [0] /\
  Library.filter_books [("rating_from", VInt 4)] two_books = Ok [0] /\
  Library.filter_match emma [("genre", VStr "Novel"); ("year_to", VInt 2024)] <> Ok true.
Proof.
  destruct filter_bounds_inclusive_absent_excluded as [Hb Hx].
  destruct (Hb two_books (Some 1965) (Some 1965)) as [Hy _];
    [left; discriminate|].
  destruct (Hb two_books (Some 4) None) as [_ Hr]; [left; discriminate|].
  split; [exact Hy | split; [exact Hr|]].
  apply (Hx emma _ "year_to" (VInt 2024)).
  - right. left. reflexivity.
  - left. split; [right; reflexivity | reflexivity].
Defined.

(** ** Serialization *)

Lemma as_strs_map (l : list string) : as_strs (map VStr l) = Ok l.
Proof.
  induction l as [|s l IH]; simpl.
  - reflexivity.
  - rewrite IH. reflexivity.
Qed.

Lemma as_opt_int_of_opt_int (o : option Z) : as_opt_int (Book.of_opt_int o) = Ok o.
Proof. destruct o; reflexivity. Qed.

(** Deserializing the serialization of a book gives the book back,
    whatever the clock says at that time. *)
Lemma from_dict_to_dict (today : Z) (b : Book.t) :
  Book.from_dict today (Book.to_dict b) = Ok b.
Proof.
  destruct b. unfold Book.from_dict, Book.to_dict. cbn -[as_strs as_opt_int Book.of_opt_int].
  rewrite !as_opt_int_of_opt_int. cbn -[as_strs].
  rewrite as_strs_map. reflexivity.
Qed.

(** C8.  Round-trip stability: for every book [b] whose rating is one of
    1..5, deserializing the flat document [to_dict(b)] with [from_dict]
    succeeds and serializing the result gives [to_dict(b)] again. *)
Theorem serialization_round_trip (today : Z) (b : Book.t) :
  (exists r, Book.rating b = Some r /\ 1 <= r <= 5) ->
  reserialize today (Book.to_dict b) = Ok (Book.to_dict b).
Proof.
  intros _. unfold reserialize. rewrite from_dict_to_dict. reflexivity.
Qed.

Lemma serialization_round_trip_witness :
  reserialize 738900 (Book.to_dict dune_lent) = Ok (Book.to_dict dune_lent).
Proof.
  apply serialization_round_trip. exists 4. split; [reflexivity | lia].
Defined.

(** ** Persistence *)

(** The body of the [try] never writes the path. *)
Lemma load_body_file_path (today : Z) (n : node) (lib : Library.t) :
  Library.file_path (snd (Library.load_body today n lib)) = Library.file_path lib.
Proof.
  unfold Library.load_body.
  destruct (Library.json_load n) as [data | e |]; try reflexivity.
  destruct (bind (get data "name" (VStr Library.default_name)) _) as [a_name | e |];
    try reflexivity.
  destruct (bind (get data "books" (VList [])) _) as [bks | e |]; reflexivity.
Qed.

Lemma load_file_path (today : Z) (path : option string) (lib : Library.t) (w : world) :
  Library.file_path (library_after (Library.load_from_file today path lib w)) =
  match path with Some p => p | None => Library.file_path lib end.
Proof.
  unfold Library.load_from_file, library_after.
  set (lib1 := match path with Some p => Library.set_file_path lib p | None => lib end).
  assert (H1 : Library.file_path lib1 =
               match path with Some p => p | None => Library.file_path lib end)
    by (destruct path; reflexivity).
  destruct (files w (Library.file_path lib1)) as [n|]; [|exact H1].
  pose proof (load_body_file_path today n lib1) as Hb.
  destruct (Library.load_body today n lib1) as [[u | e |] lib2]; simpl in *;
    try (rewrite Hb; exact H1).
  destruct e; simpl; rewrite Hb; exact H1.
Qed.

Lemma load_missing (today : Z) (path : string) (lib : Library.t) (w : world) :
  files w path = None ->
  Library.load_from_file today (Some path) lib w =
    (Ok tt, Library.set_file_path lib path, w).
Proof.
  intro H. unfold Library.load_from_file. simpl. rewrite H. reflexivity.
Qed.

(** C10.  A persistence call with a path writes that path into the
    library first.  After [save_to_file(path)] the stored [file_path] is
    [path] however the call ends, a refused [open] included; after
    [load_from_file(path)] it is [path] however the call ends.  In
    particular [load_from_file(path)] on a path that does not exist
    returns normally with the name and the books unchanged and [file_path]
    equal to [path], and the next [save_to_file()] and [load_from_file()]
    without a path work on [path]. *)
Theorem persistence_overwrites_file_path
    (today : Z) (path : string) (lib : Library.t) (w : world) :
  Library.file_path (library_after (Library.save_to_file (Some path) lib w)) = path /\
  Library.file_path (library_after (Library.load_from_file today (Some path) lib w)) = path /\
  (files w path = None ->
   exists lib',
     Library.load_from_file today (Some path) lib w = (Ok tt, lib', w) /\
     Library.file_path lib' = path /\
     Library.name lib' = Library.name lib /\
     Library.books lib' = Library.books lib /\
     Library.load_from_file today None lib' w = (Ok tt, lib', w) /\
     (unwritable w path = None ->
      Library.save_to_file None lib' w =
        (Ok tt, lib', write_file w path (Library.document lib)))).
Proof.
  split; [| split].
  - unfold Library.save_to_file, library_after. simpl.
    destruct (unwritable w path); reflexivity.
  - apply (load_file_path today (Some path)).
  - intro Hmiss. exists (Library.set_file_path lib path).
    split; [apply load_missing; exact Hmiss|].
    repeat split.
    + unfold Library.load_from_file. simpl. rewrite Hmiss. reflexivity.
    + intro Hw. unfold Library.save_to_file. simpl. rewrite Hw. reflexivity.
Qed.

Lemma persistence_overwrites_file_path_witness :
  exists lib',
    Library.load_from_file 738900 (Some "elsewhere.json") one_book garbled_world
      = (Ok tt, lib', garbled_world) /\
    Library.file_path lib' = "elsewhere.json" /\
    Library.name lib' = "Home" /\ Library.books lib' = [dune] /\
    world_after (Library.save_to_file None lib' garbled_world) =
      write_file garbled_world "elsewhere.json" (Library.document one_book).
Proof.
  destruct (persistence_overwrites_file_path 738900 "elsewhere.json" one_book garbled_world)
    as (_ & _ & H).
  destruct (H eq_refl) as (lib' & E & Hp & Hn & Hb & _ & Hs).
  exists lib'. repeat split; try assumption.
  rewrite (Hs eq_refl). reflexivity.
Defined.

(** C7, as the specification words it, fails.  On a file that is not JSON
    [load_from_file] returns normally: what went wrong is shown on the
    page, the caller is handed no error.  On a file that is JSON but holds
    a book without a title it returns normally too, with the name of the
    new document and the books of the old one. *)
Lemma load_swallows_errors :
  Library.load_from_file 738900 (Some "books.json") one_book garbled_world =
    (Ok tt, Library.mk "Home" [dune] "books.json",
     st_error garbled_world "Error: books.json is not a valid JSON file.") /\
  is_exception (outcome (Library.load_from_file 738900 (Some "books.json") one_book
                           garbled_world)) = false /\
  Library.load_from_file 738900 (Some "books.json") one_book truncated_world =
    (Ok tt, Library.mk "Office" [dune] "books.json",
     st_error truncated_world "Error loading library: 'title'").
Proof. repeat split. Qed.

(** No exception leaves [load_from_file]. *)
Lemma load_never_raises (today : Z) (path : option string) (lib : Library.t) (w : world) :
  is_exception (outcome (Library.load_from_file today path lib w)) = false.
Proof.
  unfold Library.load_from_file, outcome.
  destruct (files w _) as [n|]; [|reflexivity].
  destruct (Library.load_body today n _) as [[u | e |] lib2]; try reflexivity.
  destruct e; reflexivity.
Qed.

(** C7.  [load_from_file(path)] hands no error to its caller, whatever the
    file.  On a path that does not exist it returns normally, shows
    nothing, and leaves the name and the books as they were (the stored
    path becomes [path]).  On a file that exists and is not JSON it
    returns normally as well: it shows "Error: <path> is not a valid JSON
    file." through [st.error] and leaves the name and the books as they
    were. *)
Theorem load_missing_or_garbled
    (today : Z) (path : string) (lib : Library.t) (w : world) :
  is_exception (outcome (Library.load_from_file today (Some path) lib w)) = false /\
  (files w path = None ->
   Library.load_from_file today (Some path) lib w =
     (Ok tt, Library.mk (Library.name lib) (Library.books lib) path, w)) /\
  (forall msg, files w path = Some (Garbled msg) ->
   Library.load_from_file today (Some path) lib w =
     (Ok tt, Library.mk (Library.name lib) (Library.books lib) path,
      st_error w ("Error: " ++ path ++ " is not a valid JSON file."))).
Proof.
  split; [apply load_never_raises | split].
  - intro H. rewrite (load_missing _ _ _ _ H). reflexivity.
  - intros msg H. unfold Library.load_from_file. simpl. rewrite H. reflexivity.
Qed.

Lemma load_missing_or_garbled_witness :
  Library.load_from_file 738900 (Some "elsewhere.json") one_book garbled_world =
    (Ok tt, Library.mk "Home" [dune] "elsewhere.json", garbled_world) /\
  Library.load_from_file 738900 (Some "books.json") one_book garbled_world =
    (Ok tt, Library.mk "Home" [dune] "books.json",
     st_error garbled_world "Error: books.json is not a valid JSON file.").
Proof.
  destruct (load_missing_or_garbled 738900 "elsewhere.json" one_book garbled_world)
    as (_ & Hm & _).
  destruct (load_missing_or_garbled 738900 "books.json" one_book garbled_world)
    as (_ & _ & Hg).
  split.
  - exact (Hm eq_refl).
  - exact (Hg _ eq_refl).
Defined.

(** ** The lending invariant *)

Lemma lending_invariant_ext (b b' : Book.t) :
  lending_state b' = lending_state b -> lending_invariant b -> lending_invariant b'.
Proof.
  unfold lending_state, lending_invariant. intros H. inversion H as [[H1 H2 H3 H4]].
  rewrite H1, H2, H3, H4. auto.
Qed.

Lemma lending_invariant_available (b : Book.t) :
  Book.status b = "Available" ->
  Book.borrowed_by b = "" -> Book.borrowed_date b = "" -> Book.due_date b = "" ->
  lending_invariant b.
Proof.
  intros Hs H1 H2 H3. unfold lending_invariant. rewrite Hs, H1, H2, H3. split; split.
  - discriminate.
  - intros (H & _). contradiction.
  - auto.
  - reflexivity.
Qed.

Lemma lending_invariant_borrowed (b : Book.t) :
  Book.status b = "Borrowed" ->
  Book.borrowed_by b <> "" -> Book.borrowed_date b <> "" -> Book.due_date b <> "" ->
  lending_invariant b.
Proof.
  intros Hs H1 H2 H3. unfold lending_invariant. rewrite Hs. split; split.
  - auto.
  - reflexivity.
  - discriminate.
  - intros (H & _). contradiction.
Qed.

(** Assigning an attribute the invariant does not read leaves the four it
    reads alone. *)
Lemma setattr_lending_state (b : Book.t) (key : string) (value : pyval) (b' : Book.t) :
  ~ lending_attr key -> Book.setattr b key value = Ok b' ->
  lending_state b' = lending_state b.
Proof.
  intros Hn H. unfold Book.setattr in H.
  repeat match type of H with
         | (if String.eqb ?k ?s then _ else _) = _ =>
             let E := fresh "E" in
             destruct (String.eqb k s) eqn:E;
             [ apply String.eqb_eq in E;
               try (exfalso; apply Hn; unfold lending_attr; tauto);
               destruct value; simpl in H; try discriminate;
               try (match type of H with
                    | bind (as_strs ?l) _ = _ => destruct (as_strs l); simpl in H
                    end);
               try discriminate; inversion H; reflexivity
             | ]
         end.
  discriminate.
Qed.

Lemma update_attrs_lending_state (kwargs : list (string * pyval)) (b b' : Book.t) :
  (forall key value, In (key, value) kwargs -> ~ lending_attr key) ->
  Library.update_attrs b kwargs = Ok b' ->
  lending_state b' = lending_state b.
Proof.
  revert b. induction kwargs as [|[key value] rest IH]; intros b Hk H;
    cbn [Library.update_attrs] in H.
  - inversion H. reflexivity.
  - assert (Hrest : forall k v, In (k, v) rest -> ~ lending_attr k)
      by (intros k v Hin; apply (Hk k v); right; exact Hin).
    destruct (Book.hasattr b key) as [[|] | e |]; cbn [bind] in H; try discriminate.
    + destruct (Book.setattr b key value) as [b1 | e |] eqn:Hset; cbn [bind] in H;
        try discriminate.
      rewrite (IH b1 Hrest H).
      apply (setattr_lending_state b key value b1); [|exact Hset].
      apply (Hk key value). left. reflexivity.
    + apply (IH b Hrest H).
Qed.

Lemma step_preserves_invariant (b b' : Book.t) :
  lending_invariant b -> step b b' -> lending_invariant b'.
Proof.
  intros Hinv Hstep. destruct Hstep as [today borrower days r b' Hb Ht Hs Hl | r b' Hr | kw b' Hk Hu].
  - destruct (string_dec (Book.status b) "Available") as [Ha | Hna].
    + destruct (lend_available today borrower days b Ha Ht Hs)
        as (b1 & E & S1 & B1 & D1 & U1 & _).
      rewrite E in Hl. inversion Hl; subst b'.
      apply lending_invariant_borrowed; try assumption.
      * rewrite B1. exact Hb.
      * rewrite D1. apply strftime_nonempty.
      * rewrite U1. apply strftime_nonempty.
    + rewrite (lend_unavailable today borrower days b Hna) in Hl.
      inversion Hl; subst b'. exact Hinv.
  - destruct (string_dec (Book.status b) "Borrowed") as [Hbo | Hnb].
    + destruct (return_borrowed b Hbo) as (b1 & E & S1 & B1 & D1 & U1 & _).
      rewrite E in Hr. inversion Hr; subst b'.
      apply lending_invariant_available; assumption.
    + rewrite (return_not_borrowed b Hnb) in Hr. inversion Hr; subst b'. exact Hinv.
  - apply (lending_invariant_ext b b'); [|exact Hinv].
    apply (update_attrs_lending_state kw); [|exact Hu].
    intros key value Hin. apply (Hk key value Hin).
Qed.

(** C2, as the specification words it, fails, in each of its four parts:
    a book constructed with another status than the default, a book
    deserialized from a document that says "Borrowed" and no more, a book
    whose status is updated, and a book lent to the empty string break the
    invariant. *)
Lemma lending_invariant_broken :
  (exists b, lost_book = Ok b /\ ~ lending_invariant b) /\
  (exists b, Book.from_dict 738900 borrowed_document = Ok b /\ ~ lending_invariant b) /\
  (exists lib b, Library.update_book 0 [("status", VStr "Borrowed")] one_book = (Ok tt, lib) /\
                 Library.get_book 0 lib = Ok b /\ ~ lending_invariant b) /\
  (exists b, Book.lend 738900 "" 14 dune = (Ok tt, b) /\ ~ lending_invariant b).
Proof.
  split; [| split; [| split]].
  - eexists. split; [reflexivity|]. intros [_ [_ H]].
    assert (Hd : "Lost" = "Available") by (apply H; repeat split). discriminate Hd.
  - eexists. split; [reflexivity|]. intros [[H _] _].
    destruct (H eq_refl) as [Hb _]. apply Hb. reflexivity.
  - do 2 eexists. split; [reflexivity|]. split; [reflexivity|]. intros [[H _] _].
    destruct (H eq_refl) as [Hb _]. apply Hb. reflexivity.
  - eexists. split; [reflexivity|]. intros [[H _] _].
    destruct (H eq_refl) as [Hb _]. apply Hb. reflexivity.
Qed.

(** C2.  The invariant (status "Borrowed" exactly when [borrowed_by],
    [borrowed_date] and [due_date] are all non-empty, status "Available"
    exactly when all three are empty) holds of every book constructed with
    the status "Available", which is the default; it holds of the book
    deserialized from the serialization of a book of which it holds; and
    from a book of which it holds it is kept by every sequence of calls of
    [lend] with a non-empty borrower and dates of the calendar, of
    [return_book], and of updates whose keywords are none of [status],
    [borrowed_by], [borrowed_date], [due_date], are not the name of a
    method and do not start with an underscore, whether the calls return
    or raise. *)
Theorem lending_invariant_kept :
  (forall (today : Z) (title author isbn genre : string) (year : option Z)
          (publisher : string) (pages : option Z) (description location : string)
          (rating : option Z) (date_added : option string) (tags : option (list string)),
     exists b,
       Book.init today title author isbn genre year publisher pages description
                 location "Available" rating date_added tags = Ok b /\
       lending_invariant b) /\
  (forall (today : Z) (b b' : Book.t),
     lending_invariant b -> Book.from_dict today (Book.to_dict b) = Ok b' ->
     lending_invariant b') /\
  (forall b b' : Book.t, lending_invariant b -> steps b b' -> lending_invariant b').
Proof.
  split; [| split].
  - intros. eexists. split; [reflexivity|].
    apply lending_invariant_available; reflexivity.
  - intros today b b' Hinv H. rewrite from_dict_to_dict in H. inversion H; subst b'.
    exact Hinv.
  - intros b b' Hinv Hsteps. induction Hsteps as [| b b1 b2 Hstep _ IH].
    + exact Hinv.
    + apply IH. apply (step_preserves_invariant b b1); assumption.
Qed.

Lemma lending_invariant_kept_witness :
  lending_invariant dune /\ lending_invariant dune_lent /\ lending_invariant dune_retitled.
Proof.
  destruct lending_invariant_kept as (Hnew & Hload & Hkeep).
  assert (Hd : lending_invariant dune).
  { destruct (Hnew 738886 "Dune" "Herbert" "" "Science Fiction" (Some 1965) "" None ""
                   "Shelf" (Some 4) (Some "2024-01-01") (Some ["classic"]))
      as (b & E & Hb).
    inversion E; subst b. exact (Hload 738900 dune dune Hb eq_refl). }
  assert (Hr : Datetime.in_range 738900)
    by (unfold Datetime.in_range, Datetime.MINORDINAL, Datetime.MAXORDINAL; lia).
  assert (Hr' : Datetime.in_range (738900 + 14))
    by (unfold Datetime.in_range, Datetime.MINORDINAL, Datetime.MAXORDINAL; lia).
  assert (S1 : step dune dune_lent).
  { apply (step_lend dune 738900 "Ada" 14 (Ok tt) dune_lent);
      [discriminate | exact Hr | exact Hr' | reflexivity]. }
  assert (S2 : step dune_lent dune_retitled).
  { apply (step_update dune_lent [("title", VStr "Dune Messiah"); ("shelf", VInt 3)]);
      [|reflexivity].
    intros key value [H | [H | []]]; inversion H; subst;
      (split; [intros [A | [A | [A | A]]]; discriminate A | reflexivity]). }
  split; [exact Hd | split].
  - apply (Hkeep dune); [exact Hd|].
    apply (steps_more dune dune_lent dune_lent S1). apply steps_none.
  - apply (Hkeep dune); [exact Hd|].
    apply (steps_more dune dune_lent dune_retitled S1).
    apply (steps_more dune_lent dune_retitled dune_retitled S2). apply steps_none.
Defined.

(** ** Statistics *)

Section StatisticsProperties.

Variable float : Type.
Variable truediv : Z -> Z -> float.
Variable round : float -> Z -> float.

Lemma truthy_counted (o : option Z) : Library.truthy o = counted o.
Proof. destruct o as [[|p|p]|]; reflexivity. Qed.






(** One book rated 4: one in the bucket of 4, none elsewhere, and the
    average is [round(4 / 1, 2)]. *)
Example statistics_single_book :
  let s := Library.get_statistics float truediv round one_book in
  Library.total_books s = 1 /\
  Library.ratings s =
    [ (Library.Stars 1, 0); (Library.Stars 2, 0); (Library.Stars 3, 0);
      (Library.Stars 4, 1); (Library.Stars 5, 0); (Library.Unrated, 0) ] /\
  Library.avg_rating s = Library.NFloat (round (truediv 4 1) 2) /\
  Library.oldest_book s = Some ("Dune", 1965).
Proof. repeat split. Qed.

End StatisticsProperties.

(** The integer that [round] keeps is the one nearest to the quotient. *)
Lemma half_even_nearest (n d : Z) :
  0 < d -> Z.abs (2 * (d * Float.half_even n d - n)) <= d.
Proof.
  intro Hd. unfold Float.half_even.
  pose proof (Z.div_mod n d ltac:(lia)) as E.
  pose proof (Z.mod_pos_bound n d Hd) as B.
  destruct (Z.compare_spec (2 * (n mod d)) d) as [H | H | H];
    [destruct (Z.even (n / d)) | |]; nia.
Qed.

(** A tie goes to the even multiple, and it is the exact value of the float
    that is rounded: 0.125 rounds to 0.12, 0.375 to 0.38, and 2.675, which
    as a float lies below the decimal, to 2.67. *)
Example round_ties_and_literals :
  Float.round (Float.truediv 1 8) 2 = Float.hundredths 12 /\
  Float.round (Float.truediv 3 8) 2 = Float.hundredths 38 /\
  Float.round (Float.truediv 2675 1000) 2 = Float.hundredths 267 /\
  Float.round (Float.truediv (-13) 3) 2 = Float.truediv (-433) 100 /\
  Float.truediv 4 1 = S754_finite false 4503599627370496 (-50).
Proof. vm_compute. repeat split. Qed.



(** ** The operations on the examples *)

Example search_ignores_case : Library.search_books no_unicode "HERB" None two_books = Ok [0].
Proof. reflexivity. Qed.

Example search_in_tags :
  Library.search_books no_unicode "Class" (Some ["tags"]) two_books = Ok [0].
Proof. reflexivity. Qed.

Example search_in_year :
  Library.search_books no_unicode "196" (Some ["year"; "shelf"]) two_books = Ok [0].
Proof. reflexivity. Qed.

Example search_in_method :
  Library.search_books no_unicode "bound" (Some ["lend"]) two_books = Untyped.
Proof. reflexivity. Qed.

Example filter_by_status :
  Library.filter_books [("status", VStr "Available")] two_books = Ok [0; 1].
Proof. reflexivity. Qed.

Example filter_unknown_key : Library.filter_books [("shelf", VInt 3)] two_books = Ok [].
Proof. reflexivity. Qed.

(** A keyword named as the parameter is refused; what a keyword named as a
    method or as a name of [object] selects is outside the embedding. *)
Example filter_keyword_self :
  Library.filter_books [("self", VInt 3)] two_books =
  Raise (TypeError "Library.filter_books() got multiple values for argument 'self'").
Proof. reflexivity. Qed.

Example filter_keyword_of_object :
  Library.filter_books [("__doc__", VNone)] two_books = Untyped /\
  Library.update_book 0 [("__dict__", VDict [])] two_books = (Untyped, two_books).
Proof. split; reflexivity. Qed.

Example filter_bound_of_wrong_type :
  Library.filter_books [("year_to", VStr "1970")] two_books =
  Raise (TypeError "'>' not supported between instances of 'int' and 'str'").
Proof. reflexivity. Qed.

Example remove_shifts_ids :
  exists lib, Library.remove_book 0 two_books = (Ok dune, lib) /\
              Library.get_book 0 lib = Ok emma /\
              Library.get_book 1 lib = Raise (ValueError "Invalid book ID: 1").
Proof. eexists. repeat split. Qed.

Example sorted_desc_is_stable :
  Library.sorted_desc [("a", 1); ("b", 2); ("c", 1); ("d", 2)] =
  [("b", 2); ("d", 2); ("a", 1); ("c", 1)].
Proof. reflexivity. Qed.

Example from_dict_defaults :
  Book.from_dict 738900 (VDict [("title", VStr "Emma"); ("author", VStr "Austen")]) =
  Ok (Book.mk "Emma" "Austen" "" "" None "" None "" "Shelf" "Available" None
              "2024-01-15" "" "" "" []).
Proof. reflexivity. Qed.

Example from_dict_without_title :
  Book.from_dict 738900 (VDict [("author", VStr "Austen")]) = Raise (KeyError "title").
Proof. reflexivity. Qed.

Example save_then_load :
  let '(_, lib, w) := Library.save_to_file (Some "shelf.json") two_books garbled_world in
  Library.load_from_file 738900 (Some "shelf.json") (Library.init "Fresh") w =
  (Ok tt, lib, w).
Proof. reflexivity. Qed.

(** * Further properties of the two classes *)

(** ** Tags *)

Lemma mem_In (x : string) (l : list string) : Book.mem x l = true <-> In x l.
Proof.
  unfold Book.mem. rewrite existsb_exists. split.
  - intros (y & Hy & E). apply String.eqb_eq in E. subst y. exact Hy.
  - intro H. exists x. split; [exact H | apply String.eqb_refl].
Qed.

Lemma mem_not_In (x : string) (l : list string) : Book.mem x l = false <-> ~ In x l.
Proof.
  rewrite <- mem_In. destruct (Book.mem x l); split; congruence.
Qed.

Lemma set_tags_same (b : Book.t) : Book.set_tags b (Book.tags b) = b.
Proof. destruct b. reflexivity. Qed.

Lemma remove_first_absent (x : string) (l : list string) :
  ~ In x l -> Book.remove_first x l = l.
Proof.
  induction l as [|y l IH]; simpl; intro H; [reflexivity|].
  destruct (String.eqb x y) eqn:E.
  - apply String.eqb_eq in E. exfalso. apply H. left. symmetry. exact E.
  - f_equal. apply IH. intro Hin. apply H. right. exact Hin.
Qed.

Lemma remove_first_split (x : string) (l1 l2 : list string) :
  ~ In x l1 -> Book.remove_first x (l1 ++ x :: l2) = (l1 ++ l2)%list.
Proof.
  induction l1 as [|y l1 IH]; simpl; intro H.
  - rewrite String.eqb_refl. reflexivity.
  - destruct (String.eqb x y) eqn:E.
    + apply String.eqb_eq in E. exfalso. apply H. left. symmetry. exact E.
    + f_equal. apply IH. intro Hin. apply H. right. exact Hin.
Qed.

(** X1.  [add_tag] is idempotent and never duplicates: when the tag is
    already among the tags the book is unchanged, otherwise the tag is put
    after the last tag; the tag is among the tags afterwards, a second
    call changes nothing, and a list of tags without repetition stays
    without repetition. *)
Theorem add_tag_idempotent (tag : string) (b : Book.t) :
  (In tag (Book.tags b) -> Book.add_tag tag b = b) /\
  (~ In tag (Book.tags b) ->
   Book.add_tag tag b = Book.set_tags b (Book.tags b ++ [tag])) /\
  In tag (Book.tags (Book.add_tag tag b)) /\
  Book.add_tag tag (Book.add_tag tag b) = Book.add_tag tag b /\
  (NoDup (Book.tags b) -> NoDup (Book.tags (Book.add_tag tag b))).
Proof.
  assert (Hin : In tag (Book.tags b) -> Book.add_tag tag b = b).
  { intro H. unfold Book.add_tag. apply mem_In in H. rewrite H. reflexivity. }
  assert (Hout : ~ In tag (Book.tags b) ->
                 Book.add_tag tag b = Book.set_tags b (Book.tags b ++ [tag])).
  { intro H. unfold Book.add_tag. apply mem_not_In in H. rewrite H. reflexivity. }
  assert (Hafter : In tag (Book.tags (Book.add_tag tag b))).
  { destruct (in_dec string_dec tag (Book.tags b)) as [H | H].
    - rewrite (Hin H). exact H.
    - rewrite (Hout H). simpl. apply in_or_app. right. left. reflexivity. }
  split; [exact Hin | split; [exact Hout | split; [exact Hafter | split]]].
  - unfold Book.add_tag at 1. apply mem_In in Hafter. rewrite Hafter. reflexivity.
  - intro Hnd. destruct (in_dec string_dec tag (Book.tags b)) as [H | H].
    + rewrite (Hin H). exact Hnd.
    + rewrite (Hout H). simpl. apply NoDup_app; [exact Hnd | repeat constructor; auto |].
      intros x Hx [Hx' | []]. subst x. exact (H Hx).
Qed.

Lemma add_tag_idempotent_witness :
  Book.add_tag "classic" dune = dune /\
  Book.tags (Book.add_tag "desert" dune) = ["classic"; "desert"] /\
  NoDup (Book.tags (Book.add_tag "desert" dune)).
Proof.
  destruct (add_tag_idempotent "classic" dune) as (H1 & _).
  destruct (add_tag_idempotent "desert" dune) as (_ & H2 & _ & _ & H5).
  split; [| split].
  - apply H1. left. reflexivity.
  - rewrite H2; [reflexivity|]. intros [H | []]. discriminate H.
  - apply H5. repeat constructor. intros [].
Defined.

(** X2.  [remove_tag] removes the first occurrence of the tag and nothing
    else: a book without the tag is unchanged; when the tag occurs, the
    tags before and after its first occurrence are kept in their order; on
    a list without repetition the tag is gone afterwards. *)
Theorem remove_tag_first_occurrence (tag : string) (b : Book.t) :
  (~ In tag (Book.tags b) -> Book.remove_tag tag b = b) /\
  (forall l1 l2, Book.tags b = (l1 ++ tag :: l2)%list -> ~ In tag l1 ->
     Book.remove_tag tag b = Book.set_tags b (l1 ++ l2)) /\
  (NoDup (Book.tags b) -> ~ In tag (Book.tags (Book.remove_tag tag b))).
Proof.
  assert (Hout : ~ In tag (Book.tags b) -> Book.remove_tag tag b = b).
  { intro H. unfold Book.remove_tag. apply mem_not_In in H. rewrite H. reflexivity. }
  assert (Hsplit : forall l1 l2, Book.tags b = (l1 ++ tag :: l2)%list -> ~ In tag l1 ->
                   Book.remove_tag tag b = Book.set_tags b (l1 ++ l2)).
  { intros l1 l2 E H1. unfold Book.remove_tag.
    assert (Hin : In tag (Book.tags b))
      by (rewrite E; apply in_or_app; right; left; reflexivity).
    apply mem_In in Hin. rewrite Hin, E, (remove_first_split _ _ _ H1). reflexivity. }
  split; [exact Hout | split; [exact Hsplit |]].
  intro Hnd. destruct (in_dec string_dec tag (Book.tags b)) as [H | H].
  - destruct (in_split _ _ H) as (l1 & l2 & E).
    rewrite E in Hnd. pose proof (NoDup_remove_2 _ _ _ Hnd) as Hno.
    rewrite (Hsplit l1 l2 E).
    + simpl. exact Hno.
    + intro H1. apply Hno. apply in_or_app. left. exact H1.
  - rewrite (Hout H). exact H.
Qed.

Lemma remove_tag_first_occurrence_witness :
  Book.remove_tag "desert" dune = dune /\
  Book.tags (Book.remove_tag "classic" dune) = [] /\
  ~ In "classic" (Book.tags (Book.remove_tag "classic" dune)).
Proof.
  destruct (remove_tag_first_occurrence "desert" dune) as (H1 & _).
  destruct (remove_tag_first_occurrence "classic" dune) as (_ & H2 & H3).
  split; [| split].
  - apply H1. intros [H | []]. discriminate H.
  - rewrite (H2 [] []); [reflexivity | reflexivity | intros []].
  - apply H3. repeat constructor. intros [].
Defined.

(** X3.  Adding a tag the book does not have and removing it again gives
    the book back. *)
Theorem add_then_remove_tag (tag : string) (b : Book.t) :
  ~ In tag (Book.tags b) -> Book.remove_tag tag (Book.add_tag tag b) = b.
Proof.
  intro H. unfold Book.add_tag. pose proof H as Hm. apply mem_not_In in Hm.
  rewrite Hm. unfold Book.remove_tag. simpl.
  assert (Hin : Book.mem tag (Book.tags b ++ [tag]) = true)
    by (apply mem_In; apply in_or_app; right; left; reflexivity).
  rewrite Hin, (remove_first_split tag (Book.tags b) [] H), app_nil_r.
  destruct b. reflexivity.
Qed.

Lemma add_then_remove_tag_witness :
  Book.remove_tag "desert" (Book.add_tag "desert" dune) = dune.
Proof.
  apply add_then_remove_tag. intros [H | []]. discriminate H.
Defined.

(** ** Lending and returning, composed *)

(** X4.  A loan followed by the return gives back the book as it was: for
    a book on the shelf with its borrowing fields empty, [lend] and then
    [return_book] both return normally and the book is the one before the
    loan; while it is out, any further [lend] raises and changes
    nothing. *)
Theorem lend_then_return (today : Z) (borrower : string) (days : Z) (b : Book.t) :
  Book.status b = "Available" ->
  Book.borrowed_by b = "" -> Book.borrowed_date b = "" -> Book.due_date b = "" ->
  Datetime.in_range today -> Datetime.in_range (today + days) ->
  exists lent,
    Book.lend today borrower days b = (Ok tt, lent) /\
    Book.return_book lent = (Ok tt, b) /\
    (forall today' borrower' days',
       exists msg, Book.lend today' borrower' days' lent = (Raise (ValueError msg), lent)).
Proof.
  intros Hst H1 H2 H3 Ht Hs. unfold Book.lend. rewrite Hst. simpl.
  rewrite (add_days_in_range _ _ Ht Hs).
  eexists. split; [reflexivity|]. split.
  - unfold Book.return_book. simpl. destruct b. simpl in *. subst. reflexivity.
  - intros. eexists. reflexivity.
Qed.

Lemma lend_then_return_witness :
  exists lent,
    Book.lend 738900 "Ada" 14 dune = (Ok tt, lent) /\
    Book.return_book lent = (Ok tt, dune).
Proof.
  destruct (lend_then_return 738900 "Ada" 14 dune) as (lent & H1 & H2 & _);
    try reflexivity;
    try (unfold Datetime.in_range, Datetime.MINORDINAL, Datetime.MAXORDINAL; lia).
  exists lent. split; assumption.
Defined.

(** ** Deserialization *)

Lemma bind_ok {A B : Type} (r : result A) (k : A -> result B) (b : B) :
  bind r k = Ok b -> exists a, r = Ok a /\ k a = Ok b.
Proof.
  destruct r as [a | e |]; simpl; intro H; try discriminate.
  exists a. split; [reflexivity | exact H].
Qed.

Lemma get_dict (d : list (string * pyval)) (key : string) (default : pyval) :
  get (VDict d) key default =
  Ok (match dict_lookup key d with Some v => v | None => default end).
Proof. unfold get. destruct (dict_lookup key d); reflexivity. Qed.

(** X5.  [from_dict] needs [title] and [author] and nothing else: on a
    dictionary without the key [title] it raises [KeyError('title')], on
    one with [title] and without [author] it raises [KeyError('author')],
    whatever else the dictionary holds. *)
Theorem from_dict_required_keys (today : Z) (d : list (string * pyval)) :
  (dict_lookup "title" d = None ->
   Book.from_dict today (VDict d) = Raise (KeyError "title")) /\
  (dict_lookup "title" d <> None -> dict_lookup "author" d = None ->
   Book.from_dict today (VDict d) = Raise (KeyError "author")).
Proof.
  unfold Book.from_dict, subscript. split.
  - intro H. rewrite H. reflexivity.
  - intros Ht Ha. destruct (dict_lookup "title" d); [|congruence].
    rewrite Ha. reflexivity.
Qed.

Lemma from_dict_required_keys_witness :
  Book.from_dict 738900 (VDict [("author", VStr "Austen"); ("year", VInt 1815)]) =
    Raise (KeyError "title") /\
  Book.from_dict 738900 (VDict [("title", VStr "Emma"); ("year", VInt 1815)]) =
    Raise (KeyError "author").
Proof.
  split.
  - apply (from_dict_required_keys 738900). reflexivity.
  - apply (from_dict_required_keys 738900); [discriminate | reflexivity].
Defined.

(** X6.  A book that [from_dict] returns holds the title and the author of
    the dictionary, and for every optional key the dictionary lacks it
    holds the default: the empty string for the texts, "Shelf" for the
    location, "Available" for the status, no year, pages or rating, the
    date of the day for [date_added], no tags. *)
Theorem from_dict_defaults_filled (today : Z) (d : list (string * pyval)) (b : Book.t) :
  Book.from_dict today (VDict d) = Ok b ->
  dict_lookup "title" d = Some (VStr (Book.title b)) /\
  dict_lookup "author" d = Some (VStr (Book.author b)) /\
  (dict_lookup "isbn" d = None -> Book.isbn b = "") /\
  (dict_lookup "genre" d = None -> Book.genre b = "") /\
  (dict_lookup "year" d = None -> Book.year b = None) /\
  (dict_lookup "publisher" d = None -> Book.publisher b = "") /\
  (dict_lookup "pages" d = None -> Book.pages b = None) /\
  (dict_lookup "description" d = None -> Book.description b = "") /\
  (dict_lookup "location" d = None -> Book.location b = "Shelf") /\
  (dict_lookup "status" d = None -> Book.status b = "Available") /\
  (dict_lookup "rating" d = None -> Book.rating b = None) /\
  (dict_lookup "date_added" d = None -> Book.date_added b = Datetime.strftime today) /\
  (dict_lookup "tags" d = None -> Book.tags b = []) /\
  (dict_lookup "borrowed_by" d = None -> Book.borrowed_by b = "") /\
  (dict_lookup "borrowed_date" d = None -> Book.borrowed_date b = "") /\
  (dict_lookup "due_date" d = None -> Book.due_date b = "").
Proof.
  intro H. unfold Book.from_dict in H.
  repeat (apply bind_ok in H; let x := fresh "x" in let E := fresh "E" in
          destruct H as (x & E & H)).
  inversion H; subst b; clear H.
  unfold Book.init in *.
  repeat match goal with
         | E : Ok _ = Ok _ |- _ => inversion E; subst; clear E
         | E : get (VDict d) _ _ = Ok _ |- _ => rewrite get_dict in E
         end.
  unfold subscript in *.
  destruct (dict_lookup "title" d) as [vt|]; [|discriminate].
  destruct (dict_lookup "author" d) as [va|]; [|discriminate].
  repeat match goal with
         | E : Ok _ = Ok _ |- _ => inversion E; subst; clear E
         end.
  repeat match goal with
         | E : as_str ?v = Ok _ |- _ =>
             is_var v; destruct v; simpl in E; try discriminate;
             inversion E; subst; clear E
         end.
  simpl. split; [reflexivity | split; [reflexivity |]].
  repeat split; intro Hl;
    repeat match goal with
           | E : as_str (match dict_lookup ?k d with _ => _ end) = Ok _ |- _ =>
               rewrite Hl in E; simpl in E; inversion E; subst; clear E
           | E : as_opt_int (match dict_lookup ?k d with _ => _ end) = Ok _ |- _ =>
               rewrite Hl in E; simpl in E; inversion E; subst; clear E
           | E : as_opt_str (match dict_lookup ?k d with _ => _ end) = Ok _ |- _ =>
               rewrite Hl in E; simpl in E; inversion E; subst; clear E
           | E : as_opt_str_list (match dict_lookup ?k d with _ => _ end) = Ok _ |- _ =>
               rewrite Hl in E; simpl in E; inversion E; subst; clear E
           end; reflexivity.
Qed.

Lemma from_dict_defaults_filled_witness :
  exists b,
    Book.from_dict 738900 (VDict [("title", VStr "Emma"); ("author", VStr "Austen");
                                  ("year", VInt 1815)]) = Ok b /\
    Book.location b = "Shelf" /\ Book.status b = "Available" /\
    Book.date_added b = "2024-01-15" /\ Book.tags b = [] /\ Book.rating b = None.
Proof.
  eexists. split; [reflexivity|].
  match goal with
  | |- Book.location ?b = _ /\ _ =>
      destruct (from_dict_defaults_filled 738900
                  [("title", VStr "Emma"); ("author", VStr "Austen"); ("year", VInt 1815)]
                  b eq_refl)
        as (_ & _ & _ & _ & _ & _ & _ & _ & Hloc & Hst & Hr & Hd & Ht & _)
  end.
  split; [exact (Hloc eq_refl) | split; [exact (Hst eq_refl) | split; [| split]]].
  - exact (Hd eq_refl).
  - exact (Ht eq_refl).
  - exact (Hr eq_refl).
Defined.

(** ** Identifiers *)

Lemma valid_id_spec (lib : Library.t) (book_id : Z) :
  Library.valid_id lib book_id = true <-> 0 <= book_id < Library.len lib.
Proof.
  unfold Library.valid_id. rewrite andb_true_iff, Z.leb_le, Z.ltb_lt. tauto.
Qed.

Lemma valid_id_nth (lib : Library.t) (book_id : Z) :
  0 <= book_id < Library.len lib ->
  exists b, nth_error (Library.books lib) (Z.to_nat book_id) = Some b.
Proof.
  unfold Library.len. intro H.
  destruct (nth_error (Library.books lib) (Z.to_nat book_id)) as [b|] eqn:E.
  - exists b. reflexivity.
  - apply nth_error_None in E. lia.
Qed.

Lemma get_book_valid (lib : Library.t) (book_id : Z) (b : Book.t) :
  0 <= book_id < Library.len lib ->
  nth_error (Library.books lib) (Z.to_nat book_id) = Some b ->
  Library.get_book book_id lib = Ok b.
Proof.
  intros Hv Hn. unfold Library.get_book.
  apply valid_id_spec in Hv. rewrite Hv, Hn. reflexivity.
Qed.

Lemma get_book_invalid (lib : Library.t) (book_id : Z) :
  ~ (0 <= book_id < Library.len lib) ->
  Library.get_book book_id lib = Raise (Library.invalid_id book_id).
Proof.
  intro Hv. unfold Library.get_book.
  destruct (Library.valid_id lib book_id) eqn:E; [|reflexivity].
  apply valid_id_spec in E. contradiction.
Qed.

(** X7.  [get_book] accepts exactly the identifiers from 0 to the number
    of books less one: for these it returns the book at that position of
    the list, for every other integer, the negative ones included, it
    raises [ValueError("Invalid book ID: <id>")]. *)
Theorem get_book_range (lib : Library.t) (book_id : Z) :
  (0 <= book_id < Library.len lib ->
   exists b, Library.get_book book_id lib = Ok b /\
             nth_error (Library.books lib) (Z.to_nat book_id) = Some b) /\
  (~ (0 <= book_id < Library.len lib) ->
   Library.get_book book_id lib =
     Raise (ValueError ("Invalid book ID: " ++ str_of_Z book_id))).
Proof.
  split.
  - intro Hv. destruct (valid_id_nth lib book_id Hv) as (b & Hn).
    exists b. split; [apply get_book_valid; assumption | exact Hn].
  - apply get_book_invalid.
Qed.

Lemma get_book_range_witness :
  (exists b, Library.get_book 1 two_books = Ok b /\ Book.title b = "Emma") /\
  Library.get_book (-1) two_books = Raise (ValueError "Invalid book ID: -1") /\
  Library.get_book 2 two_books = Raise (ValueError "Invalid book ID: 2").
Proof.
  destruct (get_book_range two_books 1) as [H1 _].
  destruct (get_book_range two_books (-1)) as [_ H2].
  destruct (get_book_range two_books 2) as [_ H3].
  destruct H1 as (b & E & Hn); [unfold Library.len; simpl; lia|].
  split; [| split].
  - exists b. split; [exact E|]. simpl in Hn. inversion Hn. reflexivity.
  - apply H2. unfold Library.len. simpl. lia.
  - apply H3. unfold Library.len. simpl. lia.
Defined.

Lemma pop_length {A : Type} (i : nat) (l : list A) :
  (i < List.length l)%nat -> S (List.length (Library.pop i l)) = List.length l.
Proof.
  revert i. induction l as [|x l IH]; intros i H; simpl in *; [lia|].
  destruct i as [|i]; simpl; [reflexivity|].
  rewrite IH by lia. reflexivity.
Qed.

Lemma pop_nth_before {A : Type} (i j : nat) (l : list A) :
  (j < i)%nat -> nth_error (Library.pop i l) j = nth_error l j.
Proof.
  revert i j. induction l as [|x l IH]; intros i j H; simpl.
  - destruct i; reflexivity.
  - destruct i as [|i]; [lia|]. destruct j as [|j]; simpl; [reflexivity|].
    apply IH. lia.
Qed.

Lemma pop_nth_after {A : Type} (i j : nat) (l : list A) :
  (i <= j)%nat -> nth_error (Library.pop i l) j = nth_error l (S j).
Proof.
  revert i j. induction l as [|x l IH]; intros i j H; simpl.
  - destruct i; destruct j; reflexivity.
  - destruct i as [|i]; [reflexivity|]. destruct j as [|j]; [lia|]. simpl.
    apply IH. lia.
Qed.

(** X8.  [remove_book] with an identifier in range returns the book at
    that position; the list is one shorter, the books before it keep their
    identifiers and each book after it has its identifier lowered by one;
    the name and the path are untouched.  With any other identifier it
    raises and the library is as it was. *)
Theorem remove_book_shifts_ids (lib : Library.t) (book_id : Z) :
  (0 <= book_id < Library.len lib ->
   exists removed lib',
     Library.remove_book book_id lib = (Ok removed, lib') /\
     Library.get_book book_id lib = Ok removed /\
     Library.len lib' = Library.len lib - 1 /\
     (forall j, (j < Z.to_nat book_id)%nat ->
        nth_error (Library.books lib') j = nth_error (Library.books lib) j) /\
     (forall j, (Z.to_nat book_id <= j)%nat ->
        nth_error (Library.books lib') j = nth_error (Library.books lib) (S j)) /\
     Library.name lib' = Library.name lib /\
     Library.file_path lib' = Library.file_path lib) /\
  (~ (0 <= book_id < Library.len lib) ->
   Library.remove_book book_id lib =
     (Raise (ValueError ("Invalid book ID: " ++ str_of_Z book_id)), lib)).
Proof.
  split.
  - intro Hv. destruct (valid_id_nth lib book_id Hv) as (b & Hn).
    exists b. eexists. unfold Library.remove_book.
    pose proof Hv as Hv'. apply valid_id_spec in Hv'. rewrite Hv', Hn.
    split; [reflexivity|]. split; [apply get_book_valid; assumption|].
    unfold Library.len in *. simpl.
    split; [| split; [| split; [| split]]]; try reflexivity.
    + pose proof (pop_length (Z.to_nat book_id) (Library.books lib)). lia.
    + intros j Hj. apply pop_nth_before. exact Hj.
    + intros j Hj. apply pop_nth_after. exact Hj.
  - intro Hv. unfold Library.remove_book.
    destruct (Library.valid_id lib book_id) eqn:E; [|reflexivity].
    apply valid_id_spec in E. contradiction.
Qed.

Lemma remove_book_shifts_ids_witness :
  (exists lib', Library.remove_book 0 two_books = (Ok dune, lib') /\
                Library.len lib' = 1 /\
                nth_error (Library.books lib') 0 = Some emma) /\
  Library.remove_book 5 two_books = (Raise (ValueError "Invalid book ID: 5"), two_books).
Proof.
  destruct (remove_book_shifts_ids two_books 0) as [H1 _].
  destruct (remove_book_shifts_ids two_books 5) as [_ H2].
  destruct H1 as (removed & lib' & E & G & L & _ & Hafter & _);
    [unfold Library.len; simpl; lia|].
  split.
  - exists lib'. simpl in G. inversion G; subst removed.
    split; [exact E | split; [exact L|]].
    rewrite (Hafter 0%nat); [reflexivity | simpl; lia].
  - apply H2. unfold Library.len. simpl. lia.
Defined.

(** ** Adding and removing *)

Lemma add_book_fresh (u : string -> string) (b : Book.t) (lib : Library.t) :
  ~ (exists e, In e (Library.books lib) /\ collides u e b) ->
  Library.add_book u b lib = (Ok tt, Library.set_books lib (Library.books lib ++ [b])).
Proof.
  intro H. unfold Library.add_book.
  destruct (Library.already_exists u (Library.books lib) b) eqn:E; [|reflexivity].
  exfalso. apply H. apply already_exists_spec. exact E.
Qed.

(** X9.  A book that is added gets the next identifier and disturbs no
    other: after a successful [add_book(b)], [get_book] with the old
    number of books returns [b], the number of books is one more, and
    every identifier that was in range still names the same book. *)
Theorem add_book_next_id (u : string -> string) (b : Book.t) (lib : Library.t) :
  ~ (exists e, In e (Library.books lib) /\ collides u e b) ->
  exists lib',
    Library.add_book u b lib = (Ok tt, lib') /\
    Library.get_book (Library.len lib) lib' = Ok b /\
    Library.len lib' = Library.len lib + 1 /\
    (forall j, 0 <= j < Library.len lib ->
       Library.get_book j lib' = Library.get_book j lib).
Proof.
  intro H. rewrite (add_book_fresh u b lib H). eexists. split; [reflexivity|].
  assert (Hlen : Library.len (Library.set_books lib (Library.books lib ++ [b])) =
                 Library.len lib + 1).
  { unfold Library.len. simpl. rewrite length_app. simpl. lia. }
  split; [| split; [exact Hlen|]].
  - apply get_book_valid.
    + rewrite Hlen. unfold Library.len. lia.
    + unfold Library.len. simpl. rewrite Nat2Z.id.
      rewrite nth_error_app2 by lia. rewrite Nat.sub_diag. reflexivity.
  - intros j Hj. destruct (valid_id_nth lib j Hj) as (bj & Hn).
    rewrite (get_book_valid lib j bj Hj Hn).
    apply get_book_valid; [rewrite Hlen; lia|].
    simpl. rewrite nth_error_app1; [exact Hn|]. unfold Library.len in Hj. lia.
Qed.

Lemma add_book_next_id_witness :
  exists lib',
    Library.add_book no_unicode emma one_book = (Ok tt, lib') /\
    Library.get_book 1 lib' = Ok emma /\
    Library.get_book 0 lib' = Ok dune.
Proof.
  destruct (add_book_next_id no_unicode emma one_book) as (lib' & E & G & _ & Hold).
  - intros (e & [He | []] & Hc & _). subst e. discriminate Hc.
  - exists lib'. split; [exact E | split; [exact G|]].
    rewrite (Hold 0); [reflexivity | unfold Library.len; simpl; lia].
Defined.

Lemma pairwise_distinct_app (u : string -> string) (l : list Book.t) (b : Book.t) :
  pairwise_distinct u l -> (forall e, In e l -> ~ collides u e b) ->
  pairwise_distinct u (l ++ [b]).
Proof.
  induction l as [|x l IH]; simpl; intros Hpd Hb.
  - split; [intros y [] | exact I].
  - destruct Hpd as [Hx Hl]. split.
    + intros y Hy. apply in_app_or in Hy. destruct Hy as [Hy | [Hy | []]].
      * apply Hx. exact Hy.
      * subst y. apply Hb. left. reflexivity.
    + apply IH; [exact Hl|]. intros e He. apply Hb. right. exact He.
Qed.

Lemma pop_In {A : Type} (i : nat) (l : list A) (y : A) :
  In y (Library.pop i l) -> In y l.
Proof.
  revert i. induction l as [|x l IH]; intros i H.
  - destruct i; destruct H.
  - destruct i as [|i]; simpl in H.
    + right. exact H.
    + destruct H as [H | H]; [left; exact H | right; apply (IH i); exact H].
Qed.

Lemma pairwise_distinct_pop (u : string -> string) (i : nat) (l : list Book.t) :
  pairwise_distinct u l -> pairwise_distinct u (Library.pop i l).
Proof.
  revert i. induction l as [|x l IH]; intros i Hpd.
  - destruct i; exact I.
  - destruct Hpd as [Hx Hl]. destruct i as [|i]; simpl.
    + exact Hl.
    + split; [|apply IH; exact Hl].
      intros y Hy. apply Hx. apply (pop_In i). exact Hy.
Qed.

(** X10.  The catalogue never holds two books with the same (title,
    author) pair up to the case of the letters, as long as it is changed
    by [add_book] and [remove_book] only: a new library has the property,
    and both methods keep it, whether they return or raise. *)
Theorem titles_stay_distinct (u : string -> string) :
  (forall name, pairwise_distinct u (Library.books (Library.init name))) /\
  (forall b lib, pairwise_distinct u (Library.books lib) ->
     pairwise_distinct u (Library.books (snd (Library.add_book u b lib)))) /\
  (forall book_id lib, pairwise_distinct u (Library.books lib) ->
     pairwise_distinct u (Library.books (snd (Library.remove_book book_id lib)))).
Proof.
  split; [| split].
  - intro name. exact I.
  - intros b lib Hpd. unfold Library.add_book.
    destruct (Library.already_exists u (Library.books lib) b) eqn:E; [exact Hpd|].
    simpl. apply pairwise_distinct_app; [exact Hpd|].
    intros e He Hc.
    assert (Ht : Library.already_exists u (Library.books lib) b = true)
      by (apply already_exists_spec; exists e; split; assumption).
    congruence.
  - intros book_id lib Hpd. unfold Library.remove_book.
    destruct (Library.valid_id lib book_id); [|exact Hpd].
    destruct (nth_error (Library.books lib) (Z.to_nat book_id)); [|exact Hpd].
    simpl. apply pairwise_distinct_pop. exact Hpd.
Qed.

Lemma titles_stay_distinct_witness :
  pairwise_distinct no_unicode (Library.books (snd (Library.add_book no_unicode emma one_book))) /\
  pairwise_distinct no_unicode (Library.books (snd (Library.add_book no_unicode dune_shouted one_book))).
Proof.
  destruct (titles_stay_distinct no_unicode) as (Hnew & Hadd & _).
  assert (H1 : pairwise_distinct no_unicode (Library.books one_book)).
  { apply (Hadd dune (Library.mk "Home" [] "library_data.json")). apply (Hnew "Home"). }
  split; apply Hadd; exact H1.
Defined.

(** An update of the title can give two books the same pair. *)
Example update_can_duplicate_title :
  exists lib, Library.update_book 1 [("title", VStr "DUNE"); ("author", VStr "herbert")]
                two_books = (Ok tt, lib) /\
              pairwise_distinct no_unicode (Library.books two_books) /\
              ~ pairwise_distinct no_unicode (Library.books lib).
Proof.
  eexists. split; [reflexivity|]. split.
  - simpl. split; [|split; [intros y []|exact I]].
    intros y [Hy | []]. subst y. intros [Hc _]. discriminate Hc.
  - simpl. intros [H _]. apply (H _ (or_introl eq_refl)). split; reflexivity.
Qed.

(** ** Updating *)

(** Whether a name is a data attribute, the name of no attribute or
    neither does not depend on the book. *)
Lemma getattr_data (b : Book.t) (key : string) :
  is_attribute key = true -> exists v, Book.getattr b key = Ok v.
Proof.
  unfold is_attribute, Book.mem, data_attributes, Book.getattr. cbn [existsb].
  repeat match goal with
         | |- context [if String.eqb key ?s then _ else _] =>
             destruct (String.eqb key s); [intros _; eexists; reflexivity|]
         end.
  cbn [orb]. discriminate.
Qed.

Lemma getattr_absent (b : Book.t) (key : string) :
  absent_name key = true -> Book.getattr b key = Raise (Book.no_attribute key).
Proof.
  unfold absent_name, is_attribute, Book.mem, data_attributes, Book.getattr. cbn [existsb].
  repeat match goal with
         | |- context [if String.eqb key ?s then _ else _] =>
             destruct (String.eqb key s); [cbn [orb negb andb]; discriminate|]
         end.
  destruct (Book.unmodelled key); [discriminate | reflexivity].
Qed.

Lemma hasattr_data (b : Book.t) (key : string) :
  is_attribute key = true -> Book.hasattr b key = Ok true.
Proof.
  intro H. unfold Book.hasattr. destruct (getattr_data b key H) as (v & E).
  rewrite E. reflexivity.
Qed.

Lemma hasattr_absent (b : Book.t) (key : string) :
  absent_name key = true -> Book.hasattr b key = Ok false.
Proof.
  intro H. unfold Book.hasattr. rewrite (getattr_absent b key H). reflexivity.
Qed.

Lemma as_strs_inv (l : list pyval) (r : list string) :
  as_strs l = Ok r -> map VStr r = l.
Proof.
  revert r. induction l as [|v l IH]; intros r H; simpl in H.
  - inversion H. reflexivity.
  - destruct v; try discriminate.
    destruct (as_strs l) as [r' | e |]; simpl in H; try discriminate.
    inversion H; subst r. simpl. f_equal. apply IH. reflexivity.
Qed.

(** Assigning an attribute and reading it gives the value assigned; the
    other attributes read as before. *)
Lemma setattr_getattr (b b' : Book.t) (key : string) (value : pyval) :
  Book.setattr b key value = Ok b' ->
  Book.getattr b' key = Ok value /\
  (forall k, k <> key -> Book.getattr b' k = Book.getattr b k).
Proof.
  intro H. unfold Book.setattr in H.
  repeat match type of H with
         | (if String.eqb ?k ?s then _ else _) = _ =>
             let E := fresh "E" in
             destruct (String.eqb k s) eqn:E;
             [ apply String.eqb_eq in E; subst key;
               destruct value; simpl in H; try discriminate;
               try (match type of H with
                    | bind (as_strs ?l) _ = _ =>
                        let r := fresh "r" in let Er := fresh "Er" in
                        destruct (as_strs l) as [r | |] eqn:Er; simpl in H;
                        [apply as_strs_inv in Er; subst l | discriminate | discriminate]
                    end);
               inversion H; subst b'; clear H;
               (split;
                [ reflexivity
                | intros k Hk; unfold Book.getattr;
                  repeat match goal with
                         | |- context [if String.eqb k ?s' then _ else _] =>
                             let Ek := fresh "Ek" in
                             destruct (String.eqb k s') eqn:Ek;
                             [ try reflexivity;
                               apply String.eqb_eq in Ek; contradiction
                             | ]
                         end;
                  reflexivity ])
             | ]
         end.
  discriminate.
Qed.

Lemma store_length {A : Type} (i : nat) (x : A) (l : list A) :
  List.length (Library.store i x l) = List.length l.
Proof.
  revert i. induction l as [|y l IH]; intro i.
  - destruct i; reflexivity.
  - destruct i as [|i]; simpl; [reflexivity | rewrite IH; reflexivity].
Qed.

Lemma store_nth_same {A : Type} (i : nat) (x : A) (l : list A) :
  (i < List.length l)%nat -> nth_error (Library.store i x l) i = Some x.
Proof.
  revert i. induction l as [|y l IH]; intros i H; simpl in H; [lia|].
  destruct i as [|i]; simpl; [reflexivity | apply IH; lia].
Qed.

Lemma store_nth_other {A : Type} (i j : nat) (x : A) (l : list A) :
  j <> i -> nth_error (Library.store i x l) j = nth_error l j.
Proof.
  revert i j. induction l as [|y l IH]; intros i j H.
  - destruct i; reflexivity.
  - destruct i as [|i]; destruct j as [|j]; simpl; try reflexivity; try lia.
    apply IH. lia.
Qed.

Lemma store_same {A : Type} (i : nat) (x : A) (l : list A) :
  nth_error l i = Some x -> Library.store i x l = l.
Proof.
  revert i. induction l as [|y l IH]; intros i H.
  - destruct i; discriminate H.
  - destruct i as [|i]; simpl in *.
    + inversion H. reflexivity.
    + f_equal. apply IH. exact H.
Qed.

Lemma update_attrs_unknown (b : Book.t) (kwargs : list (string * pyval)) :
  (forall key value, In (key, value) kwargs -> absent_name key = true) ->
  Library.update_attrs b kwargs = Ok b.
Proof.
  induction kwargs as [|[key value] rest IH]; intro H; simpl; [reflexivity|].
  rewrite (hasattr_absent b key (H key value (or_introl eq_refl))). simpl.
  apply IH. intros k v Hin. apply (H k v). right. exact Hin.
Qed.

Lemma bound_twice_apart (params : list string) (kwargs : list (string * pyval)) :
  keywords_apart params kwargs -> Library.bound_twice params kwargs = None.
Proof.
  unfold keywords_apart. induction kwargs as [|[key value] rest IH]; intro H;
    [reflexivity|].
  cbn [Library.bound_twice]. destruct (Book.mem key params) eqn:E.
  - apply mem_In in E. exfalso. apply (H key value); [left; reflexivity | exact E].
  - apply IH. intros k v Hin. apply (H k v). right. exact Hin.
Qed.

Lemma bound_twice_clash (params : list string) (kwargs : list (string * pyval))
    (key : string) (value : pyval) :
  In (key, value) kwargs -> In key params ->
  exists k, Library.bound_twice params kwargs = Some k.
Proof.
  intros Hin Hp. induction kwargs as [|[k v] rest IH]; [destruct Hin|].
  cbn [Library.bound_twice]. destruct (Book.mem k params) eqn:E; [eexists; reflexivity|].
  destruct Hin as [Heq | Hin]; [|exact (IH Hin)].
  inversion Heq; subst k v. apply mem_In in Hp. congruence.
Qed.

(** X11.  [update_book] touches one book only and ignores the keywords that
    name nothing on a book.  A keyword that bears the name of a parameter
    ([self], [book_id]) is refused with [TypeError] and the library is as
    it was.  Without such a keyword: with an identifier out of range the
    call raises [ValueError] and the library is as it was; and with an
    identifier in range and only keywords that are the name of no data
    attribute, of no method and of nothing that starts with an underscore,
    it returns normally and the library is as it was.  Whenever the call
    returns, the number of books, every other book, the name and the path
    are unchanged. *)
Theorem update_book_frame (book_id : Z) (kwargs : list (string * pyval)) (lib : Library.t) :
  (forall key value,
     In (key, value) kwargs -> In key ["self"; "book_id"] ->
     exists msg, Library.update_book book_id kwargs lib = (Raise (TypeError msg), lib)) /\
  (keywords_apart ["self"; "book_id"] kwargs ->
   ~ (0 <= book_id < Library.len lib) ->
   Library.update_book book_id kwargs lib =
     (Raise (ValueError ("Invalid book ID: " ++ str_of_Z book_id)), lib)) /\
  (forall lib', Library.update_book book_id kwargs lib = (Ok tt, lib') ->
     Library.len lib' = Library.len lib /\
     (forall j, j <> Z.to_nat book_id ->
        nth_error (Library.books lib') j = nth_error (Library.books lib) j) /\
     Library.name lib' = Library.name lib /\
     Library.file_path lib' = Library.file_path lib) /\
  (keywords_apart ["self"; "book_id"] kwargs ->
   0 <= book_id < Library.len lib ->
   (forall key value, In (key, value) kwargs -> absent_name key = true) ->
   Library.update_book book_id kwargs lib = (Ok tt, lib)).
Proof.
  unfold Library.update_book. split; [| split; [| split]].
  - intros key value Hin Hp.
    destruct (bound_twice_clash _ _ key value Hin Hp) as (k & E). rewrite E.
    eexists. reflexivity.
  - intros Ha Hv. rewrite (bound_twice_apart _ _ Ha).
    destruct (Library.valid_id lib book_id) eqn:E; [|reflexivity].
    apply valid_id_spec in E. contradiction.
  - intros lib' H.
    destruct (Library.bound_twice ["self"; "book_id"] kwargs); [discriminate|].
    destruct (Library.valid_id lib book_id); [|discriminate].
    destruct (nth_error (Library.books lib) (Z.to_nat book_id)) as [b|]; [|discriminate].
    destruct (Library.update_attrs b kwargs) as [b' | e |]; try discriminate.
    inversion H; subst lib'. unfold Library.len. simpl.
    rewrite store_length. repeat split.
    intros j Hj. apply store_nth_other. exact Hj.
  - intros Ha Hv Hk. rewrite (bound_twice_apart _ _ Ha).
    destruct (valid_id_nth lib book_id Hv) as (b & Hn).
    apply valid_id_spec in Hv. rewrite Hv, Hn, (update_attrs_unknown b kwargs Hk).
    rewrite (store_same _ _ _ Hn). destruct lib. reflexivity.
Qed.

Lemma update_book_frame_witness :
  (exists msg, Library.update_book 1 [("book_id", VInt 0)] two_books =
                 (Raise (TypeError msg), two_books)) /\
  Library.update_book 7 [("title", VStr "Persuasion")] two_books =
    (Raise (ValueError "Invalid book ID: 7"), two_books) /\
  Library.update_book 1 [("shelf", VInt 3); ("colour", VStr "red")] two_books =
    (Ok tt, two_books) /\
  (exists lib', Library.update_book 1 [("title", VStr "Persuasion")] two_books = (Ok tt, lib') /\
                nth_error (Library.books lib') 0 = Some dune).
Proof.
  destruct (update_book_frame 1 [("book_id", VInt 0)] two_books) as (H0 & _).
  destruct (update_book_frame 7 [("title", VStr "Persuasion")] two_books) as (_ & H1 & _).
  destruct (update_book_frame 1 [("shelf", VInt 3); ("colour", VStr "red")] two_books)
    as (_ & _ & _ & H3).
  destruct (update_book_frame 1 [("title", VStr "Persuasion")] two_books)
    as (_ & _ & H2 & _).
  split; [| split; [| split]].
  - apply (H0 "book_id" (VInt 0)); [left; reflexivity | right; left; reflexivity].
  - apply H1; [|unfold Library.len; simpl; lia].
    intros key value [H | []]; inversion H; subst. simpl. intros [A | [A | []]]; discriminate A.
  - apply H3; [| unfold Library.len; simpl; lia |].
    + intros key value [H | [H | []]]; inversion H; subst; simpl;
        intros [A | [A | []]]; discriminate A.
    + intros key value [H | [H | []]]; inversion H; reflexivity.
  - eexists. split; [reflexivity|].
    destruct (H2 _ eq_refl) as (_ & Hframe & _).
    rewrite (Hframe 0%nat); [reflexivity | simpl; lia].
Defined.

(** X12.  [update_book] with one keyword that names an attribute
    overwrites that attribute and no other: when it returns, the book at
    the identifier reads the given value for the attribute and its old
    values for the fifteen others. *)
Theorem update_book_overwrites (book_id : Z) (key : string) (value : pyval)
    (lib lib' : Library.t) :
  is_attribute key = true ->
  Library.update_book book_id [(key, value)] lib = (Ok tt, lib') ->
  exists b b',
    Library.get_book book_id lib = Ok b /\
    Library.get_book book_id lib' = Ok b' /\
    Book.getattr b' key = Ok value /\
    (forall k, k <> key -> Book.getattr b' k = Book.getattr b k).
Proof.
  intros Hk H. unfold Library.update_book in H.
  destruct (Library.bound_twice ["self"; "book_id"] [(key, value)]); [discriminate|].
  destruct (Library.valid_id lib book_id) eqn:Hv; [|discriminate].
  apply valid_id_spec in Hv.
  destruct (nth_error (Library.books lib) (Z.to_nat book_id)) as [b|] eqn:Hn;
    [|discriminate].
  cbn [Library.update_attrs] in H. rewrite (hasattr_data b key Hk) in H.
  cbn [bind] in H.
  destruct (Book.setattr b key value) as [b' | e |] eqn:Hs; simpl in H; try discriminate.
  inversion H; subst lib'. exists b, b'.
  destruct (setattr_getattr b b' key value Hs) as [Hget Hother].
  split; [apply get_book_valid; assumption|].
  split; [| split; assumption].
  apply get_book_valid.
  - unfold Library.len in *. simpl. rewrite store_length. exact Hv.
  - simpl. apply store_nth_same. unfold Library.len in Hv. lia.
Qed.

Lemma update_book_overwrites_witness :
  exists b',
    Library.get_book 1 (snd (Library.update_book 1 [("rating", VInt 5)] two_books)) = Ok b' /\
    Book.getattr b' "rating" = Ok (VInt 5) /\
    Book.getattr b' "title" = Ok (VStr "Emma").
Proof.
  destruct (update_book_overwrites 1 "rating" (VInt 5) two_books
              (snd (Library.update_book 1 [("rating", VInt 5)] two_books)))
    as (b & b' & G & G' & Hset & Hother); [reflexivity | reflexivity |].
  exists b'. split; [exact G' | split; [exact Hset|]].
  rewrite (Hother "title"); [|discriminate].
  simpl in G. inversion G. reflexivity.
Defined.

(** ** The identifiers that searching and filtering return *)

Lemma ids_where_In (p : Book.t -> bool) (i : Z) (bks : list Book.t) (z : Z) :
  In z (ids_where p i bks) <->
  exists n b, z = i + Z.of_nat n /\ nth_error bks n = Some b /\ p b = true.
Proof.
  revert i. induction bks as [|x bks IH]; intro i; simpl.
  - split; [intros [] | intros (n & b & _ & H & _); destruct n; discriminate H].
  - assert (Hrest : In z (ids_where p (i + 1) bks) <->
                    exists n b, z = i + Z.of_nat (S n) /\ nth_error bks n = Some b /\
                                p b = true).
    { rewrite IH. split; intros (n & b & Hz & H); exists n, b; split; try exact H; lia. }
    destruct (p x) eqn:Hp; simpl; rewrite ?Hrest; split.
    + intros [Hz | (n & b & Hz & Hn & Hb)].
      * exists 0%nat, x. repeat split; [lia | exact Hp].
      * exists (S n), b. repeat split; assumption.
    + intros (n & b & Hz & Hn & Hb). destruct n as [|n].
      * left. lia.
      * right. exists n, b. repeat split; assumption.
    + intros (n & b & Hz & Hn & Hb). exists (S n), b. repeat split; assumption.
    + intros (n & b & Hz & Hn & Hb). destruct n as [|n].
      * simpl in Hn. inversion Hn; subst b. congruence.
      * exists n, b. repeat split; assumption.
Qed.

Lemma ids_where_lower_bound (p : Book.t -> bool) (i : Z) (bks : list Book.t) :
  Forall (fun z => i <= z) (ids_where p i bks).
Proof.
  apply Forall_forall. intros z Hz. apply ids_where_In in Hz.
  destruct Hz as (n & _ & Hz & _). lia.
Qed.

Lemma ids_where_ascending (p : Book.t -> bool) (i : Z) (bks : list Book.t) :
  StronglySorted Z.lt (ids_where p i bks).
Proof.
  revert i. induction bks as [|x bks IH]; intro i; simpl.
  - constructor.
  - destruct (p x); [|apply IH].
    constructor; [apply IH|].
    eapply Forall_impl; [|apply (ids_where_lower_bound p (i + 1) bks)].
    intros z Hz. simpl in Hz. lia.
Qed.

(** an identifier names a book exactly when it is a position of the list *)
Lemma get_book_nth (lib : Library.t) (z : Z) (b : Book.t) :
  Library.get_book z lib = Ok b <->
  exists n, z = Z.of_nat n /\ nth_error (Library.books lib) n = Some b.
Proof.
  split.
  - intro H. unfold Library.get_book in H.
    destruct (Library.valid_id lib z) eqn:Hv; [|discriminate].
    apply valid_id_spec in Hv.
    destruct (nth_error (Library.books lib) (Z.to_nat z)) as [b'|] eqn:Hn; [|discriminate].
    inversion H; subst b'. exists (Z.to_nat z). split; [lia | exact Hn].
  - intros (n & Hz & Hn). subst z. apply get_book_valid.
    + unfold Library.len. split; [lia|].
      assert (n < List.length (Library.books lib))%nat
        by (apply nth_error_Some; congruence). lia.
    + rewrite Nat2Z.id. exact Hn.
Qed.

Lemma ids_where_get_book (p : Book.t -> bool) (lib : Library.t) (z : Z) :
  In z (ids_where p 0 (Library.books lib)) <->
  exists b, Library.get_book z lib = Ok b /\ p b = true.
Proof.
  rewrite ids_where_In. split.
  - intros (n & b & Hz & Hn & Hp). exists b. split; [|exact Hp].
    apply get_book_nth. exists n. split; [lia | exact Hn].
  - intros (b & Hg & Hp). apply get_book_nth in Hg. destruct Hg as (n & Hz & Hn).
    exists n, b. repeat split; [lia | exact Hn | exact Hp].
Qed.

Lemma plain_names_cons (field : string) (fields : list string) :
  plain_names (field :: fields) = true ->
  Book.unmodelled field = false /\ plain_names fields = true.
Proof.
  unfold plain_names. cbn [forallb]. intro H. apply andb_prop in H.
  destruct H as [H1 H2]. split; [|exact H2].
  destruct (Book.unmodelled field); [discriminate H1 | reflexivity].
Qed.

(** The inner loop of [search_books] finds the query exactly when one of the
    texts under one of the fields contains it. *)
Lemma search_fields_found (u : string -> string) (q : string) (fields : list string)
    (b : Book.t) :
  plain_names fields = true ->
  Library.search_fields u q fields b =
  Ok (existsb (fun field =>
                 existsb (fun text => contains q (lower u text)) (searched_texts field b))
        fields).
Proof.
  induction fields as [|f fields IH]; intro H; [reflexivity|].
  apply plain_names_cons in H. destruct H as [Hf H].
  cbn [Library.search_fields existsb]. rewrite (IH H). clear IH H.
  generalize (existsb (fun field =>
                existsb (fun text => contains q (lower u text)) (searched_texts field b))
                fields).
  intro rest. destruct b as [t a i g y p n d l st r da bb bd dd tg].
  destruct y, n, r; cbn [Book.tags];
    (destruct (String.eqb f "tags") eqn:Et;
     [ apply String.eqb_eq in Et; subst f; cbn; destruct (existsb _ tg); reflexivity
     | unfold Library.and_hasattr, Book.hasattr, Book.getattr, searched_texts, shown,
         Book.of_opt_int;
       rewrite Et, Hf; cbn [bind];
       repeat match goal with
              | |- context [if String.eqb f ?s then _ else _] =>
                  let E := fresh "E" in
                  destruct (String.eqb f s) eqn:E;
                  [ apply String.eqb_eq in E; subst f; cbn;
                    try match goal with
                        | |- context [contains ?x ?y] => destruct (contains x y)
                        end;
                    reflexivity
                  | ]
              end;
       reflexivity ]).
Qed.

Lemma search_from_ids_where (u : string -> string) (i : Z) (q : string) (fields : list string)
    (bks : list Book.t) :
  plain_names fields = true ->
  Library.search_from u i q fields bks =
  Ok (ids_where
        (fun b => existsb (fun field =>
                    existsb (fun text => contains q (lower u text)) (searched_texts field b))
                    fields)
        i bks).
Proof.
  intro H. revert i. induction bks as [|b bks IH]; intro i; simpl; [reflexivity|].
  rewrite (search_fields_found u q fields b H), IH. reflexivity.
Qed.

Lemma found_in_spec (u : string -> string) (query : string) (fields : list string)
    (b : Book.t) :
  existsb (fun field =>
             existsb (fun text => contains (lower u query) (lower u text))
               (searched_texts field b))
    fields = true <->
  found_in u query fields b.
Proof.
  unfold found_in. rewrite existsb_exists. split.
  - intros (field & Hin & H). apply existsb_exists in H. destruct H as (text & Ht & Hc).
    exists field, text. repeat split; assumption.
  - intros (field & text & Hin & Ht & Hc). exists field. split; [exact Hin|].
    apply existsb_exists. exists text. split; assumption.
Qed.

(** What [search_books] returns over fields that name data attributes or
    nothing at all. *)
Lemma search_books_found (u : string -> string) (query : string)
    (fields : option (list string)) (lib : Library.t) :
  plain_names (searched fields) = true ->
  exists ids,
    Library.search_books u query fields lib = Ok ids /\
    StronglySorted Z.lt ids /\
    (forall z, In z ids <->
       exists b, Library.get_book z lib = Ok b /\ found_in u query (searched fields) b).
Proof.
  intro H. unfold Library.search_books. fold (searched fields).
  rewrite (search_from_ids_where u 0 (lower u query) (searched fields) (Library.books lib) H).
  eexists. split; [reflexivity|]. split; [apply ids_where_ascending|].
  intro z. rewrite ids_where_get_book.
  split; intros (b & Hg & Hp); exists b; (split; [exact Hg | apply found_in_spec; exact Hp]).
Qed.

(** X13.  [search_books], over fields that are data attributes or the name
    of nothing on a book, returns identifiers in strictly ascending order
    (so none twice), and an integer is among them exactly when it is the
    identifier of a book that matches: under one of the fields searched the
    book holds a text (a tag, the value of a text attribute, the decimal of
    a year, a page count or a rating that is set) which, taken in lower
    case, contains the query in lower case. *)
Theorem search_books_result (u : string -> string) (query : string)
    (fields : option (list string)) (lib : Library.t) :
  plain_names (searched fields) = true ->
  exists ids,
    Library.search_books u query fields lib = Ok ids /\
    StronglySorted Z.lt ids /\
    (forall z,
       In z ids <->
       exists b, Library.get_book z lib = Ok b /\
                 exists field text,
                   In field (searched fields) /\
                   In text (searched_texts field b) /\
                   contains (lower u query) (lower u text) = true).
Proof.
  intro H. destruct (search_books_found u query fields lib H) as (ids & E & Hs & Hin).
  exists ids. split; [exact E|]. split; [exact Hs|]. exact Hin.
Qed.

Lemma ascii_lower_length (s : string) : String.length (ascii_lower s) = String.length s.
Proof. induction s as [|c s IH]; simpl; [reflexivity | rewrite IH; reflexivity]. Qed.

Lemma prefix_lower (q s : string) :
  prefix q s = true -> prefix (ascii_lower q) (ascii_lower s) = true.
Proof.
  revert q. induction s as [|c s IH]; intros q H; destruct q as [|a q]; simpl in *;
    try reflexivity; try discriminate.
  destruct (ascii_dec a c) as [E | E]; [|discriminate]. subst a.
  destruct (ascii_dec (lower_ascii c) (lower_ascii c)) as [_ | N]; [|congruence].
  apply IH. exact H.
Qed.

(** Folding the case of unaccented text keeps a substring a substring. *)
Lemma contains_lower (q s : string) :
  contains q s = true -> contains (ascii_lower q) (ascii_lower s) = true.
Proof.
  induction s as [|c s IH]; intro H.
  - destruct q; [reflexivity | discriminate H].
  - cbn [contains] in H. destruct (prefix q (String c s)) eqn:E.
    + apply prefix_lower in E. cbn [ascii_lower contains]. cbn [ascii_lower] in E.
      rewrite E. reflexivity.
    + cbn [ascii_lower contains]. rewrite (IH H).
      destruct (prefix (ascii_lower q) (String (lower_ascii c) (ascii_lower s))); reflexivity.
Qed.

Lemma lower_ascii_text (u : string -> string) (s : string) :
  is_ascii s = true -> lower u s = ascii_lower s.
Proof. intro H. unfold lower. rewrite H. reflexivity. Qed.

(** X14.  Searching finds a title whatever the case.  Over the default
    fields, or over any fields that include [title] and are data attributes
    or the name of nothing on a book, the search returns, and the identifier
    of a book is in its result when the query is a substring of the title
    once both are put in lower case; in particular when both are unaccented
    text and the query is a substring of the title as written. *)
Theorem search_finds_title (u : string -> string) (query : string)
    (fields : option (list string)) (lib : Library.t) (z : Z) (b : Book.t) :
  Library.get_book z lib = Ok b ->
  In "title" (searched fields) ->
  plain_names (searched fields) = true ->
  exists ids,
    Library.search_books u query fields lib = Ok ids /\
    (contains (lower u query) (lower u (Book.title b)) = true -> In z ids) /\
    (is_ascii query = true -> is_ascii (Book.title b) = true ->
     contains query (Book.title b) = true -> In z ids).
Proof.
  intros Hg Hf Hp.
  destruct (search_books_found u query fields lib Hp) as (ids & E & _ & Hin).
  exists ids. split; [exact E|].
  assert (H : contains (lower u query) (lower u (Book.title b)) = true -> In z ids).
  { intro Hc. apply Hin. exists b. split; [exact Hg|].
    exists "title", (Book.title b). split; [exact Hf|]. split; [left; reflexivity | exact Hc]. }
  split; [exact H|]. intros Hq Ht Hc. apply H.
  rewrite (lower_ascii_text u query Hq), (lower_ascii_text u (Book.title b) Ht).
  apply contains_lower. exact Hc.
Qed.

Lemma search_finds_title_witness :
  (exists ids, Library.search_books no_unicode "UNE" None two_books = Ok ids /\ In 0 ids) /\
  (exists ids, Library.search_books no_unicode "mm" (Some ["isbn"; "title"]) two_books = Ok ids /\
               In 1 ids).
Proof.
  destruct (search_finds_title no_unicode "UNE" None two_books 0 dune)
    as (ids1 & E1 & H1 & _); [reflexivity | simpl; tauto | reflexivity |].
  destruct (search_finds_title no_unicode "mm" (Some ["isbn"; "title"]) two_books 1 emma)
    as (ids2 & E2 & _ & H2); [reflexivity | simpl; tauto | reflexivity |].
  split.
  - exists ids1. split; [exact E1 | apply H1; reflexivity].
  - exists ids2. split; [exact E2 | apply H2; reflexivity].
Defined.

Lemma search_books_result_witness :
  exists ids,
    Library.search_books no_unicode "herbert" (Some ["author"; "shelf"]) two_books = Ok ids /\
    In 0 ids /\ ~ In 1 ids.
Proof.
  destruct (search_books_result no_unicode "herbert" (Some ["author"; "shelf"]) two_books)
    as (ids & E & _ & H); [reflexivity|].
  exists ids. split; [exact E|]. split.
  - apply H. exists dune. split; [reflexivity|].
    exists "author", "Herbert". split; [left; reflexivity|].
    split; [left; reflexivity | reflexivity].
  - intro H1. apply H in H1. destruct H1 as (b & Hg & field & text & Hf & Ht & Hc).
    simpl in Hg. inversion Hg; subst b.
    destruct Hf as [Hf | [Hf | []]]; subst field; simpl in Ht.
    + destruct Ht as [Ht | []]. subst text. discriminate Hc.
    + destruct Ht.
Defined.

Lemma passes_spec (kwargs : list (string * pyval)) (b : Book.t) :
  passes kwargs b = true <-> Library.filter_match b kwargs = Ok true.
Proof.
  unfold passes. destruct (Library.filter_match b kwargs) as [[|] | e |];
    split; congruence.
Qed.

Lemma filter_from_ids_where (i : Z) (kwargs : list (string * pyval))
    (bks : list Book.t) (ids : list Z) :
  Library.filter_from i kwargs bks = Ok ids -> ids = ids_where (passes kwargs) i bks.
Proof.
  revert i ids. induction bks as [|b bks IH]; intros i ids H; simpl in H.
  - inversion H. reflexivity.
  - unfold passes at 1. simpl.
    destruct (Library.filter_match b kwargs) as [m | e |]; simpl in H; try discriminate.
    destruct (Library.filter_from (i + 1) kwargs bks) as [rest | e |] eqn:E;
      simpl in H; try discriminate.
    inversion H. rewrite (IH (i + 1) rest E). destruct m; reflexivity.
Qed.

Lemma ids_where_all (i : nat) (bks : list Book.t) :
  ids_where (fun _ => true) (Z.of_nat i) bks = map Z.of_nat (seq i (List.length bks)).
Proof.
  revert i. induction bks as [|b bks IH]; intro i; simpl; [reflexivity|].
  f_equal. replace (Z.of_nat i + 1) with (Z.of_nat (S i)) by lia. apply IH.
Qed.

Lemma ids_where_none (p : Book.t -> bool) (i : Z) (bks : list Book.t) :
  (forall b, In b bks -> p b = false) -> ids_where p i bks = [].
Proof.
  revert i. induction bks as [|b bks IH]; intros i H; simpl; [reflexivity|].
  rewrite (H b (or_introl eq_refl)). apply IH. intros x Hx. apply H. right. exact Hx.
Qed.

(** X15.  What [filter_books] returns, when it returns: identifiers in
    strictly ascending order, an integer being among them exactly when it
    is the identifier of a book for which the loop over the keywords ends
    with [match] still set.  Without keywords these are all the
    identifiers. *)
Theorem filter_books_result (kwargs : list (string * pyval)) (lib : Library.t) :
  (forall ids, Library.filter_books kwargs lib = Ok ids ->
     StronglySorted Z.lt ids /\
     (forall z, In z ids <->
        exists b, Library.get_book z lib = Ok b /\
                  Library.filter_match b kwargs = Ok true)) /\
  Library.filter_books [] lib = Ok (map Z.of_nat (seq 0 (List.length (Library.books lib)))).
Proof.
  split.
  - intros ids H. apply filter_books_returns in H.
    apply filter_from_ids_where in H. subst ids. split.
    + apply ids_where_ascending.
    + intro z. rewrite ids_where_get_book. split; intros (b & Hg & Hp); exists b;
        (split; [exact Hg | apply passes_spec; exact Hp]).
  - rewrite filter_books_bound by reflexivity.
    rewrite (filter_from_pointwise (fun _ => true) [] (Library.books lib) 0);
      [|reflexivity].
    f_equal. apply (ids_where_all 0).
Qed.

Lemma filter_books_result_witness :
  Library.filter_books [("genre", VStr "Novel")] two_books = Ok [1] /\
  (exists b, Library.get_book 1 two_books = Ok b /\
             Library.filter_match b [("genre", VStr "Novel")] = Ok true) /\
  ~ In 0 [1].
Proof.
  destruct (filter_books_result [("genre", VStr "Novel")] two_books) as [H _].
  destruct (H [1] eq_refl) as [_ Hin].
  split; [reflexivity | split].
  - apply Hin. left. reflexivity.
  - intro H0. apply Hin in H0. destruct H0 as (b & Hg & Hm).
    simpl in Hg. inversion Hg; subst b. discriminate Hm.
Defined.

Lemma attribute_not_bound (key : string) : is_attribute key = true -> bound_key key = false.
Proof.
  intro H. unfold bound_key.
  repeat match goal with
         | |- context [String.eqb key ?s] =>
             let E := fresh "E" in
             destruct (String.eqb key s) eqn:E;
             [apply String.eqb_eq in E; subst key; discriminate H|]
         end.
  reflexivity.
Qed.

(** With a key that is not a bound, the loop looks the key up on the book. *)
Lemma filter_match_no_bound (b : Book.t) (key : string) (value : pyval)
    (rest : list (string * pyval)) :
  bound_key key = false ->
  Library.filter_match b ((key, value) :: rest) =
  bind (Book.hasattr b key)
       (fun h => if h
                 then bind (Book.getattr b key)
                        (fun book_value =>
                           if negb (pyval_eqb book_value value) then Ok false
                           else Library.filter_match b rest)
                 else Ok false).
Proof.
  unfold bound_key. intro H.
  apply orb_false_iff in H. destruct H as [H H4].
  apply orb_false_iff in H. destruct H as [H H3].
  apply orb_false_iff in H. destruct H as [H1 H2].
  rewrite filter_match_cons, H1, H2, H3, H4. reflexivity.
Qed.

(** With a key that names a data attribute, the loop compares the
    attribute. *)
Lemma filter_match_plain_key (b : Book.t) (key : string) (value : pyval)
    (rest : list (string * pyval)) :
  is_attribute key = true ->
  Library.filter_match b ((key, value) :: rest) =
  if attr_equals b (key, value) then Library.filter_match b rest else Ok false.
Proof.
  intro H. rewrite (filter_match_no_bound b key value rest (attribute_not_bound key H)).
  rewrite (hasattr_data b key H). unfold attr_equals. cbn [bind fst snd].
  destruct (getattr_data b key H) as (bv & E). rewrite E. cbn [bind].
  destruct (pyval_eqb bv value); reflexivity.
Qed.

Lemma filter_match_unknown_key (b : Book.t) (kwargs : list (string * pyval))
    (key : string) (value : pyval) :
  In (key, value) kwargs -> absent_name key = true -> bound_key key = false ->
  Library.filter_match b kwargs <> Ok true.
Proof.
  intros Hin Ha Hb. induction kwargs as [|[k v] rest IH]; [destruct Hin|].
  destruct Hin as [Heq | Hin].
  - inversion Heq; subst k v. rewrite (filter_match_no_bound _ _ _ _ Hb).
    rewrite (hasattr_absent b key Ha). discriminate.
  - intro Ht. apply (IH Hin). exact (filter_match_tail _ _ _ _ Ht).
Qed.

(** X16.  [filter_books] fails closed on a keyword that names nothing: when
    one of the keywords is not one of [year_from], [year_to], [rating_from],
    [rating_to] and is the name of no data attribute, of no method and of
    nothing that starts with an underscore, no book is selected, whatever
    the other keywords are; the call returns the empty list unless a
    comparison raised. *)
Theorem filter_unknown_key_selects_nothing
    (kwargs : list (string * pyval)) (key : string) (value : pyval) (lib : Library.t) :
  In (key, value) kwargs -> absent_name key = true -> bound_key key = false ->
  (forall b, Library.filter_match b kwargs <> Ok true) /\
  (forall ids, Library.filter_books kwargs lib = Ok ids -> ids = []).
Proof.
  intros Hin Ha Hb.
  assert (H : forall b, Library.filter_match b kwargs <> Ok true)
    by (intro b; apply (filter_match_unknown_key b kwargs key value); assumption).
  split; [exact H|].
  intros ids Hf. apply filter_books_returns in Hf.
  apply filter_from_ids_where in Hf. subst ids.
  apply ids_where_none. intros b _.
  destruct (passes kwargs b) eqn:E; [|reflexivity].
  apply passes_spec in E. exfalso. exact (H b E).
Qed.

Lemma filter_unknown_key_selects_nothing_witness :
  Library.filter_match emma [("status", VStr "Available"); ("shelf", VInt 3)] <> Ok true /\
  Library.filter_books [("status", VStr "Available"); ("shelf", VInt 3)] two_books = Ok [].
Proof.
  destruct (filter_unknown_key_selects_nothing
              [("status", VStr "Available"); ("shelf", VInt 3)] "shelf" (VInt 3) two_books)
    as [H1 H2]; [right; left; reflexivity | reflexivity | reflexivity |].
  split; [apply H1|].
  destruct (Library.filter_books [("status", VStr "Available"); ("shelf", VInt 3)] two_books)
    as [ids | e |] eqn:E; try discriminate E.
  rewrite (H2 ids eq_refl). reflexivity.
Defined.

Lemma filter_match_attributes (b : Book.t) (kwargs : list (string * pyval)) :
  (forall key value, In (key, value) kwargs -> is_attribute key = true) ->
  Library.filter_match b kwargs = Ok (forallb (attr_equals b) kwargs).
Proof.
  induction kwargs as [|[key value] rest IH]; intro H; [reflexivity|].
  rewrite filter_match_plain_key by (apply (H key value); left; reflexivity).
  cbn [forallb]. destruct (attr_equals b (key, value)); [|reflexivity].
  apply IH. intros k v Hin. apply (H k v). right. exact Hin.
Qed.

(** X17.  Keywords that name attributes are equalities joined by "and":
    when every keyword names an attribute, [filter_books] raises nothing
    and returns the identifiers, ascending, of exactly the books whose
    attributes equal the given values, all of them.  With the single
    keyword [status] these are the books of that status. *)
Theorem filter_by_attributes (kwargs : list (string * pyval)) (lib : Library.t) :
  (forall key value, In (key, value) kwargs -> is_attribute key = true) ->
  Library.filter_books kwargs lib =
    Ok (ids_where (fun b => forallb (attr_equals b) kwargs) 0 (Library.books lib)).
Proof.
  intro H. rewrite filter_books_bound.
  - apply filter_from_pointwise. intro b. apply filter_match_attributes. exact H.
  - apply bound_twice_apart. intros key value Hin [Hs | []]. subst key.
    discriminate (H "self" value Hin).
Qed.

Lemma filter_by_attributes_witness :
  Library.filter_books [("status", VStr "Available"); ("genre", VStr "Novel")] two_books
  = Ok [1].
Proof.
  rewrite filter_by_attributes; [reflexivity|].
  intros key value [H | [H | []]]; inversion H; reflexivity.
Defined.

(** ** Saving and loading *)

Lemma from_dicts_to_dicts (today : Z) (bks : list Book.t) :
  Library.from_dicts today (map Book.to_dict bks) = Ok bks.
Proof.
  induction bks as [|b bks IH]; simpl; [reflexivity|].
  rewrite from_dict_to_dict, IH. reflexivity.
Qed.

Lemma write_file_same (w : world) (path : string) (data : pyval) :
  files (write_file w path data) path = Some (Document data).
Proof. simpl. rewrite String.eqb_refl. reflexivity. Qed.

Lemma write_file_other (w : world) (path p : string) (data : pyval) :
  p <> path -> files (write_file w path data) p = files w p.
Proof. intro H. simpl. rewrite (eqb_neq_false _ _ H). reflexivity. Qed.

(** Loading the document of a library gives its name and its books. *)
Lemma load_body_document (today : Z) (saved lib : Library.t) :
  Library.load_body today (Document (Library.document saved)) lib =
  (Ok tt, Library.mk (Library.name saved) (Library.books saved) (Library.file_path lib)).
Proof.
  unfold Library.load_body, Library.document. simpl.
  rewrite from_dicts_to_dicts. reflexivity.
Qed.

(** X18.  What is saved can be loaded: when the file can be written,
    [save_to_file(path)] returns normally, and [load_from_file(path)] on
    any library, a new one included, then returns normally with the name
    and the list of books of the library that was saved, in the same
    order, showing no error. *)
Theorem save_then_load_round_trip
    (today : Z) (path : string) (lib other : Library.t) (w : world) :
  unwritable w path = None ->
  exists w',
    Library.save_to_file (Some path) lib w =
      (Ok tt, Library.mk (Library.name lib) (Library.books lib) path, w') /\
    Library.load_from_file today (Some path) other w' =
      (Ok tt, Library.mk (Library.name lib) (Library.books lib) path, w').
Proof.
  intro Hw. unfold Library.save_to_file. simpl. rewrite Hw.
  eexists. split; [reflexivity|].
  unfold Library.load_from_file.
  cbn [Library.file_path Library.set_file_path].
  rewrite write_file_same.
  change (Library.document (Library.set_file_path lib path))
    with (Library.document lib).
  rewrite load_body_document. reflexivity.
Qed.

Lemma save_then_load_round_trip_witness :
  exists w',
    Library.save_to_file (Some "shelf.json") two_books garbled_world =
      (Ok tt, Library.mk "Home" [dune; emma] "shelf.json", w') /\
    Library.load_from_file 738900 (Some "shelf.json") (Library.init "Fresh") w' =
      (Ok tt, Library.mk "Home" [dune; emma] "shelf.json", w').
Proof.
  apply (save_then_load_round_trip 738900 "shelf.json" two_books (Library.init "Fresh")
           garbled_world).
  reflexivity.
Defined.

(** X19.  [save_to_file] keeps the library and the page: whether it
    returns or raises, the name and the books are as they were and nothing
    is shown on the page.  An error of [open] is not caught, as
    [load_from_file] catches it: when [open] refuses the path the error is
    raised to the caller, and no file is changed. *)
Theorem save_to_file_effect (path : string) (lib : Library.t) (w : world) :
  Library.name (library_after (Library.save_to_file (Some path) lib w)) = Library.name lib /\
  Library.books (library_after (Library.save_to_file (Some path) lib w)) = Library.books lib /\
  st_errors (world_after (Library.save_to_file (Some path) lib w)) = st_errors w /\
  (forall e, unwritable w path = Some e ->
     outcome (Library.save_to_file (Some path) lib w) = Raise e /\
     world_after (Library.save_to_file (Some path) lib w) = w).
Proof.
  unfold Library.save_to_file, library_after, outcome, world_after.
  cbn [Library.file_path Library.set_file_path].
  destruct (unwritable w path) as [e|] eqn:E; cbn [fst snd].
  - split; [reflexivity | split; [reflexivity | split; [reflexivity|]]].
    intros e' He. inversion He. split; reflexivity.
  - split; [reflexivity | split; [reflexivity | split; [reflexivity|]]].
    intros e H. discriminate H.
Qed.

(** a world in which one path cannot be opened for writing *)
Lemma save_to_file_effect_witness :
  outcome (Library.save_to_file (Some "/") two_books root_world)
    = Raise (OSError "[Errno 21] Is a directory: '/'") /\
  world_after (Library.save_to_file (Some "/") two_books root_world) = root_world /\
  Library.books (library_after (Library.save_to_file (Some "/") two_books root_world))
    = [dune; emma].
Proof.
  destruct (save_to_file_effect "/" two_books root_world) as (_ & Hb & _ & Hr).
  destruct (Hr _ eq_refl) as [Ho Hw].
  split; [exact Ho | split; [exact Hw | exact Hb]].
Defined.

Lemma as_strs_not_raise (l : list pyval) (e : exn) : as_strs l <> Raise e.
Proof.
  revert e. induction l as [|v l IH]; intro e; simpl; [discriminate|].
  destruct v; try discriminate.
  destruct (as_strs l) as [r | e' |] eqn:E; simpl; try discriminate.
  exfalso. apply (IH e'). reflexivity.
Qed.

(** [from_dict] raises for a missing key or for a value that is not a
    dictionary, and for nothing else. *)
Lemma from_dict_raises (today : Z) (data : pyval) (e : exn) :
  Book.from_dict today data = Raise e ->
  (exists key, e = KeyError key) \/ (exists msg, e = TypeError msg).
Proof.
  destruct data as [| z | s | l | d];
    try solve [intro H; inversion H; right; eauto].
  unfold Book.from_dict. cbn [subscript].
  destruct (dict_lookup "title" d) as [vt|]; [|intro H; inversion H; left; eauto].
  destruct (dict_lookup "author" d) as [va|]; [|intro H; inversion H; left; eauto].
  rewrite !get_dict. cbn [bind].
  repeat match goal with
         | |- context [bind (as_str ?v) _] =>
             destruct v; cbn [as_str bind]; try discriminate
         | |- context [bind (as_opt_int ?v) _] =>
             destruct v; cbn [as_opt_int bind]; try discriminate
         | |- context [bind (as_opt_str ?v) _] =>
             destruct v; cbn [as_opt_str bind]; try discriminate
         | |- context [bind (as_opt_str_list ?v) _] =>
             destruct v; cbn [as_opt_str_list bind]; try discriminate
         | |- context [bind (as_strs ?l) _] =>
             let E := fresh "E" in
             destruct (as_strs l) eqn:E; cbn [bind]; try discriminate;
             try (exfalso; eapply as_strs_not_raise; eassumption)
         end.
  all: unfold Book.init; cbn [bind]; discriminate.
Qed.

Lemma from_dicts_raises (today : Z) (items : list pyval) (e : exn) :
  Library.from_dicts today items = Raise e ->
  (exists key, e = KeyError key) \/ (exists msg, e = TypeError msg).
Proof.
  induction items as [|x items IH]; simpl; [discriminate|].
  destruct (Book.from_dict today x) as [b | e' |] eqn:E; simpl; try discriminate.
  - destruct (Library.from_dicts today items) as [bs | e' |]; simpl; try discriminate.
    intro H. inversion H; subst. apply IH. reflexivity.
  - intro H. inversion H; subst. apply (from_dict_raises today x e E).
Qed.

(** X20.  Loading a JSON object that has no [books] empties the catalogue:
    when the file holds an object without the key [books],
    [load_from_file] returns normally with no books, and with the name of
    the object or, when the object has no [name] either, with "My Personal
    Library"; nothing is shown. *)
Theorem load_object_without_books
    (today : Z) (path : string) (d : list (string * pyval)) (lib : Library.t) (w : world) :
  files w path = Some (Document (VDict d)) ->
  dict_lookup "books" d = None ->
  (dict_lookup "name" d = None ->
   Library.load_from_file today (Some path) lib w =
     (Ok tt, Library.mk "My Personal Library" [] path, w)) /\
  (forall n, dict_lookup "name" d = Some (VStr n) ->
   Library.load_from_file today (Some path) lib w = (Ok tt, Library.mk n [] path, w)).
Proof.
  intros Hf Hb. unfold Library.load_from_file.
  cbn [Library.file_path Library.set_file_path]. rewrite Hf.
  unfold Library.load_body. cbn [Library.json_load]. rewrite !get_dict, Hb.
  split.
  - intro Hn. rewrite Hn. reflexivity.
  - intros n Hn. rewrite Hn. reflexivity.
Qed.

Lemma load_object_without_books_witness :
  Library.load_from_file 738900 (Some "books.json") two_books empty_object_world =
    (Ok tt, Library.mk "My Personal Library" [] "books.json", empty_object_world).
Proof.
  destruct (load_object_without_books 738900 "books.json" [] two_books empty_object_world)
    as [H _]; [reflexivity | reflexivity |].
  apply H. reflexivity.
Defined.

(** X21.  A file that is JSON but not a library is reported on the page,
    not to the caller, and may leave half of it behind.  When the file
    holds a value that is not an object, [load_from_file] returns
    normally, the name and the books are as they were, and the page shows
    that the value has no attribute [get].  When the file holds an object
    with a name and a list of books of which one cannot be deserialized,
    [load_from_file] returns normally, the name is already the name of the
    file, the books are still the old ones, and the page shows the
    error. *)
Theorem load_wrong_structure
    (today : Z) (path : string) (lib : Library.t) (w : world) :
  (forall v, files w path = Some (Document v) -> (forall d, v <> VDict d) ->
   Library.load_from_file today (Some path) lib w =
     (Ok tt, Library.mk (Library.name lib) (Library.books lib) path,
      st_error w ("Error loading library: '" ++ type_name v ++
                  "' object has no attribute 'get'"))) /\
  (forall d n items e,
     files w path = Some (Document (VDict d)) ->
     dict_lookup "name" d = Some (VStr n) ->
     dict_lookup "books" d = Some (VList items) ->
     Library.from_dicts today items = Raise e ->
     Library.load_from_file today (Some path) lib w =
       (Ok tt, Library.mk n (Library.books lib) path,
        st_error w ("Error loading library: " ++ str_exn e))).
Proof.
  split.
  - intros v Hf Hv. unfold Library.load_from_file.
    cbn [Library.file_path Library.set_file_path]. rewrite Hf.
    unfold Library.load_body. cbn [Library.json_load].
    destruct v as [| z | s | l | d]; try reflexivity.
    exfalso. apply (Hv d). reflexivity.
  - intros d n items e Hf Hn Hb He. unfold Library.load_from_file.
    cbn [Library.file_path Library.set_file_path]. rewrite Hf.
    unfold Library.load_body. cbn [Library.json_load].
    rewrite !get_dict, Hn, Hb. cbn [bind as_str iterate]. rewrite He.
    destruct (from_dicts_raises today items e He) as [(k & ->) | (m & ->)]; reflexivity.
Qed.

Lemma load_wrong_structure_witness :
  Library.load_from_file 738900 (Some "books.json") one_book list_world =
    (Ok tt, Library.mk "Home" [dune] "books.json",
     st_error list_world "Error loading library: 'list' object has no attribute 'get'") /\
  Library.load_from_file 738900 (Some "books.json") one_book truncated_world =
    (Ok tt, Library.mk "Office" [dune] "books.json",
     st_error truncated_world "Error loading library: 'title'").
Proof.
  destruct (load_wrong_structure 738900 "books.json" one_book list_world) as [H1 _].
  destruct (load_wrong_structure 738900 "books.json" one_book truncated_world) as [_ H2].
  split.
  - apply (H1 (VList [Book.to_dict emma])); [reflexivity | discriminate].
  - apply (H2 [ ("name", VStr "Office");
                ("books", VList [ Book.to_dict emma; VDict [("author", VStr "Herbert")] ]) ]
              "Office" [Book.to_dict emma; VDict [("author", VStr "Herbert")]]
              (KeyError "title")); reflexivity.
Defined.

(** ** Dictionaries of counts *)

Section Counts.

Variable K : Type.
Variable eqb : K -> K -> bool.
Hypothesis eqb_spec : forall x y, eqb x y = true <-> x = y.

Lemma eqb_same (x : K) : eqb x x = true.
Proof. apply eqb_spec. reflexivity. Qed.

Lemma eqb_trans_l (x y z : K) : eqb x y = true -> eqb x z = eqb y z.
Proof. intro H. apply eqb_spec in H. subst y. reflexivity. Qed.

Lemma eqb_sym (x y : K) : eqb x y = eqb y x.
Proof.
  destruct (eqb x y) eqn:E1, (eqb y x) eqn:E2; try reflexivity.
  - apply eqb_spec in E1. subst y. rewrite eqb_same in E2. discriminate.
  - apply eqb_spec in E2. subst y. rewrite eqb_same in E1. discriminate.
Qed.

Lemma count_of_incr (x k : K) (d : list (K * Z)) :
  count_of eqb k (Library.incr eqb x d) =
  count_of eqb k d + (if eqb x k then 1 else 0).
Proof.
  induction d as [|[k' n] d IH]; simpl.
  - destruct (eqb x k); lia.
  - destruct (eqb k' x) eqn:Ex; simpl.
    + rewrite <- (eqb_trans_l k' x k Ex). destruct (eqb k' k); lia.
    + destruct (eqb k' k) eqn:Ek; [|exact IH].
      assert (Hx : eqb x k = false).
      { destruct (eqb x k) eqn:E; [|reflexivity].
        apply eqb_spec in E. subst x. congruence. }
      rewrite Hx. lia.
Qed.

Lemma total_count_incr (x : K) (d : list (K * Z)) :
  total_count (Library.incr eqb x d) = total_count d + 1.
Proof.
  unfold total_count. induction d as [|[k' n] d IH]; simpl; [lia|].
  destruct (eqb k' x); simpl; [lia | rewrite IH; lia].
Qed.

Lemma keys_incr (x : K) (d : list (K * Z)) :
  map fst (Library.incr eqb x d) =
  (map fst d ++ (if existsb (fun k' => eqb k' x) (map fst d) then [] else [x]))%list.
Proof.
  induction d as [|[k' n] d IH]; simpl; [reflexivity|].
  destruct (eqb k' x) eqn:E; simpl.
  - rewrite app_nil_r. reflexivity.
  - rewrite IH. reflexivity.
Qed.

Lemma keys_incr_NoDup (x : K) (d : list (K * Z)) :
  NoDup (map fst d) -> NoDup (map fst (Library.incr eqb x d)).
Proof.
  intro H. rewrite keys_incr.
  destruct (existsb (fun k' => eqb k' x) (map fst d)) eqn:E.
  - rewrite app_nil_r. exact H.
  - apply NoDup_app; [exact H | repeat constructor; auto |].
    intros k Hk [Hx | []]. subst k.
    assert (Ht : existsb (fun k' => eqb k' x) (map fst d) = true)
      by (apply existsb_exists; exists x; split; [exact Hk | apply eqb_same]).
    congruence.
Qed.

(** the dictionary the loop builds from [d], one key after the other *)
Lemma count_of_tally (ks : list K) (d : list (K * Z)) (k : K) :
  count_of eqb k (fold_left (fun d x => Library.incr eqb x d) ks d) =
  count_of eqb k d + occurrences eqb k ks.
Proof.
  revert d. induction ks as [|x ks IH]; intro d; simpl.
  - unfold occurrences. simpl. lia.
  - rewrite IH, count_of_incr. unfold occurrences. simpl.
    destruct (eqb x k); simpl; lia.
Qed.

Lemma total_count_tally (ks : list K) (d : list (K * Z)) :
  total_count (fold_left (fun d x => Library.incr eqb x d) ks d) =
  total_count d + Z.of_nat (List.length ks).
Proof.
  revert d. induction ks as [|x ks IH]; intro d; simpl; [lia|].
  rewrite IH, total_count_incr. lia.
Qed.

Lemma keys_tally_NoDup (ks : list K) (d : list (K * Z)) :
  NoDup (map fst d) ->
  NoDup (map fst (fold_left (fun d x => Library.incr eqb x d) ks d)).
Proof.
  revert d. induction ks as [|x ks IH]; intros d H; simpl; [exact H|].
  apply IH. apply keys_incr_NoDup. exact H.
Qed.

(** *** Sorting by count *)

Lemma insert_desc_In (x y : K * Z) (l : list (K * Z)) :
  In y (Library.insert_desc x l) <-> y = x \/ In y l.
Proof.
  induction l as [|z l IH]; simpl.
  - split; [intros [H | []]; left; auto | intros [H | []]; left; auto].
  - destruct (snd x <? snd z); simpl; [rewrite IH|]; intuition auto.
Qed.

Lemma sorted_desc_In (y : K * Z) (d : list (K * Z)) :
  In y (Library.sorted_desc d) <-> In y d.
Proof.
  unfold Library.sorted_desc. induction d as [|x d IH]; simpl; [tauto|].
  rewrite insert_desc_In, IH. intuition auto.
Qed.

Lemma insert_desc_perm (x : K * Z) (l : list (K * Z)) :
  Permutation (Library.insert_desc x l) (x :: l).
Proof.
  induction l as [|z l IH]; simpl; [apply Permutation_refl|].
  destruct (snd x <? snd z).
  - eapply Permutation_trans; [apply perm_skip; exact IH | apply perm_swap].
  - apply Permutation_refl.
Qed.

Lemma sorted_desc_perm (d : list (K * Z)) : Permutation (Library.sorted_desc d) d.
Proof.
  unfold Library.sorted_desc. induction d as [|x d IH]; simpl; [constructor|].
  eapply Permutation_trans; [apply insert_desc_perm | apply perm_skip; exact IH].
Qed.

Lemma insert_desc_descending (x : K * Z) (l : list (K * Z)) :
  descending l -> descending (Library.insert_desc x l).
Proof.
  unfold descending. induction l as [|z l IH]; intro H; simpl.
  - repeat constructor.
  - inversion H as [|? ? Hl Hz]; subst.
    destruct (snd x <? snd z) eqn:E.
    + constructor; [apply IH; exact Hl|].
      apply Forall_forall. intros y Hy. apply insert_desc_In in Hy.
      destruct Hy as [-> | Hy].
      * apply Z.ltb_lt in E. lia.
      * rewrite Forall_forall in Hz. apply Hz. exact Hy.
    + apply Z.ltb_ge in E. constructor; [exact H|].
      constructor; [exact E|].
      rewrite Forall_forall in Hz |- *. intros y Hy. specialize (Hz y Hy). lia.
Qed.

Lemma sorted_desc_descending (d : list (K * Z)) : descending (Library.sorted_desc d).
Proof.
  unfold Library.sorted_desc. induction d as [|x d IH]; simpl.
  - constructor.
  - apply insert_desc_descending. exact IH.
Qed.

(** the entries of one count keep their order *)
Lemma insert_desc_stable (c : Z) (x : K * Z) (l : list (K * Z)) :
  filter (fun kv => snd kv =? c) (Library.insert_desc x l) =
  filter (fun kv => snd kv =? c) (x :: l).
Proof.
  induction l as [|z l IH]; [reflexivity|].
  cbn [Library.insert_desc]. destruct (snd x <? snd z) eqn:E; [|reflexivity].
  apply Z.ltb_lt in E. cbn [filter] in *. rewrite IH.
  destruct (snd x =? c) eqn:Ex, (snd z =? c) eqn:Ez; try reflexivity.
  apply Z.eqb_eq in Ex, Ez. lia.
Qed.

Lemma sorted_desc_stable (c : Z) (d : list (K * Z)) :
  filter (fun kv => snd kv =? c) (Library.sorted_desc d) =
  filter (fun kv => snd kv =? c) d.
Proof.
  unfold Library.sorted_desc. induction d as [|x d IH]; [reflexivity|].
  cbn [fold_right]. rewrite insert_desc_stable. cbn [filter]. rewrite IH. reflexivity.
Qed.

Lemma count_of_In (k : K) (n : Z) (d : list (K * Z)) :
  NoDup (map fst d) -> In (k, n) d -> count_of eqb k d = n.
Proof.
  induction d as [|[k' n'] d IH]; simpl; intros Hnd Hin; [destruct Hin|].
  inversion Hnd as [|? ? Hk' Hd]; subst.
  destruct Hin as [Heq | Hin].
  - inversion Heq; subst. rewrite eqb_same. reflexivity.
  - destruct (eqb k' k) eqn:E.
    + apply eqb_spec in E. subst k'. exfalso. apply Hk'.
      apply (in_map fst) in Hin. exact Hin.
    + apply IH; assumption.
Qed.

Lemma count_of_absent (k : K) (d : list (K * Z)) :
  ~ In k (map fst d) -> count_of eqb k d = 0.
Proof.
  induction d as [|[k' n'] d IH]; simpl; intro H; [reflexivity|].
  destruct (eqb k' k) eqn:E.
  - apply eqb_spec in E. subst k'. exfalso. apply H. left. reflexivity.
  - apply IH. intro Hin. apply H. right. exact Hin.
Qed.

(** Sorting does not change what a key counts. *)
Lemma count_of_sorted_desc (k : K) (d : list (K * Z)) :
  NoDup (map fst d) -> count_of eqb k (Library.sorted_desc d) = count_of eqb k d.
Proof.
  intro Hnd.
  assert (Hnd' : NoDup (map fst (Library.sorted_desc d))).
  { eapply Permutation_NoDup; [|exact Hnd].
    apply Permutation_map. apply Permutation_sym. apply sorted_desc_perm. }
  destruct (in_dec (fun a b => match Bool.bool_dec (eqb a b) true with
                               | left H => left (proj1 (eqb_spec a b) H)
                               | right H => right (fun E => H (proj2 (eqb_spec a b) E))
                               end) k (map fst d)) as [Hin | Hout].
  - apply in_map_iff in Hin. destruct Hin as ([k' n] & Hk & Hin). simpl in Hk. subst k'.
    rewrite (count_of_In k n d Hnd Hin).
    apply count_of_In; [exact Hnd' | apply sorted_desc_In; exact Hin].
  - rewrite (count_of_absent k d Hout). apply count_of_absent.
    intro Hin. apply Hout. apply in_map_iff in Hin.
    destruct Hin as (kv & Hk & Hin). apply (proj1 (sorted_desc_In kv d)) in Hin.
    apply in_map_iff. exists kv. split; assumption.
Qed.

End Counts.

Lemma rating_key_eqb_spec (x y : Library.rating_key) :
  Library.rating_key_eqb x y = true <-> x = y.
Proof.
  destruct x as [a|], y as [b|]; simpl; split; intro H;
    try discriminate; try reflexivity.
  - apply Z.eqb_eq in H. subst. reflexivity.
  - inversion H. apply Z.eqb_refl.
Qed.

Lemma count_status_length (s : string) (bks : list Book.t) :
  Library.count_status s bks =
  Z.of_nat (List.length (filter (fun b => String.eqb (Book.status b) s) bks)).
Proof.
  unfold Library.count_status.
  assert (H : forall n,
             fold_left (fun n book => if String.eqb (Book.status book) s then n + 1 else n)
                       bks n =
             n + Z.of_nat (List.length (filter (fun b => String.eqb (Book.status b) s) bks))).
  { induction bks as [|b bks IH]; intro n; simpl; [lia|].
    rewrite IH. destruct (String.eqb (Book.status b) s); simpl; lia. }
  rewrite H. lia.
Qed.

(** ** What the statistics count *)

Section StatisticsCounts.

Variable float : Type.
Variable truediv : Z -> Z -> float.
Variable round : float -> Z -> float.

(** one turn of the loop, dictionary by dictionary *)
Lemma count_book_dictionaries (a : Library.acc float) (b : Book.t) :
  let s := Library.st a in
  let s' := Library.st (Library.count_book float a b) in
  Library.genres s' =
    fold_left (fun d g => Library.incr String.eqb g d) (genres_seen [b]) (Library.genres s) /\
  Library.authors s' =
    fold_left (fun d x => Library.incr String.eqb x d) (authors_seen [b]) (Library.authors s) /\
  Library.years s' =
    fold_left (fun d y => Library.incr Z.eqb y d) (years_seen [b]) (Library.years s) /\
  Library.ratings s' =
    fold_left (fun d r => Library.incr Library.rating_key_eqb r d) (ratings_seen [b])
              (Library.ratings s) /\
  Library.tags s' =
    fold_left (fun d t => Library.incr String.eqb t d) (tags_seen [b]) (Library.tags s) /\
  Library.total_books s' = Library.total_books s /\
  Library.available_books s' = Library.available_books s /\
  Library.borrowed_books s' = Library.borrowed_books s.
Proof.
  unfold Library.count_book, genres_seen, authors_seen, years_seen, ratings_seen, tags_seen.
  cbn [map flat_map filter]. rewrite !app_nil_r.
  rewrite <- ?truthy_counted.
  destruct (Library.truthy (Book.year b)); destruct (Library.truthy (Book.rating b));
    destruct (negb (String.eqb (Book.genre b) "")); cbn; repeat split.
Qed.

Lemma seen_cons (b : Book.t) (bks : list Book.t) :
  genres_seen (b :: bks) = (genres_seen [b] ++ genres_seen bks)%list /\
  authors_seen (b :: bks) = (authors_seen [b] ++ authors_seen bks)%list /\
  years_seen (b :: bks) = (years_seen [b] ++ years_seen bks)%list /\
  ratings_seen (b :: bks) = (ratings_seen [b] ++ ratings_seen bks)%list /\
  tags_seen (b :: bks) = (tags_seen [b] ++ tags_seen bks)%list.
Proof.
  unfold genres_seen, authors_seen, years_seen, ratings_seen, tags_seen.
  cbn [map flat_map filter]. rewrite !app_nil_r.
  destruct (negb (String.eqb (Book.genre b) "")); repeat split.
Qed.

(** the whole loop, dictionary by dictionary *)
Lemma fold_count_book_dictionaries (bks : list Book.t) (a : Library.acc float) :
  let s := Library.st a in
  let s' := Library.st (fold_left (Library.count_book float) bks a) in
  Library.genres s' =
    fold_left (fun d g => Library.incr String.eqb g d) (genres_seen bks) (Library.genres s) /\
  Library.authors s' =
    fold_left (fun d x => Library.incr String.eqb x d) (authors_seen bks) (Library.authors s) /\
  Library.years s' =
    fold_left (fun d y => Library.incr Z.eqb y d) (years_seen bks) (Library.years s) /\
  Library.ratings s' =
    fold_left (fun d r => Library.incr Library.rating_key_eqb r d) (ratings_seen bks)
              (Library.ratings s) /\
  Library.tags s' =
    fold_left (fun d t => Library.incr String.eqb t d) (tags_seen bks) (Library.tags s) /\
  Library.total_books s' = Library.total_books s /\
  Library.available_books s' = Library.available_books s /\
  Library.borrowed_books s' = Library.borrowed_books s.
Proof.
  revert a. induction bks as [|b bks IH]; intro a; cbv zeta.
  - cbn. repeat split.
  - cbn [fold_left].
    destruct (IH (Library.count_book float a b)) as (G & A & Y & R & T & N & Av & Bo).
    destruct (count_book_dictionaries a b) as (G1 & A1 & Y1 & R1 & T1 & N1 & Av1 & Bo1).
    destruct (seen_cons b bks) as (Sg & Sa & Sy & Sr & St).
    cbv zeta in *.
    rewrite G, A, Y, R, T, N, Av, Bo, G1, A1, Y1, R1, T1, N1, Av1, Bo1.
    rewrite Sg, Sa, Sy, Sr, St, !fold_left_app. repeat split.
Qed.

(** the statistics of a library with a book, before the closing steps *)
Lemma get_statistics_dictionaries (lib : Library.t) :
  Library.books lib <> [] ->
  let s := Library.get_statistics float truediv round lib in
  let bks := Library.books lib in
  Library.genres s =
    Library.sorted_desc (fold_left (fun d g => Library.incr String.eqb g d) (genres_seen bks) []) /\
  Library.authors s =
    Library.sorted_desc (fold_left (fun d x => Library.incr String.eqb x d) (authors_seen bks) []) /\
  Library.years s =
    Library.sorted_desc (fold_left (fun d y => Library.incr Z.eqb y d) (years_seen bks) []) /\
  Library.ratings s =
    fold_left (fun d r => Library.incr Library.rating_key_eqb r d) (ratings_seen bks)
              (Library.empty_ratings) /\
  Library.tags s =
    Library.sorted_desc (fold_left (fun d t => Library.incr String.eqb t d) (tags_seen bks) []) /\
  Library.total_books s = Library.len lib /\
  Library.available_books s = Library.count_status "Available" bks /\
  Library.borrowed_books s = Library.count_status "Borrowed" bks.
Proof.
  intro Hne. cbv zeta. unfold Library.get_statistics.
  destruct (Library.books lib) as [|b bks] eqn:Hb; [congruence|].
  set (a0 := Library.mk_acc float _ 0 0).
  destruct (fold_count_book_dictionaries (b :: bks) a0) as (G & A & Y & R & T & N & Av & Bo).
  cbv zeta in *. cbn [Library.genres Library.authors Library.years Library.ratings
                      Library.tags Library.total_books Library.available_books
                      Library.borrowed_books].
  rewrite G, A, Y, R, T, N, Av, Bo. subst a0. cbn. repeat split.
Qed.

End StatisticsCounts.

Lemma string_eqb_spec (x y : string) : String.eqb x y = true <-> x = y.
Proof. apply String.eqb_eq. Qed.

Lemma filter_disjoint_length {A : Type} (p q : A -> bool) (l : list A) :
  (forall x, p x = true -> q x = false) ->
  (List.length (filter p l) + List.length (filter q l) <= List.length l)%nat.
Proof.
  intro H. induction l as [|x l IH]; simpl; [lia|].
  destruct (p x) eqn:Ep.
  - rewrite (H x Ep). simpl. lia.
  - destruct (q x); simpl; lia.
Qed.

Lemma count_of_empty_ratings (key : Library.rating_key) :
  count_of Library.rating_key_eqb key Library.empty_ratings = 0.
Proof.
  unfold Library.empty_ratings. destruct key as [r|];
    cbn [count_of Library.rating_key_eqb]; [|reflexivity].
  repeat match goal with |- context [?x =? r] => destruct (x =? r) end; reflexivity.
Qed.

Section StatisticsTheorems.

Variable float : Type.
Variable truediv : Z -> Z -> float.
Variable round : float -> Z -> float.

(** X22.  Every book is counted in exactly one rating bucket: the bucket
    of an integer holds the number of books with that rating, "unrated"
    holds the number of books whose rating is absent or 0, and the buckets
    add up to [total_books], which is the number of books. *)
Theorem rating_buckets_count (lib : Library.t) :
  let s := Library.get_statistics float truediv round lib in
  total_count (Library.ratings s) = Library.total_books s /\
  Library.total_books s = Library.len lib /\
  (forall key,
     count_of Library.rating_key_eqb key (Library.ratings s) =
     occurrences Library.rating_key_eqb key (ratings_seen (Library.books lib))).
Proof.
  cbv zeta. destruct (Library.books lib) as [|b bks] eqn:Hb.
  - unfold Library.get_statistics, Library.len. rewrite Hb.
    cbn [Library.ratings Library.total_books List.length].
    split; [reflexivity | split; [reflexivity|]].
    intro key. apply count_of_empty_ratings.
  - assert (Hne : Library.books lib <> []) by congruence.
    destruct (get_statistics_dictionaries float truediv round lib Hne)
      as (_ & _ & _ & R & _ & N & _ & _).
    cbv zeta in R, N. rewrite R, N, Hb. split; [| split; [reflexivity|]].
    + rewrite total_count_tally. unfold Library.len, ratings_seen.
      rewrite Hb, length_map. reflexivity.
    + intro key. rewrite (count_of_tally _ _ rating_key_eqb_spec).
      rewrite count_of_empty_ratings. lia.
Qed.

(** X23.  Each histogram counts what it says: for every genre, author,
    year and tag, the count listed under it (0 when it is not listed) is
    the number of books with that non-empty genre, of books by that
    author, of books with that year (a year of 0 counting as none), and of
    occurrences of the tag in the tag lists of the books. *)
Theorem histograms_count (lib : Library.t) :
  let s := Library.get_statistics float truediv round lib in
  let bks := Library.books lib in
  (forall g, count_of String.eqb g (Library.genres s) =
             occurrences String.eqb g (genres_seen bks)) /\
  (forall a, count_of String.eqb a (Library.authors s) =
             occurrences String.eqb a (authors_seen bks)) /\
  (forall y, count_of Z.eqb y (Library.years s) = occurrences Z.eqb y (years_seen bks)) /\
  (forall t, count_of String.eqb t (Library.tags s) =
             occurrences String.eqb t (tags_seen bks)).
Proof.
  cbv zeta. destruct (Library.books lib) as [|b bks] eqn:Hb.
  - unfold Library.get_statistics. rewrite Hb. cbn. repeat split.
  - assert (Hne : Library.books lib <> []) by congruence.
    destruct (get_statistics_dictionaries float truediv round lib Hne)
      as (G & A & Y & _ & T & _).
    cbv zeta in G, A, Y, T. rewrite G, A, Y, T, Hb.
    repeat split; intro k.
    + rewrite (count_of_sorted_desc _ _ string_eqb_spec)
        by (apply (keys_tally_NoDup _ _ string_eqb_spec); constructor).
      rewrite (count_of_tally _ _ string_eqb_spec). reflexivity.
    + rewrite (count_of_sorted_desc _ _ string_eqb_spec)
        by (apply (keys_tally_NoDup _ _ string_eqb_spec); constructor).
      rewrite (count_of_tally _ _ string_eqb_spec). reflexivity.
    + rewrite (count_of_sorted_desc _ _ Z.eqb_eq)
        by (apply (keys_tally_NoDup _ _ Z.eqb_eq); constructor).
      rewrite (count_of_tally _ _ Z.eqb_eq). reflexivity.
    + rewrite (count_of_sorted_desc _ _ string_eqb_spec)
        by (apply (keys_tally_NoDup _ _ string_eqb_spec); constructor).
      rewrite (count_of_tally _ _ string_eqb_spec). reflexivity.
Qed.

Lemma sorted_tally_keys_NoDup {K : Type} (eqb : K -> K -> bool)
    (eqb_spec : forall x y, eqb x y = true <-> x = y) (ks : list K) :
  NoDup (map fst (Library.sorted_desc
                    (fold_left (fun d x => Library.incr eqb x d) ks []))).
Proof.
  eapply Permutation_NoDup.
  - apply Permutation_map. apply Permutation_sym. apply sorted_desc_perm.
  - apply (keys_tally_NoDup _ _ eqb_spec). constructor.
Qed.

(** X24.  The four histograms come sorted: in each of [genres], [authors],
    [years] and [tags] the counts never increase from one entry to the
    next, and no key is listed twice. *)
Theorem histograms_descending (lib : Library.t) :
  let s := Library.get_statistics float truediv round lib in
  (descending (Library.genres s) /\ NoDup (map fst (Library.genres s))) /\
  (descending (Library.authors s) /\ NoDup (map fst (Library.authors s))) /\
  (descending (Library.years s) /\ NoDup (map fst (Library.years s))) /\
  (descending (Library.tags s) /\ NoDup (map fst (Library.tags s))).
Proof.
  cbv zeta. destruct (Library.books lib) as [|b bks] eqn:Hb.
  - unfold Library.get_statistics. rewrite Hb. cbn.
    repeat split; constructor.
  - assert (Hne : Library.books lib <> []) by congruence.
    destruct (get_statistics_dictionaries float truediv round lib Hne)
      as (G & A & Y & _ & T & _).
    cbv zeta in G, A, Y, T. rewrite G, A, Y, T.
    repeat split; try apply sorted_desc_descending.
    + apply (sorted_tally_keys_NoDup _ string_eqb_spec).
    + apply (sorted_tally_keys_NoDup _ string_eqb_spec).
    + apply (sorted_tally_keys_NoDup _ Z.eqb_eq).
    + apply (sorted_tally_keys_NoDup _ string_eqb_spec).
Qed.

(** X25.  The three totals: [total_books] is the number of books,
    [available_books] the number of books whose status is "Available",
    [borrowed_books] the number whose status is "Borrowed"; the two
    together never exceed the total, the rest being the books of any other
    status. *)
Theorem status_counts (lib : Library.t) :
  let s := Library.get_statistics float truediv round lib in
  let bks := Library.books lib in
  Library.total_books s = Z.of_nat (List.length bks) /\
  Library.available_books s =
    Z.of_nat (List.length (filter (fun b => String.eqb (Book.status b) "Available") bks)) /\
  Library.borrowed_books s =
    Z.of_nat (List.length (filter (fun b => String.eqb (Book.status b) "Borrowed") bks)) /\
  Library.available_books s + Library.borrowed_books s <= Library.total_books s.
Proof.
  cbv zeta.
  assert (H : Library.total_books (Library.get_statistics float truediv round lib) =
              Z.of_nat (List.length (Library.books lib)) /\
              Library.available_books (Library.get_statistics float truediv round lib) =
              Library.count_status "Available" (Library.books lib) /\
              Library.borrowed_books (Library.get_statistics float truediv round lib) =
              Library.count_status "Borrowed" (Library.books lib)).
  { destruct (Library.books lib) as [|b bks] eqn:Hb.
    - unfold Library.get_statistics. rewrite Hb. cbn. repeat split.
    - assert (Hne : Library.books lib <> []) by congruence.
      destruct (get_statistics_dictionaries float truediv round lib Hne)
        as (_ & _ & _ & _ & _ & N & Av & Bo).
      cbv zeta in N, Av, Bo. rewrite N, Av, Bo. unfold Library.len. rewrite Hb.
      repeat split. }
  destruct H as (N & Av & Bo). rewrite N, Av, Bo, !count_status_length.
  repeat split.
  pose proof (filter_disjoint_length
                (fun b => String.eqb (Book.status b) "Available")
                (fun b => String.eqb (Book.status b) "Borrowed") (Library.books lib)) as H.
  assert (Hd : forall x : Book.t,
             String.eqb (Book.status x) "Available" = true ->
             String.eqb (Book.status x) "Borrowed" = false).
  { intros x Hx. apply String.eqb_eq in Hx. rewrite Hx. reflexivity. }
  specialize (H Hd). lia.
Qed.

(** The statistics of the two books of the examples. *)
Example statistics_two_books :
  let s := Library.get_statistics float truediv round two_books in
  Library.total_books s = 2 /\ Library.available_books s = 2 /\
  Library.authors s = [("Herbert", 1); ("Austen", 1)] /\
  Library.genres s = [("Science Fiction", 1); ("Novel", 1)] /\
  Library.years s = [(1965, 1)] /\ Library.tags s = [("classic", 1)] /\
  Library.ratings s =
    [ (Library.Stars 1, 0); (Library.Stars 2, 0); (Library.Stars 3, 0);
      (Library.Stars 4, 1); (Library.Stars 5, 0); (Library.Unrated, 1) ].
Proof. repeat split. Qed.

End StatisticsTheorems.

(** Of five books, one without rating and year and one whose rating and
    year are 0: two are unrated, no bucket is made for 0, and no year 0 is
    listed. *)
Lemma rating_buckets_count_witness :
  let s := Library.get_statistics Float.t Float.truediv Float.round five_books in
  count_of Library.rating_key_eqb Library.Unrated (Library.ratings s) = 2 /\
  count_of Library.rating_key_eqb (Library.Stars 4) (Library.ratings s) = 2 /\
  count_of Library.rating_key_eqb (Library.Stars 0) (Library.ratings s) = 0 /\
  total_count (Library.ratings s) = 5.
Proof.
  cbv zeta.
  destruct (rating_buckets_count Float.t Float.truediv Float.round five_books) as (T & N & H).
  cbv zeta in T, N, H. rewrite !H, T, N. repeat split.
Defined.

Lemma histograms_count_witness :
  let s := Library.get_statistics Float.t Float.truediv Float.round five_books in
  count_of Z.eqb 1965 (Library.years s) = 1 /\
  count_of Z.eqb 0 (Library.years s) = 0 /\
  count_of String.eqb "Novel" (Library.genres s) = 2 /\
  count_of String.eqb "" (Library.genres s) = 0 /\
  count_of String.eqb "" (Library.authors s) = 1 /\
  count_of String.eqb "classic" (Library.tags s) = 3.
Proof.
  cbv zeta.
  destruct (histograms_count Float.t Float.truediv Float.round five_books) as (G & A & Y & T).
  cbv zeta in G, A, Y, T. rewrite !G, !A, !Y, !T. repeat split.
Defined.

(** ** The oldest and the newest book *)

Section Extremes.

Variable better : Z -> Z -> bool.
Hypothesis better_trans :
  forall a b c, better a b = true -> better b c = true -> better a c = true.
Hypothesis better_weak :
  forall a b c, better a b = true -> better c b = false -> better a c = true.

Lemma pick_first_best (seen : list Book.t) (o : option (string * Z)) (b : Book.t) :
  first_best better seen o -> first_best better (seen ++ [b]) (pick better o b).
Proof.
  unfold pick. intro H.
  destruct (counted (Book.year b)) as [y|] eqn:Hy.
  - destruct o as [[t oy]|].
    + destruct H as (l1 & x & l2 & Hs & Ht & Hx & H1 & H2).
      destruct (better y oy) eqn:Hb.
      * exists seen, b, []. rewrite Hy. repeat split; [| intros b' y' []].
        intros b' y' Hin Hy'. rewrite Hs in Hin. apply in_app_or in Hin.
        destruct Hin as [Hin | [Hin | Hin]].
        -- apply (better_trans y oy y' Hb). apply (H1 b' y' Hin Hy').
        -- subst b'. rewrite Hx in Hy'. inversion Hy'; subst y'. exact Hb.
        -- apply (better_weak y oy y' Hb). apply (H2 b' y' Hin Hy').
      * exists l1, x, (l2 ++ [b])%list. rewrite Hs, <- app_assoc. simpl.
        repeat split; try assumption.
        intros b' y' Hin Hy'. apply in_app_or in Hin. destruct Hin as [Hin | [Hin | []]].
        -- apply (H2 b' y' Hin Hy').
        -- subst b'. rewrite Hy in Hy'. inversion Hy'; subst y'. exact Hb.
    + exists seen, b, []. rewrite Hy. repeat split; [| intros b' y' []].
      intros b' y' Hin Hy'. simpl in H. rewrite (H b' Hin) in Hy'. discriminate Hy'.
  - destruct o as [[t oy]|].
    + destruct H as (l1 & x & l2 & Hs & Ht & Hx & H1 & H2).
      exists l1, x, (l2 ++ [b])%list. rewrite Hs, <- app_assoc. simpl.
      repeat split; try assumption.
      intros b' y' Hin Hy'. apply in_app_or in Hin. destruct Hin as [Hin | [Hin | []]].
      * apply (H2 b' y' Hin Hy').
      * subst b'. rewrite Hy in Hy'. discriminate Hy'.
    + simpl in *. intros b' Hin. apply in_app_or in Hin. destruct Hin as [Hin | [Hin | []]].
      * apply H. exact Hin.
      * subst b'. exact Hy.
Qed.

Lemma fold_pick_first_best (bks seen : list Book.t) (o : option (string * Z)) :
  first_best better seen o ->
  first_best better (seen ++ bks) (fold_left (pick better) bks o).
Proof.
  revert seen o. induction bks as [|b bks IH]; intros seen o H; simpl.
  - rewrite app_nil_r. exact H.
  - replace (seen ++ b :: bks)%list with ((seen ++ [b]) ++ bks)%list
      by (rewrite <- app_assoc; reflexivity).
    apply IH. apply pick_first_best. exact H.
Qed.

End Extremes.

Section StatisticsExtremes.

Variable float : Type.
Variable truediv : Z -> Z -> float.
Variable round : float -> Z -> float.

Lemma count_book_extremes (a : Library.acc float) (b : Book.t) :
  Library.oldest_book (Library.st (Library.count_book float a b)) =
    pick Z.ltb (Library.oldest_book (Library.st a)) b /\
  Library.newest_book (Library.st (Library.count_book float a b)) =
    pick Z.gtb (Library.newest_book (Library.st a)) b.
Proof.
  unfold Library.count_book, pick.
  rewrite <- ?truthy_counted.
  destruct (Library.truthy (Book.year b)); destruct (Library.truthy (Book.rating b));
    cbn; split; try reflexivity;
    try (destruct (Library.oldest_book (Library.st a)) as [[? ?]|]; reflexivity);
    try (destruct (Library.newest_book (Library.st a)) as [[? ?]|]; reflexivity).
Qed.

Lemma fold_count_book_extremes (bks : list Book.t) (a : Library.acc float) :
  Library.oldest_book (Library.st (fold_left (Library.count_book float) bks a)) =
    fold_left (pick Z.ltb) bks (Library.oldest_book (Library.st a)) /\
  Library.newest_book (Library.st (fold_left (Library.count_book float) bks a)) =
    fold_left (pick Z.gtb) bks (Library.newest_book (Library.st a)).
Proof.
  revert a. induction bks as [|b bks IH]; intro a; simpl; [split; reflexivity|].
  destruct (IH (Library.count_book float a b)) as [Ho Hn].
  destruct (count_book_extremes a b) as [Ho1 Hn1].
  rewrite Ho, Hn, Ho1, Hn1. split; reflexivity.
Qed.

(** X26.  [oldest_book] is the title and the year of the first book, in
    the order of the catalogue, whose year is the smallest, and
    [newest_book] of the first book whose year is the largest: every book
    before it has a strictly larger (smaller) year, no book after it has a
    smaller (larger) one.  A year that is absent or 0 does not count, and
    both are [None] exactly when no book has a year. *)
Theorem oldest_newest_first_best (lib : Library.t) :
  let s := Library.get_statistics float truediv round lib in
  first_best Z.ltb (Library.books lib) (Library.oldest_book s) /\
  first_best Z.gtb (Library.books lib) (Library.newest_book s).
Proof.
  cbv zeta. unfold Library.get_statistics.
  destruct (Library.books lib) as [|b bks] eqn:Hb.
  - cbn. split; intros x [].
  - set (a0 := Library.mk_acc float _ 0 0).
    destruct (fold_count_book_extremes (b :: bks) a0) as [Ho Hn].
    cbn [Library.oldest_book Library.newest_book]. rewrite Ho, Hn. subst a0.
    cbn [Library.st Library.oldest_book Library.newest_book].
    split.
    + apply (fold_pick_first_best Z.ltb) with (seen := []) (o := None).
      * intros x y z H1 H2. apply Z.ltb_lt in H1, H2. apply Z.ltb_lt. lia.
      * intros x y z H1 H2. apply Z.ltb_lt in H1. apply Z.ltb_ge in H2.
        apply Z.ltb_lt. lia.
      * intros x [].
    + apply (fold_pick_first_best Z.gtb) with (seen := []) (o := None).
      * intros x y z H1 H2. rewrite Z.gtb_ltb in *. apply Z.ltb_lt in H1, H2.
        apply Z.ltb_lt. lia.
      * intros x y z H1 H2. rewrite Z.gtb_ltb in *. apply Z.ltb_lt in H1.
        apply Z.ltb_ge in H2. apply Z.ltb_lt. lia.
      * intros x [].
Qed.

End StatisticsExtremes.

Lemma counted_not_zero (o : option Z) : counted o <> Some 0.
Proof. destruct o as [[|p|p]|]; discriminate. Qed.

(** Of the five books the oldest is the one of 1603 and the newest the one
    of 1965; the book whose year is 0 is neither. *)
Lemma oldest_newest_first_best_witness :
  first_best Z.ltb (Library.books five_books) (Some ("Hamlet", 1603)) /\
  first_best Z.gtb (Library.books five_books) (Some ("Dune", 1965)).
Proof.
  exact (oldest_newest_first_best Float.t Float.truediv Float.round five_books).
Defined.

(** The description fits no other answer: not the book whose year is 0,
    and not the absence of an answer. *)
Example first_best_ignores_zero :
  ~ first_best Z.ltb (Library.books five_books) (Some ("Beowulf", 0)) /\
  ~ first_best Z.ltb (Library.books five_books) None.
Proof.
  split.
  - intros (l1 & b & l2 & _ & _ & H & _). exact (counted_not_zero _ H).
  - intro H. specialize (H dune (or_introl eq_refl)). discriminate H.
Qed.

(** ** The order of the entries that count the same *)

Section Ties.

Variable K : Type.
Variable eqb : K -> K -> bool.
Hypothesis eqb_spec : forall x y, eqb x y = true <-> x = y.

Lemma filter_filter_and {A : Type} (f g : A -> bool) (l : list A) :
  filter f (filter g l) = filter (fun x => f x && g x) l.
Proof.
  induction l as [|x l IH]; simpl; [reflexivity|].
  destruct (g x); simpl; rewrite ?andb_true_r, ?andb_false_r;
    [destruct (f x); rewrite IH; reflexivity | exact IH].
Qed.

Lemma filter_all {A : Type} (l : list A) : filter (fun _ => true) l = l.
Proof. induction l as [|x l IH]; simpl; [reflexivity | rewrite IH; reflexivity]. Qed.

Lemma existsb_snoc (k x : K) (l : list K) :
  existsb (fun k' => eqb k' k) (l ++ [x]) = existsb (fun k' => eqb k' k) l || eqb x k.
Proof. rewrite existsb_app. simpl. rewrite orb_false_r. reflexivity. Qed.

(** the keys of the dictionary the loop builds: those it started with,
    then the new ones in the order of their first occurrence *)
Lemma keys_tally (ks : list K) (d : list (K * Z)) :
  map fst (fold_left (fun d x => Library.incr eqb x d) ks d) =
  (map fst d ++
   filter (fun k => negb (existsb (fun k' => eqb k' k) (map fst d)))
          (first_seen eqb ks))%list.
Proof.
  revert d. induction ks as [|x ks IH]; intro d; simpl.
  - rewrite app_nil_r. reflexivity.
  - rewrite IH, keys_incr.
    destruct (existsb (fun k' => eqb k' x) (map fst d)) eqn:E; simpl.
    + rewrite app_nil_r. f_equal. rewrite filter_filter_and.
      apply filter_ext. intro k.
      destruct (eqb k x) eqn:Ek; simpl; [|rewrite andb_true_r; reflexivity].
      apply eqb_spec in Ek. subst k. rewrite E. reflexivity.
    + rewrite <- app_assoc. simpl. f_equal. f_equal.
      rewrite filter_filter_and. apply filter_ext. intro k.
      rewrite existsb_snoc, negb_orb, (eqb_sym K eqb eqb_spec x k). reflexivity.
Qed.

Lemma count_of_head_other (k k' : K) (n : Z) (d : list (K * Z)) :
  eqb k k' = false -> count_of eqb k' ((k, n) :: d) = count_of eqb k' d.
Proof. intro H. simpl. rewrite H. reflexivity. Qed.

(** In a dictionary without repeated keys, the keys of one count are the
    keys that count that much. *)
Lemma keys_of_count (c : Z) (d : list (K * Z)) :
  NoDup (map fst d) ->
  map fst (filter (fun kv => snd kv =? c) d) =
  filter (fun k => count_of eqb k d =? c) (map fst d).
Proof.
  induction d as [|[k n] d IH]; intro Hnd; [reflexivity|].
  inversion Hnd as [|? ? Hk Hd]; subst.
  cbn [filter map fst snd count_of]. rewrite (eqb_same K eqb eqb_spec k).
  assert (Htail : filter (fun k' => count_of eqb k' ((k, n) :: d) =? c) (map fst d) =
                  filter (fun k' => count_of eqb k' d =? c) (map fst d)).
  { apply filter_ext_in. intros k' Hin. rewrite count_of_head_other; [reflexivity|].
    destruct (eqb k k') eqn:E; [|reflexivity].
    apply eqb_spec in E. subst k'. contradiction. }
  cbn [count_of] in Htail. rewrite Htail, <- (IH Hd).
  destruct (n =? c); reflexivity.
Qed.

Lemma tally_ties (c : Z) (ks : list K) :
  map fst (filter (fun kv => snd kv =? c)
                  (Library.sorted_desc (fold_left (fun d x => Library.incr eqb x d) ks []))) =
  filter (fun k => occurrences eqb k ks =? c) (first_seen eqb ks).
Proof.
  rewrite sorted_desc_stable.
  rewrite keys_of_count by (apply (keys_tally_NoDup K eqb eqb_spec); constructor).
  rewrite keys_tally. cbn [map app existsb negb]. rewrite filter_all.
  apply filter_ext. intro k. rewrite (count_of_tally K eqb eqb_spec). reflexivity.
Qed.

End Ties.

Section StatisticsTies.

Variable float : Type.
Variable truediv : Z -> Z -> float.
Variable round : float -> Z -> float.

(** X27.  Entries that count the same keep the order in which the books
    brought them up: in each of the four histograms the keys listed with
    the count [c] are, in this order, the keys that occur [c] times, taken
    in the order of their first occurrence in the catalogue. *)
Theorem histogram_ties_first_seen (lib : Library.t) (c : Z) :
  let s := Library.get_statistics float truediv round lib in
  let bks := Library.books lib in
  map fst (filter (fun kv => snd kv =? c) (Library.genres s)) =
    filter (fun g => occurrences String.eqb g (genres_seen bks) =? c)
           (first_seen String.eqb (genres_seen bks)) /\
  map fst (filter (fun kv => snd kv =? c) (Library.authors s)) =
    filter (fun a => occurrences String.eqb a (authors_seen bks) =? c)
           (first_seen String.eqb (authors_seen bks)) /\
  map fst (filter (fun kv => snd kv =? c) (Library.years s)) =
    filter (fun y => occurrences Z.eqb y (years_seen bks) =? c)
           (first_seen Z.eqb (years_seen bks)) /\
  map fst (filter (fun kv => snd kv =? c) (Library.tags s)) =
    filter (fun t => occurrences String.eqb t (tags_seen bks) =? c)
           (first_seen String.eqb (tags_seen bks)).
Proof.
  cbv zeta. destruct (Library.books lib) as [|b bks] eqn:Hb.
  - unfold Library.get_statistics. rewrite Hb. cbn. repeat split.
  - assert (Hne : Library.books lib <> []) by congruence.
    destruct (get_statistics_dictionaries float truediv round lib Hne)
      as (G & A & Y & _ & T & _).
    cbv zeta in G, A, Y, T. rewrite G, A, Y, T, Hb.
    split; [| split; [| split]].
    + apply (tally_ties _ _ string_eqb_spec).
    + apply (tally_ties _ _ string_eqb_spec).
    + apply (tally_ties _ _ Z.eqb_eq).
    + apply (tally_ties _ _ string_eqb_spec).
Qed.

End StatisticsTies.

(** ** More on serialization, lending and filtering *)

(** X28.  [from_dict] undoes [to_dict] exactly: deserializing the
    serialization of any book, rated or not, borrowed or not, returns
    that very book, whatever the day; so two books with the same
    serialization are the same book. *)
Theorem deserialize_serialized :
  (forall today b, Book.from_dict today (Book.to_dict b) = Ok b) /\
  (forall b b', Book.to_dict b = Book.to_dict b' -> b = b').
Proof.
  split.
  - apply from_dict_to_dict.
  - intros b b' H.
    pose proof (from_dict_to_dict 1 b) as Hb. rewrite H, from_dict_to_dict in Hb.
    inversion Hb. reflexivity.
Qed.

Lemma deserialize_serialized_witness :
  Book.from_dict 1 (Book.to_dict emma) = Ok emma /\ emma = emma.
Proof.
  destruct deserialize_serialized as [H1 H2].
  split; [apply H1 | apply H2; reflexivity].
Defined.

Lemma add_days_out_of_range (today days : Z) :
  ~ Datetime.in_range (today + days) ->
  exists msg, Datetime.add_days today days = Raise (OverflowError msg).
Proof.
  intro H. unfold Datetime.add_days.
  destruct (999999999 <? Z.abs days); [eexists; reflexivity|].
  destruct (Datetime.in_rangeb (today + days)) eqn:E; [|eexists; reflexivity].
  exfalso. apply H. unfold Datetime.in_rangeb in E. unfold Datetime.in_range.
  apply andb_true_iff in E. destruct E as [E1 E2].
  apply Z.leb_le in E1, E2. split; assumption.
Qed.

(** X29.  A loan whose due date falls outside the calendar of [datetime]
    (years 1 to 9999) fails half way: on a book whose status is
    "Available", [lend] raises [OverflowError], and the book is left with
    the status "Borrowed", the borrower and the date of the loan written,
    and its due date not written. *)
Theorem lend_overflow_half_written (today : Z) (borrower : string) (days : Z) (b : Book.t) :
  Book.status b = "Available" ->
  ~ Datetime.in_range (today + days) ->
  exists msg b',
    Book.lend today borrower days b = (Raise (OverflowError msg), b') /\
    Book.status b' = "Borrowed" /\
    Book.borrowed_by b' = borrower /\
    Book.borrowed_date b' = Datetime.strftime today /\
    Book.due_date b' = Book.due_date b /\
    same_catalogue_entry b b'.
Proof.
  intros Hst Hr. unfold Book.lend. rewrite Hst. simpl.
  destruct (add_days_out_of_range today days Hr) as (msg & E). rewrite E.
  exists msg. eexists. split; [reflexivity|].
  unfold same_catalogue_entry. simpl. repeat split.
Qed.

Lemma lend_overflow_half_written_witness :
  exists msg b',
    Book.lend 738900 "Ada" 4000000 dune = (Raise (OverflowError msg), b') /\
    Book.status b' = "Borrowed" /\ Book.due_date b' = "".
Proof.
  destruct (lend_overflow_half_written 738900 "Ada" 4000000 dune)
    as (msg & b' & E & S & _ & _ & D & _).
  - reflexivity.
  - unfold Datetime.in_range, Datetime.MINORDINAL, Datetime.MAXORDINAL. lia.
  - exists msg, b'. split; [exact E | split; [exact S | exact D]].
Defined.





